(** * betterspeedtest: a shallow embedding of [betterspeedtest.py]

    The program measures throughput with parallel [netperf] sessions while a
    latency probe pings a host.  Its numbers are Python [int]s (unbounded,
    modelled by [Z]) and Python [float]s (IEEE 754 binary64, modelled by the
    standard library's [spec_float] at precision 53 and maximal exponent
    1024).  Exceptions are modelled by the [Raise] results of an error monad,
    and the effects of [main] (printing, launching processes, sleeping,
    starting the probe) by the trace of events it emits. *)

From Stdlib Require Import ZArith List Bool Lia String Ascii.
From Stdlib Require Import Permutation Sorted.
From Stdlib Require Import DecimalString.
From Stdlib Require Import Floats.SpecFloat.
Import ListNotations.

Local Open Scope string_scope.
Local Open Scope list_scope.
Local Open Scope Z_scope.

(** ** Exceptions and results *)

(** The exceptions the modelled code can raise.  [OSError] stands for a
    failure to launch the subprocess and [ProbeError] for the errors of the
    probing library; [IndexError] is what the percentile routine may answer
    on an empty sequence. *)
Inductive exn : Type :=
| ZeroDivisionError
| OverflowError
| ValueError
| IndexError
| OSError
| ProbeError.

Inductive result (A : Type) : Type :=
| Ok (a : A)
| Raise (e : exn).
Arguments Ok {A} a.
Arguments Raise {A} e.

Definition rbind {A B : Type} (r : result A) (k : A -> result B) : result B :=
  match r with
  | Ok a => k a
  | Raise e => Raise e
  end.

Declare Scope result_scope.
Delimit Scope result_scope with result.
Notation "x <- c ;; k" := (rbind c (fun x => k))
  (at level 61, c at next level, right associativity) : result_scope.

(** ** Python floats *)

Module PyFloat.

Definition prec : Z := 53.
Definition emax : Z := 1024.

Definition float : Type := spec_float.

Definition fadd : float -> float -> float := SFadd prec emax.
Definition fsub : float -> float -> float := SFsub prec emax.
Definition fmul : float -> float -> float := SFmul prec emax.
Definition fdiv : float -> float -> float := SFdiv prec emax.
Definition fltb : float -> float -> bool := SFltb.
Definition fleb : float -> float -> bool := SFleb.

(** The double nearest to an integer (ties to even); integers beyond the
    range of doubles give an infinity. *)
Definition of_int (n : Z) : float := binary_normalize prec emax n 0 false.

Definition is_zero (x : float) : bool :=
  match x with
  | S754_zero _ => true
  | _ => false
  end.

Definition is_finite (x : float) : bool :=
  match x with
  | S754_zero _ | S754_finite _ _ _ => true
  | _ => false
  end.

(** The least integer not below [(-1)^s * m * 2^e]. *)
Definition ceil_finite (s : bool) (m : positive) (e : Z) : Z :=
  let n := cond_Zopp s (Zpos m) in
  match e with
  | Zneg k => - ((- n) / 2 ^ Zpos k)
  | _ => n * 2 ^ e
  end.

(** [float(n)] for an [int]: [OverflowError] when [n] is too large. *)
Definition float_of_int (n : Z) : result float :=
  match of_int n with
  | S754_infinity _ => Raise OverflowError
  | x => Ok x
  end.

(** [a / b] for an [int] [a] and a [float] [b]: the [int] is converted
    first, then a zero divisor raises. *)
Definition truediv_int_float (a : Z) (b : float) : result float :=
  (x <- float_of_int a ;;
   if is_zero b then Raise ZeroDivisionError else Ok (fdiv x b))%result.

(** [a * b] for an [int] [a] and a [float] [b]. *)
Definition mul_int_float (a : Z) (b : float) : result float :=
  (x <- float_of_int a ;; Ok (fmul x b))%result.

(** [math.ceil(x)]: an [int]; NaN and the infinities raise. *)
Definition ceil (x : float) : result Z :=
  match x with
  | S754_nan => Raise ValueError
  | S754_infinity _ => Raise OverflowError
  | S754_zero _ => Ok 0
  | S754_finite s m e => Ok (ceil_finite s m e)
  end.

(** Truth value of a float: zero of either sign is false, NaN is true. *)
Definition truthy (x : float) : bool := negb (is_zero x).

(** Decimal literals used in the examples, as the nearest doubles. *)
Definition dec (num den : Z) : float := fdiv (of_int num) (of_int den).

End PyFloat.
Import PyFloat.

(** ** Derived timing, lines 46-47 of [main]

    [count = int(ceil(args.length / args.interval))] and
    [length = int(ceil(count * args.interval))]; [int] of an [int] is the
    identity. *)
Definition timing (length : Z) (interval : float) : result (Z * Z) :=
  (q <- truediv_int_float length interval ;;
   count <- ceil q ;;
   p <- mul_int_float count interval ;;
   length' <- ceil p ;;
   Ok (count, length'))%result.


(** ** Python values used by the report *)

(** A number is an [int] or a [float]: [sum] over no session is the [int]
    [0], over some sessions a [float]. *)
Inductive num : Type :=
| Int (n : Z)
| Flt (x : float).

(** [a + x] for a number [a] and a float [x]. *)
Definition num_add (a : num) (x : float) : num :=
  match a with
  | Int n => Flt (fadd (of_int n) x)
  | Flt y => Flt (fadd y x)
  end.

(** [sum(speeds)]: the additions are made from the left, starting at the
    [int] [0]. *)
Definition py_sum (speeds : list float) : num :=
  fold_left num_add speeds (Int 0).

(** Truth value of the optional [speed] argument of [print_result]. *)
Definition speed_truthy (speed : option num) : bool :=
  match speed with
  | None => false
  | Some (Int n) => negb (n =? 0)
  | Some (Flt x) => truthy x
  end.

(** [bytes.strip()]: ASCII white space removed at both ends. *)
Definition is_space (c : ascii) : bool :=
  let n := nat_of_ascii c in
  ((9 <=? n) && (n <=? 13))%nat || (n =? 32)%nat.

Fixpoint lstrip (s : string) : string :=
  match s with
  | EmptyString => EmptyString
  | String c s' => if is_space c then lstrip s' else s
  end.

Fixpoint rstrip (s : string) : string :=
  match s with
  | EmptyString => EmptyString
  | String c s' =>
      match rstrip s' with
      | EmptyString => if is_space c then EmptyString else String c EmptyString
      | t => String c t
      end
  end.

Definition strip (s : string) : string := rstrip (lstrip s).

(** [list(sorted(rtts))] by insertion; floats are compared with [<]. *)
Fixpoint insert_sorted (x : float) (l : list float) : list float :=
  match l with
  | [] => [x]
  | y :: l' => if fltb x y then x :: l else y :: insert_sorted x l'
  end.

Definition sorted (l : list float) : list float :=
  fold_left (fun acc x => insert_sorted x acc) l [].

(** ** The data of a run *)

(** [args]: the parsed command line ([--log-level] is not read by [main]). *)
Record Namespace : Type := {
  proto : Z;
  host : string;
  ping : string;
  direction : string;
  length : Z;
  interval : float;
  warmup : Z;
  num_ : Z;
  idle : bool
}.

(** The probe's answer, the fields of the library's host object that
    [print_result] reads. *)
Record Host : Type := {
  rtts : list float;
  packets_sent : Z;
  packet_loss : float;
  min_rtt : float;
  avg_rtt : float;
  max_rtt : float;
  jitter : float
}.

(** What is outside the program during one run: whether the k-th launch of
    the generator succeeds, what the k-th process writes on its standard
    output and its exit status, and what the probe answers. *)
Record World : Type := {
  spawn_ok : nat -> bool;
  proc_stdout : nat -> string;
  proc_returncode : nat -> Z;
  ping_outcome : result Host
}.

(** The arguments of one call of [run_netperf]. *)
Record netperf_call : Type := {
  np_proto : Z;
  np_host : string;
  np_direction : string;
  np_length : Z
}.

(** Lines written on the standard output.  Numbers are kept as values; the
    source formats them with two or three decimals. *)
Inductive line : Type :=
| LIdleBanner (ping_host : string) (count : Z) (interval : float) (length : Z)
| LLoadBanner (n : Z) (proto : string) (direction host ping_host : string)
              (rate : float) (length : Z)
| LWarmup (seconds : Z)
| LRunning
| LThroughput (dir_msg : string) (speed : num)
| LLatency (sent : Z) (loss_percent : float)
| LStat (label : string) (value : float).

(** What [main] does to the outside, in order.  A launch is recorded with
    the arguments of the call of [run_netperf] and with the program and the
    words it is started with. *)
Inductive event : Type :=
| EPrint (l : line)
| ESpawn (c : netperf_call) (argv : list string)
| ESleep (seconds : Z)
| EPing (target : string) (count : Z) (interval : float)
| EGather (sessions : nat)
| EAwaitPing.

(** ** Computations with a trace *)

Definition M (A : Type) : Type := (list event * result A)%type.

Definition ret {A : Type} (a : A) : M A := ([], Ok a).

Definition bind {A B : Type} (c : M A) (k : A -> M B) : M B :=
  match c with
  | (t, Ok a) => let (t', r) := k a in (t ++ t', r)
  | (t, Raise e) => (t, Raise e)
  end.

Definition emit (e : event) : M unit := ([e], Ok tt).
Definition print (l : line) : M unit := emit (EPrint l).
Definition lift {A : Type} (r : result A) : M A := ([], r).

Declare Scope trace_scope.
Delimit Scope trace_scope with trace.
Notation "x <- c ;; k" := (bind c (fun x => k))
  (at level 61, c at next level, right associativity) : trace_scope.
Notation "c ;; k" := (bind c (fun _ => k))
  (at level 61, right associativity) : trace_scope.

Definition NETPERF : string := "netperf".

(** ** The command line of a session, lines 16-19 of [run_netperf] *)

(** [str(n)] for an [int], as the f-string formats it. *)
Definition str_int (n : Z) : string := NilZero.string_of_int (Z.to_int n).

(** [cmd = f'-{proto} -H {host} -t {direction} -l {length} -v 0 -P 0']. *)
Definition command (proto : Z) (host direction : string) (length : Z)
    : string :=
  ("-" ++ str_int proto ++ " -H " ++ host ++ " -t " ++ direction ++
   " -l " ++ str_int length ++ " -v 0 -P 0")%string.

(** [shlex.split]: the words of a text as a POSIX shell would read them.
    White space (space, tab, carriage return, line feed) separates words; a
    single quote keeps everything up to the next single quote; a double
    quote does the same, but a backslash inside it escapes a double quote
    or a backslash; outside quotes a backslash escapes the next character.
    A quote that is not closed, or a backslash at the end, is the
    [ValueError] of the library, here [None]. *)
Definition is_lex_space (c : ascii) : bool :=
  let n := nat_of_ascii c in
  ((n =? 32) || (n =? 9) || (n =? 13) || (n =? 10))%nat.

Definition is_lex_quote (c : ascii) : bool :=
  let n := nat_of_ascii c in ((n =? 39) || (n =? 34))%nat.

Definition is_lex_escape (c : ascii) : bool := (nat_of_ascii c =? 92)%nat.

Definition is_double_quote (c : ascii) : bool := (nat_of_ascii c =? 34)%nat.

(** The states of the reader: between words; inside a word ([quoted]
    tells whether a quote has been seen in it); inside a quote [q]; after
    a backslash, met inside the double quote [back] or outside quotes. *)
Inductive lex_state : Type :=
| LexSpace
| LexWord (token : string) (quoted : bool)
| LexQuote (q : ascii) (token : string)
| LexEscape (back : option ascii) (token : string) (quoted : bool).

Definition push (token : string) (c : ascii) : string :=
  (token ++ String c EmptyString)%string.

Fixpoint shlex_tokens (s : string) (st : lex_state) (acc : list string)
    : option (list string) :=
  match s with
  | EmptyString =>
      match st with
      | LexSpace => Some (rev acc)
      | LexWord token _ => Some (rev (token :: acc))
      | LexQuote _ _ => None
      | LexEscape _ _ _ => None
      end
  | String c s' =>
      match st with
      | LexSpace =>
          if is_lex_space c then shlex_tokens s' LexSpace acc
          else if is_lex_escape c then
            shlex_tokens s' (LexEscape None EmptyString false) acc
          else if is_lex_quote c then
            shlex_tokens s' (LexQuote c EmptyString) acc
          else shlex_tokens s' (LexWord (String c EmptyString) false) acc
      | LexWord token quoted =>
          if is_lex_space c then shlex_tokens s' LexSpace (token :: acc)
          else if is_lex_quote c then shlex_tokens s' (LexQuote c token) acc
          else if is_lex_escape c then
            shlex_tokens s' (LexEscape None token quoted) acc
          else shlex_tokens s' (LexWord (push token c) quoted) acc
      | LexQuote q token =>
          if Ascii.eqb c q then shlex_tokens s' (LexWord token true) acc
          else if is_lex_escape c && is_double_quote q then
            shlex_tokens s' (LexEscape (Some q) token true) acc
          else shlex_tokens s' (LexQuote q (push token c)) acc
      | LexEscape back token quoted =>
          match back with
          | Some q =>
              let token' :=
                if is_lex_escape c || Ascii.eqb c q then token
                else push token "\"%char in
              shlex_tokens s' (LexQuote q (push token' c)) acc
          | None => shlex_tokens s' (LexWord (push token c) quoted) acc
          end
      end
  end.

Definition shlex_split (s : string) : option (list string) :=
  shlex_tokens s LexSpace [].

Section Program.

(** The interpreter's [float(bytes)]: [None] is its [ValueError]. *)
Variable py_float : string -> option float.

(** [numpy.percentile(a, q)] on a sorted list. *)
Variable percentile : list float -> Z -> result float.

(** [run_netperf]: the command line is formatted and split into words;
    when the split raises, no process is created.  Otherwise the generator
    is started with these words, which the system may refuse.  The debug
    message of line 17 is not part of the trace. *)
Definition run_netperf (w : World) (k : nat) (proto : Z) (host direction : string)
    (length : Z) : M nat :=
  (argv <- lift (match shlex_split (command proto host direction length) with
                 | Some words => Ok words
                 | None => Raise ValueError
                 end) ;;
   emit (ESpawn {| np_proto := proto; np_host := host;
                   np_direction := direction; np_length := length |}
           (NETPERF :: argv)) ;;
   if spawn_ok w k then ret k else lift (Raise OSError))%trace.

(** [get_netperf]: the whole standard output, stripped, read as a float.
    The exit status of the process is not looked at. *)
Definition get_netperf (w : World) (proc : nat) : result float :=
  match py_float (strip (proc_stdout w proc)) with
  | Some x => Ok x
  | None => Raise ValueError
  end.

(** [print_result]. *)
Definition print_result (args : Namespace) (res : Host) (speed : option num)
    : M unit :=
  let sorted_rtts := sorted (rtts res) in
  ((match speed with
    | Some v =>
        if speed_truthy speed then
          let dir_msg :=
            if String.eqb (direction args) "up" then "Upload" else "Download" in
          print (LThroughput dir_msg v)
        else ret tt
    | None => ret tt
    end) ;;
   print (LLatency (packets_sent res) (fmul (packet_loss res) (of_int 100))) ;;
   print (LStat "Min:" (min_rtt res)) ;;
   p10 <- lift (percentile sorted_rtts 10) ;;
   print (LStat "10pct:" p10) ;;
   p50 <- lift (percentile sorted_rtts 50) ;;
   print (LStat "Median:" p50) ;;
   print (LStat "Avg:" (avg_rtt res)) ;;
   p90 <- lift (percentile sorted_rtts 90) ;;
   print (LStat "90pct:" p90) ;;
   print (LStat "Max:" (max_rtt res)) ;;
   print (LStat "Jitter:" (jitter res)))%trace.

(** The list comprehension of line 60: [n] launches, numbered from [k]. *)
Fixpoint launch (w : World) (n k : nat) (proto : Z) (host direction : string)
    (length : Z) : M (list nat) :=
  match n with
  | O => ret []
  | S n' =>
      (p <- run_netperf w k proto host direction length ;;
       ps <- launch w n' (S k) proto host direction length ;;
       ret (p :: ps))%trace
  end.

(** [asyncio.gather] over [get_netperf]: the results in the order of the
    processes, or the exception of a session that fails. *)
Fixpoint gather (w : World) (procs : list nat) : result (list float) :=
  match procs with
  | [] => Ok []
  | p :: ps =>
      (x <- get_netperf w p ;;
       xs <- gather w ps ;;
       Ok (x :: xs))%result
  end.

Definition await_ping (w : World) : M Host :=
  (emit EAwaitPing ;; lift (ping_outcome w))%trace.

(** [main]. *)
Definition main (w : World) (args : Namespace) : M unit :=
  let direction' :=
    if String.eqb (direction args) "up" then "TCP_STREAM" else "TCP_MAERTS" in
  (cl <- lift (timing (length args) (interval args)) ;;
   let count := fst cl in
   let length' := snd cl in
   if idle args then
     print (LIdleBanner (ping args) count (interval args) length') ;;
     emit (EPing (ping args) count (interval args)) ;;
     res <- await_ping w ;;
     print_result args res None
   else
     let proto' := if proto args =? 4 then "ipv4" else "ipv6" in
     print (LLoadBanner (num_ args) proto' (direction args) (host args)
              (ping args) (fdiv (of_int 1) (interval args)) length') ;;
     procs <- launch w (Z.to_nat (num_ args)) 0 (proto args) (host args)
                direction' (length' + warmup args + 2) ;;
     (if 0 <? warmup args then
        print (LWarmup (warmup args)) ;; emit (ESleep (warmup args))
      else ret tt) ;;
     print LRunning ;;
     emit (EPing (ping args) count (interval args)) ;;
     emit (EGather (List.length procs)) ;;
     speeds <- lift (gather w procs) ;;
     let speed := py_sum speeds in
     res <- await_ping w ;;
     print_result args res (Some speed))%trace.

End Program.

(** ** Notions used to state the rounding of the float operations *)

(** Nothing was lost in the bits shifted out so far. *)
Definition exact_rec (r : shr_record) : bool := negb (shr_r r || shr_s r).

(** [f] divides the mantissa of a record by [2^k], rounding down, and
    keeps track of whether that was exact. *)
Definition shifts (k : Z) (f : shr_record -> shr_record) : Prop :=
  forall r, 0 <= shr_m r ->
    0 <= shr_m (f r) /\
    shr_m (f r) = shr_m r / 2 ^ k /\
    exact_rec (f r) = exact_rec r && (shr_m r mod 2 ^ k =? 0).

(** The number one and the power [2^1024], which is above every finite
    double, in units of [2^-1074]. *)
Definition one_unit : Z := 2 ^ 1074.
Definition half_unit : Z := 2 ^ 1073.
Definition top_units : Z := 2 ^ 2098.

(** A positive finite double in units of [2^-1074]. *)
Definition units (m : positive) (e : Z) : Z := Zpos m * 2 ^ (e + 1074).

(** The spacing of the doubles around [v], in the same units, and the
    integers [v] that are doubles. *)
Definition grid (v : Z) : Z := 2 ^ Z.max (Zdigits2 v - 53) 0.

Definition representable (v : Z) : Prop := 0 < v /\ v mod grid v = 0.

(** [r] is a faithful rounding of the positive rational [N / D] (in units
    of [2^-1074]): no double lies strictly between them.  A zero is given
    for rationals below the least positive double only, an infinity for
    rationals above every finite double only. *)
Definition faithful (r : float) (N D : Z) : Prop :=
  match r with
  | S754_zero false => N < D
  | S754_finite false m e =>
      bounded prec emax m e = true /\
      (forall v, representable v -> v * D <= N -> v <= units m e) /\
      (forall v, representable v -> N <= v * D -> units m e <= v)
  | S754_infinity false =>
      forall v, representable v -> v < top_units -> v * D < N
  | _ => False
  end.

(** ** Observations on traces *)

Definition spawns (t : list event) : list netperf_call :=
  flat_map (fun e => match e with ESpawn c _ => [c] | _ => [] end) t.

(** The programs started, each with its words. *)
Definition execs (t : list event) : list (list string) :=
  flat_map (fun e => match e with ESpawn _ argv => [argv] | _ => [] end) t.

(** The command line of the sessions of a run whose congruent duration is
    [L], lines 45, 60 and 16, and the words the sessions are started
    with. *)
Definition session_call (args : Namespace) (L : Z) : netperf_call :=
  {| np_proto := proto args; np_host := host args;
     np_direction := if String.eqb (direction args) "up"
                     then "TCP_STREAM" else "TCP_MAERTS";
     np_length := L + warmup args + 2 |}.

Definition session_command (args : Namespace) (L : Z) : string :=
  command (proto args) (host args)
    (if String.eqb (direction args) "up" then "TCP_STREAM" else "TCP_MAERTS")
    (L + warmup args + 2).

Definition words_of (cmd : string) : list string :=
  NETPERF :: match shlex_split cmd with
             | Some words => words
             | None => []
             end.

Definition probes (t : list event) : list (string * Z * float) :=
  flat_map (fun e => match e with EPing h c i => [(h, c, i)] | _ => [] end) t.

Definition printed (t : list event) : list line :=
  flat_map (fun e => match e with EPrint l => [l] | _ => [] end) t.

Definition is_throughput (l : line) : bool :=
  match l with
  | LThroughput _ _ => true
  | _ => false
  end.

Definition is_report_line (l : line) : bool :=
  match l with
  | LThroughput _ _ | LLatency _ _ | LStat _ _ => true
  | _ => false
  end.

(** The throughput lines and the lines of the statistics report among the
    printed lines of a trace. *)
Definition throughput_lines (t : list event) : list line :=
  filter is_throughput (printed t).

Definition report_lines (t : list event) : list line :=
  filter is_report_line (printed t).

(** The same arguments with another direction, the same world with other
    exit statuses. *)
Definition with_direction (args : Namespace) (d : string) : Namespace :=
  {| proto := proto args; host := host args; ping := ping args;
     direction := d; length := length args; interval := interval args;
     warmup := warmup args; num_ := num_ args; idle := idle args |}.

Definition with_returncode (w : World) (rc : nat -> Z) : World :=
  {| spawn_ok := spawn_ok w; proc_stdout := proc_stdout w;
     proc_returncode := rc; ping_outcome := ping_outcome w |}.

(** ** Instances of the two library functions, for the examples *)

Definition digit_of (c : ascii) : option Z :=
  let n := Z.of_nat (nat_of_ascii c) in
  if (48 <=? n) && (n <=? 57) then Some (n - 48) else None.

(** Reads decimal digits: the number read so far, how many digits were
    read, and the rest of the text. *)
Fixpoint read_digits (s : string) (acc count : Z) : Z * Z * string :=
  match s with
  | EmptyString => (acc, count, s)
  | String c s' =>
      match digit_of c with
      | Some d => read_digits s' (10 * acc + d) (count + 1)
      | None => (acc, count, s)
      end
  end.

Definition unsigned_decimal (s : string) : option float :=
  let '(n, k, rest) := read_digits s 0 0 in
  match rest with
  | EmptyString => if 0 <? k then Some (of_int n) else None
  | String "." rest' =>
      let '(n', k', rest'') := read_digits rest' n 0 in
      match rest'' with
      | EmptyString => if 0 <? k + k' then Some (dec n' (10 ^ k')) else None
      | _ => None
      end
  | _ => None
  end.

(** An instance of [float(bytes)] on plain decimal literals, [12.5] or
    [-3] or [.25]: the nearest double as long as the digits make a number
    below [2^53] with at most 22 decimals.  The interpreter reads more
    (exponents, [inf], [nan]); the examples do not use those. *)
Definition decimal_float (s : string) : option float :=
  match strip s with
  | String "-" s' => option_map (SFopp) (unsigned_decimal s')
  | String "+" s' => unsigned_decimal s'
  | s' => unsigned_decimal s'
  end.

(** The greatest integer not above a float, for finite floats. *)
Definition floor_float (x : float) : Z :=
  match x with
  | S754_finite s m e => - ceil_finite (negb s) m e
  | _ => 0
  end.

(** An instance of the percentile: linear interpolation between the two
    nearest ranks of a sorted list, the rank of [q] being
    [(n - 1) * (q / 100)]; an empty list raises. *)
Definition linear_percentile (a : list float) (q : Z) : result float :=
  match a with
  | [] => Raise IndexError
  | x0 :: _ =>
      let n := Z.of_nat (List.length a) in
      let rank := fmul (of_int (n - 1)) (fdiv (of_int q) (of_int 100)) in
      let lo := floor_float rank in
      let hi := Z.min (lo + 1) (n - 1) in
      let t := fsub rank (of_int lo) in
      let xl := nth (Z.to_nat lo) a x0 in
      let xh := nth (Z.to_nat hi) a x0 in
      Ok (fadd xl (fmul (fsub xh xl) t))
  end.

(** ** Sample runs, for the examples *)

Definition nl : string := String (ascii_of_nat 10) EmptyString.

(** The defaults of the command line. *)
Definition default_args : Namespace :=
  {| proto := 4; host := "netperf-west.bufferbloat.net"; ping := "1.1.1.1";
     direction := "up"; length := 30; interval := dec 1 10; warmup := 10;
     num_ := 5; idle := false |}.

Definition with_num (args : Namespace) (n : Z) : Namespace :=
  {| proto := proto args; host := host args; ping := ping args;
     direction := direction args; length := length args;
     interval := interval args; warmup := warmup args; num_ := n;
     idle := idle args |}.

Definition with_interval (args : Namespace) (i : float) : Namespace :=
  {| proto := proto args; host := host args; ping := ping args;
     direction := direction args; length := length args;
     interval := i; warmup := warmup args; num_ := num_ args;
     idle := idle args |}.

(** [--idle --length 5 --interval 1]. *)
Definition idle_args : Namespace :=
  {| proto := 4; host := "netperf-west.bufferbloat.net"; ping := "1.1.1.1";
     direction := "up"; length := 5; interval := of_int 1; warmup := 10;
     num_ := 5; idle := true |}.

(** A probe answer with three samples, and one with none (every packet
    lost). *)
Definition sample_host : Host :=
  {| rtts := [dec 123 10; dec 101 10; dec 150 10]; packets_sent := 3;
     packet_loss := of_int 0; min_rtt := dec 101 10; avg_rtt := dec 1247 100;
     max_rtt := dec 150 10; jitter := dec 355 100 |}.

Definition empty_host : Host :=
  {| rtts := []; packets_sent := 3; packet_loss := of_int 1;
     min_rtt := of_int 0; avg_rtt := of_int 0; max_rtt := of_int 0;
     jitter := of_int 0 |}.

(** Every launch succeeds and every session exits with status 0; the
    sessions report 10.0, 12.5 and then 9.8. *)
Definition sample_world : World :=
  {| spawn_ok := fun _ => true;
     proc_stdout := fun k =>
       match k with
       | O => ("10.0" ++ nl)%string
       | S O => ("12.5" ++ nl)%string
       | _ => ("9.8" ++ nl)%string
       end;
     proc_returncode := fun _ => 0;
     ping_outcome := Ok sample_host |}.

(** The same, but the second session writes an error message. *)
Definition garbled_world : World :=
  {| spawn_ok := fun _ => true;
     proc_stdout := fun k =>
       match k with
       | S O => ("establish control: are you sure there is a netserver?" ++ nl)%string
       | _ => ("10.0" ++ nl)%string
       end;
     proc_returncode := fun _ => 0;
     ping_outcome := Ok sample_host |}.

(** The same as [sample_world], but every session exits with status 1. *)
Definition failing_status_world : World :=
  with_returncode sample_world (fun _ => 1).

(** Every session reports 0.00. *)
Definition stalled_world : World :=
  {| spawn_ok := fun _ => true;
     proc_stdout := fun _ => ("0.00" ++ nl)%string;
     proc_returncode := fun _ => 0;
     ping_outcome := Ok sample_host |}.

(** ** Further observations and sample runs *)

(** The sleeps of a trace. *)
Definition sleeps (t : list event) : list Z :=
  flat_map (fun e => match e with ESleep s => [s] | _ => [] end) t.

(** The events that follow the start of the first probe. *)
Fixpoint after_probe (t : list event) : list event :=
  match t with
  | [] => []
  | EPing _ _ _ :: t' => t'
  | _ :: t' => after_probe t'
  end.

(** Events that neither launch a session, nor sleep, nor start a probe. *)
Definition is_quiet (e : event) : bool :=
  match e with
  | ESpawn _ _ | ESleep _ | EPing _ _ _ => false
  | _ => true
  end.

Definition is_print (e : event) : bool :=
  match e with
  | EPrint _ => true
  | _ => false
  end.

(** Texts made of white space only. *)
Fixpoint all_space (s : string) : bool :=
  match s with
  | EmptyString => true
  | String c s' => is_space c && all_space s'
  end.

(** Texts that the splitting into words leaves as they are: not empty
    and without white space, quote or backslash. *)
Definition is_word_char (c : ascii) : bool :=
  negb (is_lex_space c || is_lex_quote c || is_lex_escape c).

Fixpoint all_word (s : string) : bool :=
  match s with
  | EmptyString => true
  | String c s' => is_word_char c && all_word s'
  end.

Definition is_word (s : string) : bool :=
  match s with
  | EmptyString => false
  | _ => all_word s
  end.

(** The exceptions of the timing computation, of a launch and of a
    session. *)
Definition is_own_exception (e : exn) : bool :=
  match e with
  | ZeroDivisionError | OverflowError | ValueError | OSError => true
  | _ => false
  end.

Definition with_proto (args : Namespace) (p : Z) : Namespace :=
  {| proto := p; host := host args; ping := ping args;
     direction := direction args; length := length args;
     interval := interval args; warmup := warmup args; num_ := num_ args;
     idle := idle args |}.

Definition with_warmup (args : Namespace) (s : Z) : Namespace :=
  {| proto := proto args; host := host args; ping := ping args;
     direction := direction args; length := length args;
     interval := interval args; warmup := s; num_ := num_ args;
     idle := idle args |}.

Definition with_host (args : Namespace) (h : string) : Namespace :=
  {| proto := proto args; host := h; ping := ping args;
     direction := direction args; length := length args;
     interval := interval args; warmup := warmup args; num_ := num_ args;
     idle := idle args |}.

(** The words of the command line of the default run. *)
Definition default_words : list string :=
  ["-4"; "-H"; "netperf-west.bufferbloat.net"; "-t"; "TCP_STREAM";
   "-l"; "42"; "-v"; "0"; "-P"; "0"].

(** The third launch fails. *)
Definition launch_failure_world : World :=
  {| spawn_ok := fun k => (k <? 2)%nat;
     proc_stdout := proc_stdout sample_world;
     proc_returncode := fun _ => 0;
     ping_outcome := Ok sample_host |}.

(** The probe fails. *)
Definition unreachable_world : World :=
  {| spawn_ok := fun _ => true;
     proc_stdout := proc_stdout sample_world;
     proc_returncode := fun _ => 0;
     ping_outcome := Raise ProbeError |}.

(** The first session writes an empty line only. *)
Definition blank_world : World :=
  {| spawn_ok := fun _ => true;
     proc_stdout := fun k =>
       match k with
       | O => nl
       | _ => ("10.0" ++ nl)%string
       end;
     proc_returncode := fun _ => 0;
     ping_outcome := Ok sample_host |}.

(** The sessions of [sample_world], their output indented and followed by
    an empty line. *)
Definition padded_world : World :=
  {| spawn_ok := fun _ => true;
     proc_stdout := fun k => ("  " ++ proc_stdout sample_world k ++ nl)%string;
     proc_returncode := fun _ => 0;
     ping_outcome := Ok sample_host |}.

(** * Binary64 arithmetic: the rounding of [fdiv] and [fmul]

    The floats are read in units of [2^-1074], in which every finite
    double is an integer: [S754_finite s m e] is [m * 2^(e + 1074)]. *)

(** ** Powers of two and the number of binary digits *)

Lemma pow2_pos k : 0 <= k -> 0 < 2 ^ k.
Proof. intros Hk. apply Z.pow_pos_nonneg; lia. Qed.

Lemma pow2_split a b : 0 <= a <= b -> 2 ^ b = 2 ^ (b - a) * 2 ^ a.
Proof. intros H. rewrite <- Z.pow_add_r by lia. f_equal. lia. Qed.

Lemma pow2_le a b : 0 <= a <= b -> 2 ^ a <= 2 ^ b.
Proof. intros H. apply Z.pow_le_mono_r; lia. Qed.

Lemma pow2_lt a b : 0 <= a < b -> 2 ^ a < 2 ^ b.
Proof. intros H. apply Z.pow_lt_mono_r; lia. Qed.

Lemma pow2_lt_inv a b : 0 <= b -> 2 ^ a < 2 ^ b -> a < b.
Proof.
  intros Hb H. destruct (Z_lt_le_dec a b) as [Hlt | Hle]; [exact Hlt |].
  pose proof (pow2_le b a). lia.
Qed.

Lemma mul_lt_cancel a b d : 0 < d -> a * d < b * d -> a < b.
Proof. intros Hd H. now apply Z.mul_lt_mono_pos_r in H. Qed.

Lemma mul_le_cancel a b d : 0 < d -> a * d <= b * d -> a <= b.
Proof. intros Hd H. now apply Z.mul_le_mono_pos_r in H. Qed.

Lemma mul_le_mono a b d : 0 <= d -> a <= b -> a * d <= b * d.
Proof. intros Hd H. now apply Z.mul_le_mono_nonneg_r. Qed.

Lemma mul_lt_mono a b d : 0 < d -> a < b -> a * d < b * d.
Proof. intros Hd H. now apply Z.mul_lt_mono_pos_r. Qed.

(** The named powers of two. *)
Lemma one_unit_pos : 0 < one_unit.
Proof. apply pow2_pos. lia. Qed.

Lemma half_unit_pos : 0 < half_unit.
Proof. apply pow2_pos. lia. Qed.

Lemma one_unit_half : one_unit = 2 * half_unit.
Proof. reflexivity. Qed.

Lemma top_units_one : top_units = 2 ^ 1024 * one_unit.
Proof. reflexivity. Qed.

Lemma pow2_one_unit e : 0 <= e -> 2 ^ (e + 1074) = 2 ^ e * one_unit.
Proof. intros He. unfold one_unit. rewrite Z.pow_add_r by lia. reflexivity. Qed.

Lemma one_unit_split k :
  0 <= k <= 1074 -> one_unit = 2 ^ k * 2 ^ (1074 - k).
Proof.
  intros Hk. unfold one_unit. rewrite <- Z.pow_add_r by lia. f_equal. lia.
Qed.

Lemma one_unit_ge k : 0 <= k <= 1074 -> 2 ^ k <= one_unit.
Proof. intros Hk. apply pow2_le. lia. Qed.

Lemma digits2_pos_size p : digits2_pos p = Pos.size p.
Proof. induction p as [p IH | p IH |]; cbn; now rewrite ?IH. Qed.

Lemma Zdigits2_log2 z : 0 < z -> Zdigits2 z = Z.log2 z + 1.
Proof.
  destruct z as [| p | p]; try lia. intros _. cbn [Zdigits2].
  rewrite digits2_pos_size.
  destruct p as [p | p |]; cbn; try reflexivity; lia.
Qed.

Lemma Zdigits2_bounds z :
  0 < z -> 0 < Zdigits2 z /\ 2 ^ (Zdigits2 z - 1) <= z < 2 ^ Zdigits2 z.
Proof.
  intros Hz. rewrite Zdigits2_log2 by exact Hz.
  pose proof (Z.log2_nonneg z). pose proof (Z.log2_spec z Hz).
  replace (Z.log2 z + 1 - 1) with (Z.log2 z) by lia.
  replace (Z.log2 z + 1) with (Z.succ (Z.log2 z)) by lia. lia.
Qed.

Lemma Zdigits2_unique z k :
  2 ^ (k - 1) <= z < 2 ^ k -> 0 < k -> Zdigits2 z = k.
Proof.
  intros H Hk. assert (Hz : 0 < z) by (pose proof (pow2_pos (k - 1)); lia).
  rewrite Zdigits2_log2 by exact Hz.
  rewrite (Z.log2_unique z (k - 1)); [lia | lia |].
  replace (Z.succ (k - 1)) with k by lia. exact H.
Qed.

Lemma Zdigits2_mono a b : 0 < a <= b -> Zdigits2 a <= Zdigits2 b.
Proof.
  intros H. rewrite !Zdigits2_log2 by lia.
  pose proof (Z.log2_le_mono a b). lia.
Qed.

Lemma Zdigits2_nonneg z : 0 <= Zdigits2 z.
Proof. destruct z; cbn; lia. Qed.

Lemma Zdigits2_mul_pow2 z k :
  0 < z -> 0 <= k -> Zdigits2 (z * 2 ^ k) = Zdigits2 z + k.
Proof.
  intros Hz Hk. destruct (Zdigits2_bounds z Hz) as [Hd [Hlo Hhi]].
  apply Zdigits2_unique; [| lia].
  replace (Zdigits2 z + k - 1) with (Zdigits2 z - 1 + k) by lia.
  rewrite !Z.pow_add_r by lia.
  pose proof (pow2_pos k Hk). split; nia.
Qed.

Lemma Zdigits2_div_pow2 z n :
  0 < z -> 0 <= n < Zdigits2 z -> Zdigits2 (z / 2 ^ n) = Zdigits2 z - n.
Proof.
  intros Hz Hn. destruct (Zdigits2_bounds z Hz) as [Hd [Hlo Hhi]].
  pose proof (pow2_pos n ltac:(lia)) as Hp.
  apply Zdigits2_unique; [| lia]. split.
  - apply Z.div_le_lower_bound; [lia |].
    rewrite Z.mul_comm, <- Z.pow_add_r by lia.
    replace (Zdigits2 z - n - 1 + n) with (Zdigits2 z - 1) by lia. exact Hlo.
  - apply Z.div_lt_upper_bound; [lia |].
    rewrite <- Z.pow_add_r by lia.
    replace (n + (Zdigits2 z - n)) with (Zdigits2 z) by lia. exact Hhi.
Qed.

(** A number below [2^k] has at most [k] digits. *)
Lemma Zdigits2_le_of_lt z k : 0 <= z < 2 ^ k -> 0 <= k -> Zdigits2 z <= k.
Proof.
  intros [Hz Hlt] Hk. destruct (Z.eq_dec z 0) as [-> | Hnz]; [cbn; lia |].
  destruct (Zdigits2_bounds z ltac:(lia)) as [Hd [Hlo _]].
  assert (Zdigits2 z - 1 < k) by (apply pow2_lt_inv; lia). lia.
Qed.

Lemma Zdigits2_gt_of_le z k : 2 ^ k <= z -> 0 <= k -> k < Zdigits2 z.
Proof.
  intros Hle Hk. pose proof (pow2_pos k Hk).
  destruct (Zdigits2_bounds z ltac:(lia)) as [Hd [_ Hhi]].
  apply pow2_lt_inv; lia.
Qed.

(** ** Shifting a mantissa to the right *)

Lemma exact_rec_of_loc m l :
  exact_rec (shr_record_of_loc m l) = true <-> l = loc_Exact.
Proof. destruct l as [| []]; cbn; split; congruence. Qed.

Lemma loc_of_exact_rec r :
  loc_of_shr_record r = loc_Exact <-> exact_rec r = true.
Proof. destruct r as [m [] []]; cbn; split; congruence. Qed.

Lemma shr_m_of_loc m l : shr_m (shr_record_of_loc m l) = m.
Proof. destruct l as [| []]; reflexivity. Qed.

Lemma shifts_shr_1 : shifts 1 shr_1.
Proof.
  intros [m r s] Hm. cbn [shr_m] in *. change (2 ^ 1) with 2.
  assert (Hdiv : forall p q,
             0 <= p < 2 -> (2 * q + p) / 2 = q /\ (2 * q + p) mod 2 = p).
  { intros p q Hp. split; symmetry.
    - apply Z.div_unique with (r := p); lia.
    - apply Z.mod_unique with (q := q); lia. }
  unfold exact_rec.
  destruct m as [| [p | p |] | p]; try lia; cbn [shr_1 shr_m shr_r shr_s].
  - repeat split; try lia; destruct r, s; reflexivity.
  - rewrite Pos2Z.inj_xI.
    destruct (Hdiv 1 (Z.pos p) ltac:(lia)) as [-> ->].
    repeat split; try lia; destruct r, s; reflexivity.
  - rewrite Pos2Z.inj_xO. replace (2 * Z.pos p) with (2 * Z.pos p + 0) by lia.
    destruct (Hdiv 0 (Z.pos p) ltac:(lia)) as [-> ->].
    repeat split; try lia; destruct r, s; reflexivity.
  - repeat split; try lia; destruct r, s; reflexivity.
Qed.

Lemma shifts_compose a b f g :
  0 <= a -> 0 <= b -> shifts a f -> shifts b g ->
  shifts (a + b) (fun r => g (f r)).
Proof.
  intros Ha Hb Hf Hg r Hr.
  destruct (Hf r Hr) as (Hf0 & Hfm & Hfe).
  destruct (Hg (f r) Hf0) as (Hg0 & Hgm & Hge).
  pose proof (pow2_pos a Ha) as Hpa. pose proof (pow2_pos b Hb) as Hpb.
  split; [exact Hg0 |]. split.
  - rewrite Hgm, Hfm, Z.pow_add_r, Z.div_div by lia. reflexivity.
  - rewrite Hge, Hfe, Hfm, Z.pow_add_r, Z.rem_mul_r by lia.
    rewrite <- andb_assoc. f_equal.
    pose proof (Z.mod_pos_bound (shr_m r) (2 ^ a) Hpa).
    pose proof (Z.mod_pos_bound (shr_m r / 2 ^ a) (2 ^ b) Hpb).
    destruct (Z.eqb_spec (shr_m r mod 2 ^ a) 0) as [E1 | E1];
      destruct (Z.eqb_spec (shr_m r / 2 ^ a mod 2 ^ b) 0) as [E2 | E2];
      cbn; symmetry; [apply Z.eqb_eq | apply Z.eqb_neq ..]; nia.
Qed.

Lemma shifts_iter p : shifts (Zpos p) (iter_pos shr_1 p).
Proof.
  induction p as [p IH | p IH |]; cbn [iter_pos].
  - replace (Zpos p~1) with (1 + Zpos p + Zpos p) by lia.
    apply (shifts_compose (1 + Zpos p) (Zpos p)
             (fun r => iter_pos shr_1 p (shr_1 r))); try lia; [| exact IH].
    apply (shifts_compose 1 (Zpos p)); try lia; [exact shifts_shr_1 | exact IH].
  - replace (Zpos p~0) with (Zpos p + Zpos p) by lia.
    apply (shifts_compose (Zpos p) (Zpos p)); try lia; exact IH.
  - exact shifts_shr_1.
Qed.

(** [shr_fexp] when the shift is not negative: the mantissa is divided by
    [2^n] and the result is exact when the input was and nothing was
    shifted out. *)
Lemma shr_fexp_spec m e l :
  0 <= m ->
  let n := fexp prec emax (Zdigits2 m + e) - e in
  0 <= n ->
  let '(r, e') := shr_fexp prec emax m e l in
  e' = e + n /\
  shr_m r = m / 2 ^ n /\
  (loc_of_shr_record r = loc_Exact <-> l = loc_Exact /\ m mod 2 ^ n = 0).
Proof.
  intros Hm n Hn. unfold shr_fexp. fold n. unfold shr.
  destruct n as [| p | p] eqn:En; try lia.
  - split; [lia |]. rewrite shr_m_of_loc, Z.div_1_r, Z.mod_1_r. split; [reflexivity |].
    rewrite loc_of_exact_rec, exact_rec_of_loc. tauto.
  - destruct (shifts_iter p (shr_record_of_loc m l)) as (H0 & Hmq & Hex).
    { now rewrite shr_m_of_loc. }
    rewrite shr_m_of_loc in *. split; [reflexivity |]. split; [exact Hmq |].
    rewrite loc_of_exact_rec, Hex, andb_true_iff, exact_rec_of_loc, Z.eqb_eq.
    reflexivity.
Qed.

Lemma round_nearest_even_bounds m l :
  m <= round_nearest_even m l <= m + 1 /\
  (l = loc_Exact -> round_nearest_even m l = m).
Proof.
  destruct l as [| []]; cbn [round_nearest_even];
    try destruct (Z.even m); split; try lia; congruence.
Qed.

(** ** Rounding a truncated mantissa *)

Lemma fexp64 e : fexp prec emax e = Z.max (e - 53) (-1074).
Proof. reflexivity. Qed.

(** After the first shift the mantissa sits on the grid of its own
    magnitude. *)
Lemma canonical_after_shift mx ex :
  0 <= mx ->
  let n := fexp prec emax (Zdigits2 mx + ex) - ex in
  0 <= n ->
  fexp prec emax (Zdigits2 (mx / 2 ^ n) + (ex + n)) = ex + n.
Proof.
  intros Hmx n Hn. pose proof (pow2_pos n Hn) as Hp.
  assert (Hq : 0 <= mx / 2 ^ n) by (apply Z.div_pos; lia).
  destruct (Z.eq_dec (mx / 2 ^ n) 0) as [Hz | Hnz].
  - rewrite Hz. cbn [Zdigits2].
    assert (Hlt : mx < 2 ^ n).
    { apply Z.div_small_iff in Hz; lia. }
    pose proof (Zdigits2_le_of_lt mx n ltac:(lia) Hn) as Hd.
    unfold n in *. rewrite !fexp64 in *. lia.
  - assert (Hge : 2 ^ n <= mx).
    { destruct (Z_lt_le_dec mx (2 ^ n)) as [Hlt | Hle]; [| exact Hle].
      rewrite Z.div_small in Hnz by lia. congruence. }
    pose proof (Zdigits2_gt_of_le mx n Hge Hn) as Hd.
    rewrite Zdigits2_div_pow2 by lia.
    unfold n in *. rewrite !fexp64 in *. lia.
Qed.

(** The mantissa after rounding needs at most one more shift, and that
    shift loses nothing. *)
Lemma second_shift_exact m' m'' E :
  0 <= m' -> m' <= m'' <= m' + 1 ->
  fexp prec emax (Zdigits2 m' + E) = E ->
  let n2 := fexp prec emax (Zdigits2 m'' + E) - E in
  0 <= n2 /\ m'' mod 2 ^ n2 = 0.
Proof.
  intros Hm' Hm'' Hcan n2. unfold n2. rewrite fexp64 in *.
  destruct (Z.eq_dec m'' m') as [-> | Hne].
  { rewrite Hcan. rewrite Z.sub_diag. split; [lia | apply Z.mod_1_r]. }
  assert (Hs : m'' = m' + 1) by lia. subst m''.
  destruct (Z.eq_dec m' 0) as [-> | Hpos].
  { change (Zdigits2 (0 + 1)) with 1. change (Zdigits2 0) with 0 in Hcan.
    replace (Z.max (1 + E - 53) (-1074) - E) with 0 by lia.
    split; [lia | apply Z.mod_1_r]. }
  destruct (Zdigits2_bounds m' ltac:(lia)) as [Hd [Hlo Hhi]].
  destruct (Z.eq_dec (m' + 1) (2 ^ Zdigits2 m')) as [Hpow | Hnpow].
  - assert (Hd' : Zdigits2 (m' + 1) = Zdigits2 m' + 1).
    { apply Zdigits2_unique; [| lia].
      replace (Zdigits2 m' + 1 - 1) with (Zdigits2 m') by lia.
      rewrite Hpow. split; [lia | apply pow2_lt; lia]. }
    rewrite Hd'.
    destruct (Z.eq_dec (Zdigits2 m') 53) as [H53 | H53].
    + replace (Z.max (Zdigits2 m' + 1 + E - 53) (-1074) - E) with 1 by lia.
      split; [lia |]. rewrite Hpow, H53. reflexivity.
    + replace (Z.max (Zdigits2 m' + 1 + E - 53) (-1074) - E) with 0 by lia.
      split; [lia | apply Z.mod_1_r].
  - assert (Hd' : Zdigits2 (m' + 1) = Zdigits2 m').
    { apply Zdigits2_unique; lia. }
    rewrite Hd', Hcan, Z.sub_diag. split; [lia | apply Z.mod_1_r].
Qed.

(** The end of [binary_round_aux]: a mantissa [m''] at exponent [E],
    renormalised and checked for overflow. *)
Lemma round_second_stage s m'' E :
  0 <= m'' ->
  let n2 := fexp prec emax (Zdigits2 m'' + E) - E in
  0 <= n2 -> m'' mod 2 ^ n2 = 0 ->
  match
    (let '(mrs'', e'') := shr_fexp prec emax m'' E loc_Exact in
     match shr_m mrs'' with
     | Z0 => S754_zero s
     | Zpos m => if e'' <=? emax - prec then S754_finite s m e''
                 else S754_infinity s
     | Zneg _ => S754_nan
     end)
  with
  | S754_zero s' => s' = s /\ m'' = 0
  | S754_finite s' mr er =>
      s' = s /\ E <= er /\ Zpos mr * 2 ^ (er - E) = m'' /\
      bounded prec emax mr er = true
  | S754_infinity s' => s' = s /\ 1024 < Zdigits2 m'' + E
  | S754_nan => False
  end.
Proof.
  intros Hm n2 Hn2 Hmod.
  pose proof (shr_fexp_spec m'' E loc_Exact Hm Hn2) as Hshr. fold n2 in Hshr.
  destruct (shr_fexp prec emax m'' E loc_Exact) as [r2 e2].
  destruct Hshr as (He2 & Hm2 & _).
  pose proof (pow2_pos n2 Hn2) as Hp.
  assert (Hval : shr_m r2 * 2 ^ n2 = m'').
  { rewrite Hm2. pose proof (Z.div_mod m'' (2 ^ n2) ltac:(lia)). lia. }
  destruct (shr_m r2) as [| mr | mr] eqn:Hr2.
  - split; [reflexivity | lia].
  - assert (Hdig : Zdigits2 m'' = Zdigits2 (Zpos mr) + n2).
    { rewrite <- Hval. apply Zdigits2_mul_pow2; lia. }
    assert (Hcan : fexp prec emax (Zdigits2 (Zpos mr) + e2) = e2).
    { replace (Zdigits2 (Zpos mr) + e2) with (Zdigits2 m'' + E) by lia.
      unfold n2 in He2. lia. }
    destruct (Z.leb_spec e2 (emax - prec)) as [Hle | Hgt].
    + split; [reflexivity |]. split; [lia |]. split.
      * replace (e2 - E) with n2 by lia. exact Hval.
      * unfold bounded, canonical_mantissa. cbn [Zdigits2] in Hcan.
        rewrite Hcan, Z.eqb_refl. cbn. now apply Z.leb_le.
    + split; [reflexivity |].
      rewrite fexp64 in Hcan. change (emax - prec) with 971 in Hgt. lia.
  - pose proof (Z.div_pos m'' (2 ^ n2) Hm Hp). lia.
Qed.

(** [binary_round_aux] on a mantissa [mx] at exponent [ex], when the grid
    of the result is not finer than [2^ex]: the result is the mantissa cut
    at the grid, or the next one, and it is the former when nothing is cut
    and the location is exact. *)
Lemma binary_round_aux_spec s mx ex lx :
  0 <= mx ->
  let n := fexp prec emax (Zdigits2 mx + ex) - ex in
  0 <= n ->
  exists m'',
    mx / 2 ^ n <= m'' <= mx / 2 ^ n + 1 /\
    (lx = loc_Exact /\ mx mod 2 ^ n = 0 -> m'' = mx / 2 ^ n) /\
    match binary_round_aux prec emax s mx ex lx with
    | S754_zero s' => s' = s /\ m'' = 0
    | S754_finite s' mr er =>
        s' = s /\ ex + n <= er /\ Zpos mr * 2 ^ (er - (ex + n)) = m'' /\
        bounded prec emax mr er = true
    | S754_infinity s' => s' = s /\ 1024 < Zdigits2 m'' + (ex + n)
    | S754_nan => False
    end.
Proof.
  intros Hmx n Hn. unfold binary_round_aux.
  pose proof (shr_fexp_spec mx ex lx Hmx Hn) as Hshr. fold n in Hshr.
  destruct (shr_fexp prec emax mx ex lx) as [r1 e1].
  destruct Hshr as (-> & Hm1 & Hex1).
  pose proof (pow2_pos n Hn) as Hp.
  assert (Hq : 0 <= mx / 2 ^ n) by (apply Z.div_pos; lia).
  destruct (round_nearest_even_bounds (shr_m r1) (loc_of_shr_record r1))
    as [Hb Hexact].
  set (m'' := round_nearest_even (shr_m r1) (loc_of_shr_record r1)) in *.
  rewrite Hm1 in Hb.
  exists m''. split; [exact Hb |]. split.
  - intros Hx. rewrite <- Hm1. apply Hexact. now apply Hex1.
  - pose proof (canonical_after_shift mx ex Hmx Hn) as Hcan. fold n in Hcan.
    destruct (second_shift_exact (mx / 2 ^ n) m'' (ex + n) Hq Hb Hcan)
      as [Hn2 Hmod].
    apply round_second_stage; [lia | exact Hn2 | exact Hmod].
Qed.

(** ** Faithful rounding *)

(** A double above a grid point is at least one grid step above it. *)
Lemma grid_step m' E v :
  0 <= m' -> fexp prec emax (Zdigits2 m' + E) = E ->
  representable v ->
  m' * 2 ^ (E + 1074) < v ->
  (m' + 1) * 2 ^ (E + 1074) <= v.
Proof.
  intros Hm' Hcan [Hv Hmod] Hlt. rewrite fexp64 in Hcan.
  assert (HE : 0 <= E + 1074) by lia.
  pose proof (pow2_pos (E + 1074) HE) as HG.
  assert (Hk : E + 1074 <= Z.max (Zdigits2 v - 53) 0).
  { destruct (Z.eq_dec m' 0) as [-> | Hnz].
    - cbn [Zdigits2] in Hcan. lia.
    - assert (Hd : Zdigits2 (m' * 2 ^ (E + 1074)) = Zdigits2 m' + (E + 1074))
        by (apply Zdigits2_mul_pow2; lia).
      assert (Hpos : 0 < m' * 2 ^ (E + 1074))
        by (apply Z.mul_pos_pos; lia).
      pose proof (Zdigits2_mono (m' * 2 ^ (E + 1074)) v ltac:(lia)). lia. }
  unfold grid in Hmod.
  set (kv := Z.max (Zdigits2 v - 53) 0) in *.
  pose proof (pow2_pos kv ltac:(lia)) as Hpk.
  pose proof (Z.div_mod v (2 ^ kv) ltac:(lia)) as Hdm. rewrite Hmod in Hdm.
  set (q := v / 2 ^ kv) in *.
  rewrite (pow2_split (E + 1074) kv) in Hdm by lia.
  set (G := 2 ^ (E + 1074)) in *.
  set (j := 2 ^ (kv - (E + 1074)) * q).
  assert (Hvj : v = j * G) by (unfold j; lia).
  clearbody G j. clear Hdm Hmod Hpk Hk Hcan. subst v.
  apply mul_lt_cancel in Hlt; [| exact HG].
  apply mul_le_mono; lia.
Qed.

(** The result of [binary_round_aux] is a faithful rounding of any
    rational that the truncated mantissa and its location describe. *)
Lemma round_faithful mx ex lx N D :
  0 <= mx -> 0 < D ->
  let n := fexp prec emax (Zdigits2 mx + ex) - ex in
  0 <= n ->
  let W := mx / 2 ^ n * 2 ^ (ex + n + 1074) in
  W * D <= N < (W + 2 ^ (ex + n + 1074)) * D ->
  (N = W * D -> lx = loc_Exact /\ mx mod 2 ^ n = 0) ->
  faithful (binary_round_aux prec emax false mx ex lx) N D.
Proof.
  intros Hmx HD n Hn W HN Hexact.
  destruct (binary_round_aux_spec false mx ex lx Hmx Hn)
    as (m'' & Hb & Hsame & Hres). fold n in Hb, Hsame, Hres.
  pose proof (canonical_after_shift mx ex Hmx Hn) as Hcan. fold n in Hcan.
  unfold W in HN, Hexact. clear W.
  set (m' := mx / 2 ^ n) in *. set (E := ex + n) in *.
  assert (Hm' : 0 <= m') by (apply Z.div_pos; [lia | apply pow2_pos; lia]).
  assert (HE : 0 <= E + 1074) by (rewrite fexp64 in Hcan; lia).
  pose proof (pow2_pos (E + 1074) HE) as HG.
  pose proof (fun v Hv => grid_step m' E v Hm' Hcan Hv) as Hstep.
  assert (HE0 : m' = 0 -> E + 1074 = 0).
  { intros Hz. rewrite Hz in Hcan. cbn [Zdigits2] in Hcan.
    rewrite fexp64 in Hcan. lia. }
  assert (Hdig : 0 < m'' -> 2 ^ (Zdigits2 m'' - 1) <= m'' /\ 0 < Zdigits2 m'').
  { intros Hp. destruct (Zdigits2_bounds m'' Hp) as [H1 [H2 _]]. now split. }
  assert (Hpow : 0 < Zdigits2 m'' -> 1024 < Zdigits2 m'' + E ->
                 top_units <= 2 ^ (Zdigits2 m'' - 1) * 2 ^ (E + 1074)).
  { intros Hd Hov. rewrite <- Z.pow_add_r by lia. apply pow2_le. lia. }
  set (G := 2 ^ (E + 1074)) in *.
  assert (Hup : m'' = m' + 1 -> m' * G * D < N).
  { intros Hm''. destruct (Z.eq_dec N (m' * G * D)) as [HNeq | HNne]; [| lia].
    specialize (Hsame (Hexact HNeq)). lia. }
  assert (Hlow : forall v, representable v -> v * D <= N -> v <= m' * G).
  { intros v Hv Hle.
    assert (Hlt : v * D < (m' * G + G) * D) by lia.
    apply mul_lt_cancel in Hlt; [| exact HD].
    destruct (Z_lt_le_dec (m' * G) v) as [Hgt | Hok]; [| exact Hok].
    specialize (Hstep v Hv Hgt). lia. }
  assert (Hhigh : forall v, representable v -> N <= v * D ->
                            m'' = m' + 1 -> (m' + 1) * G <= v).
  { intros v Hv Hle Hm''. specialize (Hup Hm'').
    assert (Hlt : m' * G * D < v * D) by lia.
    apply mul_lt_cancel in Hlt; [| exact HD].
    exact (Hstep v Hv Hlt). }
  assert (Hmid : forall v, N <= v * D -> m' * G <= v).
  { intros v Hle. apply (mul_le_cancel _ _ D HD). lia. }
  assert (Hmono : m' * G <= m'' * G) by (apply mul_le_mono; lia).
  assert (HGE : G = 2 ^ (E + 1074)) by reflexivity.
  clearbody G m'. clear Hcan Hsame Hexact Hstep.
  unfold faithful.
  destruct (binary_round_aux prec emax false mx ex lx) as [s' | s' | | s' mr er].
  - destruct Hres as [-> Hz].
    assert (Hm0 : m' = 0) by lia. specialize (HE0 Hm0).
    assert (HG1 : G = 1) by (rewrite HGE, HE0; reflexivity).
    clear Hpow Hdig. subst m' G. lia.
  - destruct Hres as [-> Hov]. intros v Hv Hvlt.
    assert (Hm''pos : 0 < m'').
    { destruct (Z.eq_dec m'' 0) as [Hz | Hz]; [| lia].
      assert (Hm0 : m' = 0) by lia. specialize (HE0 Hm0).
      rewrite Hz in Hov. cbn [Zdigits2] in Hov. lia. }
    destruct (Hdig Hm''pos) as [Hlo Hd]. specialize (Hpow Hd Hov).
    assert (Hbig : top_units <= m'' * G).
    { pose proof (mul_le_mono _ _ G ltac:(lia) Hlo). lia. }
    clear Hpow Hlo Hdig HE0 Hov.
    destruct (Z.eq_dec m'' m') as [Heq | Hne].
    + subst m''. assert (Hlt : v * D < m' * G * D)
        by (apply mul_lt_mono; lia). lia.
    + assert (Hs : m'' = m' + 1) by lia. specialize (Hup Hs). subst m''.
      destruct (Z_lt_le_dec (m' * G) v) as [Hgt | Hok].
      * pose proof (Hlow v Hv) as Hl.
        destruct (Z_lt_le_dec N (v * D)) as [H1 | H1]; [| lia].
        specialize (Hhigh v Hv ltac:(lia) eq_refl). lia.
      * pose proof (mul_le_mono _ _ D ltac:(lia) Hok). lia.
  - exact Hres.
  - destruct Hres as (-> & Her & Hval & Hbnd).
    assert (Hu : units mr er = m'' * G).
    { unfold units. rewrite HGE, <- Hval.
      rewrite (pow2_split (E + 1074) (er + 1074)) by lia.
      replace (er + 1074 - (E + 1074)) with (er - E) by lia. ring. }
    rewrite Hu. clear Hu Hval Hpow Hdig HE0.
    split; [exact Hbnd |]. split.
    + intros v Hv Hle. specialize (Hlow v Hv Hle). lia.
    + intros v Hv Hle.
      destruct (Z.eq_dec m'' m') as [Heq | Hne].
      * subst m''. now apply Hmid.
      * assert (Hs : m'' = m' + 1) by lia.
        specialize (Hhigh v Hv Hle Hs). subst m''. exact Hhigh.
Qed.

(** ** Doubles as integers *)

Lemma bounded_inv m e :
  bounded prec emax m e = true ->
  fexp prec emax (Zdigits2 (Zpos m) + e) = e /\ e <= 971.
Proof.
  unfold bounded, canonical_mantissa. intros H.
  apply andb_true_iff in H. destruct H as [Hc He].
  apply Z.eqb_eq in Hc. apply Z.leb_le in He. split; [exact Hc | exact He].
Qed.

Lemma bounded_range m e :
  bounded prec emax m e = true ->
  -1074 <= e <= 971 /\ 0 < Zdigits2 (Zpos m) <= 53 /\
  (-1074 < e -> Zdigits2 (Zpos m) = 53).
Proof.
  intros H. destruct (bounded_inv m e H) as [Hc He]. rewrite fexp64 in Hc.
  destruct (Zdigits2_bounds (Zpos m) ltac:(lia)) as [Hd _]. lia.
Qed.

Lemma representable_mul_pow2 k j :
  0 < k -> Zdigits2 k <= 53 -> 0 <= j -> representable (k * 2 ^ j).
Proof.
  intros Hk Hd Hj. pose proof (pow2_pos j Hj) as Hp.
  split; [apply Z.mul_pos_pos; lia |]. unfold grid.
  rewrite Zdigits2_mul_pow2 by lia.
  assert (Hle : 0 <= Z.max (Zdigits2 k + j - 53) 0 <= j) by lia.
  rewrite (pow2_split _ j Hle), Z.mul_assoc. apply Z.mod_mul.
  pose proof (pow2_pos (Z.max (Zdigits2 k + j - 53) 0)). lia.
Qed.

Lemma units_pos m e : -1074 <= e -> 0 < units m e.
Proof.
  intros He. unfold units. apply Z.mul_pos_pos; [lia | apply pow2_pos; lia].
Qed.

Lemma representable_units m e :
  bounded prec emax m e = true -> representable (units m e).
Proof.
  intros H. destruct (bounded_range m e H) as (He & Hd & _).
  apply representable_mul_pow2; lia.
Qed.

Lemma units_lt_max m e :
  bounded prec emax m e = true -> units m e < top_units.
Proof.
  intros H. destruct (bounded_range m e H) as (He & Hd & _).
  destruct (Zdigits2_bounds (Zpos m) ltac:(lia)) as [_ [_ Hhi]].
  pose proof (pow2_le (Zdigits2 (Z.pos m)) 53 ltac:(lia)) as H53.
  pose proof (pow2_le (e + 1074) 2045 ltac:(lia)) as HG.
  pose proof (pow2_pos (e + 1074) ltac:(lia)) as HGpos.
  assert (Htop : top_units = 2 ^ 53 * 2 ^ 2045) by reflexivity.
  unfold units. rewrite Htop.
  set (G := 2 ^ (e + 1074)) in *. set (B := 2 ^ 2045) in *.
  clearbody G B. clear Htop.
  apply Z.lt_le_trans with (2 ^ 53 * G).
  - apply mul_lt_mono; lia.
  - apply Z.mul_le_mono_nonneg_l; [apply Z.lt_le_incl, pow2_pos |]; lia.
Qed.

(** A double of at least one unit of [2^0 = 1], or any double above the
    subnormal range, has a mantissa of 53 bits. *)
Lemma units_normal m e :
  bounded prec emax m e = true -> 2 ^ 53 <= units m e ->
  Zdigits2 (Zpos m) = 53 /\ 2 ^ 52 <= Zpos m.
Proof.
  intros H Hu. destruct (bounded_range m e H) as (He & Hd & Hn).
  destruct (Zdigits2_bounds (Zpos m) ltac:(lia)) as [_ [Hlo Hhi]].
  assert (Hne : -1074 < e).
  { destruct (Z.eq_dec e (-1074)) as [-> | Hne]; [| lia].
    unfold units in Hu. change (2 ^ (-1074 + 1074)) with 1 in Hu.
    pose proof (pow2_le (Zdigits2 (Z.pos m)) 53 ltac:(lia)). lia. }
  specialize (Hn Hne). rewrite Hn in Hlo. split; [exact Hn | exact Hlo].
Qed.

(** ** Consequences of a faithful rounding *)

Lemma faithful_finite_upper r N D v :
  faithful r N D -> 0 < D -> D <= N ->
  representable v -> v < top_units -> N <= v * D ->
  exists m e, r = S754_finite false m e /\ bounded prec emax m e = true /\
              units m e <= v.
Proof.
  intros Hf HD HN Hv Hmax Hle. unfold faithful in Hf.
  destruct r as [[] | [] | | [] m e]; try contradiction.
  - lia.
  - specialize (Hf v Hv Hmax). lia.
  - destruct Hf as (Hb & _ & Hup). exists m, e. auto.
Qed.

Lemma faithful_lower m e N D v :
  faithful (S754_finite false m e) N D ->
  representable v -> v * D <= N -> v <= units m e.
Proof. intros (_ & Hlo & _) Hv Hle. now apply Hlo. Qed.

Lemma faithful_upper m e N D v :
  faithful (S754_finite false m e) N D ->
  representable v -> N <= v * D -> units m e <= v.
Proof. intros (_ & _ & Hup) Hv Hle. now apply Hup. Qed.

(** ** The product of two doubles *)

Lemma fmul_faithful ma ea mb eb :
  bounded prec emax ma ea = true -> bounded prec emax mb eb = true ->
  Zdigits2 (Zpos ma) = 53 ->
  faithful (fmul (S754_finite false ma ea) (S754_finite false mb eb))
    (units ma ea * units mb eb) one_unit.
Proof.
  intros Ha Hb Hna.
  destruct (bounded_range ma ea Ha) as (Hea & _ & _).
  destruct (bounded_range mb eb Hb) as (Heb & _ & _).
  unfold fmul, SFmul. cbn [xorb]. rewrite Pos2Z.inj_mul.
  set (mx := Zpos ma * Zpos mb). set (ex := ea + eb).
  assert (Hmx : 2 ^ 52 <= mx).
  { destruct (Zdigits2_bounds (Zpos ma) ltac:(lia)) as [_ [Hlo _]].
    rewrite Hna in Hlo. change (2 ^ (53 - 1)) with (2 ^ 52) in Hlo.
    apply Z.le_trans with (Zpos ma * 1); [lia |].
    apply Z.mul_le_mono_nonneg_l; lia. }
  pose proof (Zdigits2_gt_of_le mx 52 Hmx ltac:(lia)) as Hdig.
  assert (Hn : 0 <= fexp prec emax (Zdigits2 mx + ex) - ex)
    by (rewrite fexp64; lia).
  assert (HE : 0 <= ex + (fexp prec emax (Zdigits2 mx + ex) - ex) + 1074)
    by (rewrite fexp64; lia).
  set (n := fexp prec emax (Zdigits2 mx + ex) - ex) in *.
  pose proof (pow2_pos n Hn) as Hpn.
  pose proof (pow2_pos (ea + 1074) ltac:(lia)) as Hpa.
  pose proof (pow2_pos (eb + 1074) ltac:(lia)) as Hpb.
  assert (Hsplit : 2 ^ (ex + n + 1074) * one_unit =
                   2 ^ n * (2 ^ (ea + 1074) * 2 ^ (eb + 1074))).
  { unfold one_unit. rewrite <- !Z.pow_add_r by lia. f_equal. unfold ex. lia. }
  set (P := 2 ^ (ea + 1074) * 2 ^ (eb + 1074)) in *.
  assert (HP : 0 < P) by (apply Z.mul_pos_pos; assumption).
  assert (HN : units ma ea * units mb eb = mx * P)
    by (unfold units, mx, P; ring).
  pose proof (Z.div_mod mx (2 ^ n) ltac:(lia)) as Hdm.
  pose proof (Z.mod_pos_bound mx (2 ^ n) Hpn) as Hmod.
  set (q := mx / 2 ^ n) in *. set (rm := mx mod 2 ^ n) in *.
  assert (HW : forall t, t * 2 ^ (ex + n + 1074) * one_unit = t * 2 ^ n * P).
  { intros t. rewrite <- Z.mul_assoc, Hsplit. ring. }
  apply round_faithful; fold n; fold q; fold rm.
  - lia.
  - exact one_unit_pos.
  - exact Hn.
  - rewrite HN, HW.
    replace ((q * 2 ^ (ex + n + 1074) + 2 ^ (ex + n + 1074)) * one_unit)
      with ((q + 1) * 2 ^ n * P) by (rewrite <- HW; ring).
    clearbody P rm q. clear HW Hsplit HN.
    split; [apply mul_le_mono | apply mul_lt_mono]; lia.
  - rewrite HN, HW. intros Heq. apply Z.mul_cancel_r in Heq; [| lia].
    split; [reflexivity | lia].
Qed.

(** ** The quotient of two doubles *)

Lemma new_location_exact nb k :
  new_location nb k = loc_Exact <-> k = 0.
Proof.
  unfold new_location, new_location_even, new_location_odd.
  destruct (Z.even nb); destruct (Z.eqb_spec k 0); split; congruence.
Qed.

Lemma shifted_mantissa m s :
  0 <= s ->
  match s with
  | 0 => Zpos m
  | Zpos _ => Z.shiftl (Zpos m) s
  | Zneg _ => 0
  end = Zpos m * 2 ^ s.
Proof.
  intros Hs. destruct s as [| p | p]; [| | lia].
  - change (2 ^ 0) with 1. lia.
  - apply Z.shiftl_mul_pow2. lia.
Qed.

Lemma fdiv_faithful ma ea mb eb :
  bounded prec emax ma ea = true -> bounded prec emax mb eb = true ->
  faithful (fdiv (S754_finite false ma ea) (S754_finite false mb eb))
    (units ma ea * one_unit) (units mb eb).
Proof.
  intros Ha Hb.
  destruct (bounded_range ma ea Ha) as (Hea & Hda & _).
  destruct (bounded_range mb eb Hb) as (Heb & Hdb & _).
  destruct (Zdigits2_bounds (Zpos ma) ltac:(lia)) as [_ [Halo Hahi]].
  destruct (Zdigits2_bounds (Zpos mb) ltac:(lia)) as [_ [Hblo Hbhi]].
  unfold fdiv, SFdiv, SFdiv_core_binary. cbn [xorb].
  set (d1 := Zdigits2 (Zpos ma)) in *. set (d2 := Zdigits2 (Zpos mb)) in *.
  set (e' := Z.min (fexp prec emax (d1 + ea - (d2 + eb))) (ea - eb)).
  assert (He' : e' <= fexp prec emax (d1 + ea - (d2 + eb)) /\ e' <= ea - eb
                /\ 0 <= e' + eb + 2148).
  { unfold e'. rewrite fexp64. lia. }
  rewrite fexp64 in He'.
  set (s := ea - eb - e') in *.
  assert (Hs : 0 <= s) by (unfold s; lia).
  pose proof (pow2_pos s Hs) as Hps.
  set (M := match s with
            | 0 => Zpos ma
            | Zpos _ => Z.shiftl (Zpos ma) s
            | Zneg _ => 0
            end).
  assert (HM : M = Zpos ma * 2 ^ s) by (apply shifted_mantissa; exact Hs).
  assert (HMpos : 0 < M) by (rewrite HM; apply Z.mul_pos_pos; lia).
  pose proof (Z.div_mod M (Zpos mb) ltac:(lia)) as Hdm.
  pose proof (Z.mod_pos_bound M (Zpos mb) ltac:(lia)) as Hmodb.
  assert (Hde : Z.div_eucl M (Zpos mb) = (M / Zpos mb, M mod Zpos mb)).
  { unfold Z.div, Z.modulo. now destruct (Z.div_eucl M (Zpos mb)). }
  rewrite Hde.
  set (q := M / Zpos mb) in *. set (r := M mod Zpos mb) in *.
  assert (Hq : 0 <= q) by (apply Z.div_pos; lia).
  assert (Hn : 0 <= fexp prec emax (Zdigits2 q + e') - e').
  { rewrite fexp64.
    destruct (Z_le_gt_dec e' (-1074)) as [Hlow | Hhigh]; [lia |].
    assert (Hs53 : d2 - d1 + 53 <= s) by (unfold s; lia).
    assert (H52 : 2 ^ 52 <= q).
    { apply Z.div_le_lower_bound; [lia |].
      assert (Hpow : 2 ^ (d2 + 52) <= M).
      { rewrite HM.
        apply Z.le_trans with (2 ^ (d1 - 1) * 2 ^ s).
        - rewrite <- Z.pow_add_r by lia. apply pow2_le. lia.
        - apply mul_le_mono; lia. }
      rewrite Z.pow_add_r in Hpow by lia.
      apply Z.le_trans with (2 ^ d2 * 2 ^ 52); [| exact Hpow].
      apply mul_le_mono; lia. }
    pose proof (Zdigits2_gt_of_le q 52 H52 ltac:(lia)). lia. }
  assert (HE : 0 <= e' + (fexp prec emax (Zdigits2 q + e') - e') + 1074)
    by (rewrite fexp64; lia).
  set (n := fexp prec emax (Zdigits2 q + e') - e') in *.
  pose proof (pow2_pos n Hn) as Hpn.
  pose proof (pow2_pos (e' + eb + 2148) ltac:(lia)) as HK.
  set (K := 2 ^ (e' + eb + 2148)) in *.
  set (X := Zpos mb * 2 ^ n).
  assert (HX : 0 < X) by (apply Z.mul_pos_pos; lia).
  assert (Hqq : q / 2 ^ n = M / X).
  { unfold q, X. rewrite Z.div_div by lia. reflexivity. }
  pose proof (Z.div_mod M X ltac:(lia)) as HdmX.
  pose proof (Z.mod_pos_bound M X HX) as HmodX.
  set (m' := M / X) in *.
  assert (HN : units ma ea * one_unit = M * K).
  { unfold units, K, one_unit.
    rewrite HM, <- !Z.mul_assoc, <- !Z.pow_add_r by lia.
    do 2 f_equal. unfold s. lia. }
  assert (HW : forall t, t * 2 ^ (e' + n + 1074) * units mb eb = t * X * K).
  { intros t. unfold units, X, K.
    assert (Hsp : 2 ^ (e' + n + 1074) * 2 ^ (eb + 1074) =
                  2 ^ n * 2 ^ (e' + eb + 2148)).
    { rewrite <- !Z.pow_add_r by lia. f_equal. lia. }
    transitivity (t * Zpos mb * (2 ^ (e' + n + 1074) * 2 ^ (eb + 1074)));
      [ring | rewrite Hsp; ring]. }
  assert (HMX : M = m' * X -> r = 0 /\ q mod 2 ^ n = 0).
  { intros HMeq.
    assert (Hr0 : r = 0).
    { unfold r. rewrite HMeq. unfold X.
      replace (m' * (Zpos mb * 2 ^ n)) with (m' * 2 ^ n * Zpos mb) by ring.
      apply Z.mod_mul. lia. }
    split; [exact Hr0 |].
    assert (Hqv : q = m' * 2 ^ n).
    { assert (Hc : Zpos mb * q = Zpos mb * (m' * 2 ^ n)).
      { transitivity M; [lia |]. rewrite HMeq. unfold X. ring. }
      apply Z.mul_cancel_l in Hc; [exact Hc | lia]. }
    rewrite Hqv. apply Z.mod_mul. lia. }
  apply round_faithful; fold n; rewrite ?Hqq.
  - exact Hq.
  - apply units_pos. lia.
  - exact Hn.
  - rewrite HN, HW.
    replace ((m' * 2 ^ (e' + n + 1074) + 2 ^ (e' + n + 1074)) * units mb eb)
      with ((m' + 1) * X * K)
      by (rewrite <- HW; ring).
    clearbody K X m'. clear HW HN HMX Hqq.
    split; [apply mul_le_mono | apply mul_lt_mono]; lia.
  - rewrite HN, HW. intros Heq. apply Z.mul_cancel_r in Heq; [| lia].
    destruct (HMX Heq) as [Hr0 Hq0].
    split; [now apply new_location_exact | exact Hq0].
Qed.

(** ** Integers as doubles, and the ceiling of a double *)

Lemma pos_iter_xO p d : Zpos (Pos.iter xO p d) = Zpos p * 2 ^ Zpos d.
Proof.
  induction d as [| d IH] using Pos.peano_ind.
  - cbn. lia.
  - rewrite Pos.iter_succ, Pos2Z.inj_xO, IH, Pos2Z.inj_succ, Z.pow_succ_r by lia.
    ring.
Qed.

(** A mantissa cut at [2^n] lies between two multiples of [2^n]. *)
Lemma cut_bounds p n U :
  0 <= n -> 0 < U ->
  p / 2 ^ n * (2 ^ n * U) * 1 <= p * U
    < (p / 2 ^ n * (2 ^ n * U) + 2 ^ n * U) * 1 /\
  (p * U = p / 2 ^ n * (2 ^ n * U) * 1 -> p mod 2 ^ n = 0).
Proof.
  intros Hn HU. pose proof (pow2_pos n Hn) as Hp.
  pose proof (Z.div_mod p (2 ^ n) ltac:(lia)) as Hdm.
  pose proof (Z.mod_pos_bound p (2 ^ n) Hp) as Hmod.
  set (q := p / 2 ^ n) in *. set (r := p mod 2 ^ n) in *.
  set (P := 2 ^ n) in *. clearbody q r P.
  replace ((q * (P * U) + P * U) * 1) with ((P * q + P) * U) by ring.
  replace (q * (P * U) * 1) with (P * q * U) by ring.
  split; [split |].
  - apply mul_le_mono; lia.
  - apply mul_lt_mono; lia.
  - intros Heq. apply Z.mul_cancel_r in Heq; lia.
Qed.

Lemma of_int_faithful z : 0 < z -> faithful (of_int z) (z * one_unit) 1.
Proof.
  intros Hz. destruct z as [| p | p]; try lia.
  unfold of_int, binary_normalize, binary_round, shl_align.
  rewrite Z.add_0_r, Z.sub_0_r.
  change (Zpos (digits2_pos p)) with (Zdigits2 (Zpos p)).
  destruct (Zdigits2_bounds (Zpos p) Hz) as [Hd _].
  pose proof (fexp64 (Zdigits2 (Zpos p))) as Hf.
  pose proof one_unit_pos as HU.
  destruct (fexp prec emax (Zdigits2 (Zpos p))) as [| f | f] eqn:Ef.
  - (* exactly 53 bits *)
    destruct (cut_bounds (Zpos p) 0 one_unit ltac:(lia) HU) as [Hb Hex].
    apply round_faithful; cbv zeta; rewrite ?Z.add_0_r, ?Ef, ?Z.sub_0_r;
      [lia | lia | lia | | ];
      change (2 ^ (0 + 0 + 1074)) with (2 ^ 0 * one_unit).
    + exact Hb.
    + intros Heq. split; [reflexivity | exact (Hex Heq)].
  - (* more than 53 bits: the low bits are rounded away *)
    destruct (cut_bounds (Zpos p) (Zpos f) one_unit ltac:(lia) HU) as [Hb Hex].
    assert (Hsp : 2 ^ (0 + Zpos f + 1074) = 2 ^ Zpos f * one_unit).
    { rewrite Z.add_0_l. apply pow2_one_unit. lia. }
    apply round_faithful; cbv zeta; rewrite ?Z.add_0_r, ?Ef, ?Z.sub_0_r;
      [lia | lia | lia | | ]; rewrite Hsp.
    + exact Hb.
    + intros Heq. split; [reflexivity | exact (Hex Heq)].
  - (* fewer than 53 bits: the mantissa is shifted to the left *)
    assert (Hn : fexp prec emax (Zdigits2 (Zpos (Pos.iter xO p f)) + Zneg f)
                 - Zneg f = 0).
    { rewrite pos_iter_xO, Zdigits2_mul_pow2 by lia.
      replace (Zdigits2 (Z.pos p) + Z.pos f + Z.neg f) with (Zdigits2 (Zpos p))
        by lia.
      rewrite Ef. lia. }
    assert (Hsp : Zpos (Pos.iter xO p f) * 2 ^ (Zneg f + 0 + 1074) =
                  Zpos p * one_unit).
    { rewrite pos_iter_xO, (one_unit_split (Zpos f)) by lia.
      replace (Z.neg f + 0 + 1074) with (1074 - Z.pos f) by lia. ring. }
    pose proof (pow2_pos (Zneg f + 0 + 1074) ltac:(lia)) as HR.
    apply round_faithful; cbv zeta; rewrite ?Hn; [lia | lia | lia | | ];
      change (2 ^ 0) with 1; rewrite ?Z.div_1_r, ?Z.mod_1_r, ?Hsp.
    + set (R := 2 ^ (Zneg f + 0 + 1074)) in *. clearbody R. lia.
    + intros _. split; reflexivity.
Qed.

(** An integer that is a double converts to itself. *)
Lemma of_int_exact z :
  0 < z -> representable (z * one_unit) -> z * one_unit < top_units ->
  exists m e,
    of_int z = S754_finite false m e /\ bounded prec emax m e = true /\
    units m e = z * one_unit /\ Zdigits2 (Zpos m) = 53.
Proof.
  intros Hz Hrep Hmax.
  pose proof (of_int_faithful z Hz) as Hf.
  pose proof one_unit_pos as HU.
  assert (Hge1 : one_unit <= z * one_unit).
  { pose proof (mul_le_mono 1 z one_unit ltac:(lia) ltac:(lia)). lia. }
  destruct (faithful_finite_upper (of_int z) (z * one_unit) 1 (z * one_unit)
              Hf ltac:(lia) ltac:(lia) Hrep Hmax ltac:(lia))
    as (m & e & Hr & Hb & Hle).
  rewrite Hr in Hf.
  pose proof (faithful_lower m e _ _ (z * one_unit) Hf Hrep ltac:(lia)) as Hge.
  exists m, e. split; [exact Hr |]. split; [exact Hb |]. split; [lia |].
  apply (units_normal m e Hb).
  pose proof (one_unit_ge 53 ltac:(lia)). lia.
Qed.

(** The ceiling of a positive double, in units. *)
Lemma ceil_finite_spec m e :
  -1074 <= e ->
  (ceil_finite false m e - 1) * one_unit < units m e
    <= ceil_finite false m e * one_unit.
Proof.
  intros He. pose proof one_unit_pos as HU.
  unfold ceil_finite, units. cbn [cond_Zopp].
  destruct e as [| k | k].
  - change (2 ^ (0 + 1074)) with one_unit. change (2 ^ 0) with 1. lia.
  - rewrite (pow2_one_unit (Zpos k)) by lia.
    pose proof (pow2_pos (Zpos k) ltac:(lia)) as Hpk.
    set (A := Zpos m * 2 ^ Zpos k).
    replace (Zpos m * (2 ^ Zpos k * one_unit)) with (A * one_unit)
      by (unfold A; ring).
    clearbody A. lia.
  - pose proof (pow2_pos (Zpos k) ltac:(lia)) as Hpk.
    pose proof (pow2_pos (Zneg k + 1074) ltac:(lia)) as Hpr.
    rewrite (one_unit_split (Zpos k)) by lia.
    replace (1074 - Zpos k) with (Zneg k + 1074) by lia.
    pose proof (Z.div_mod (- Zpos m) (2 ^ Zpos k) ltac:(lia)) as Hdm.
    pose proof (Z.mod_pos_bound (- Zpos m) (2 ^ Zpos k) Hpk) as Hmod.
    set (t := - Zpos m / 2 ^ Zpos k) in *.
    set (r := - Zpos m mod 2 ^ Zpos k) in *.
    set (P := 2 ^ Zpos k) in *. set (R := 2 ^ (Zneg k + 1074)) in *.
    clearbody t r P R.
    replace ((- t - 1) * (P * R)) with ((- (P * t) - P) * R) by ring.
    replace (- t * (P * R)) with (- (P * t) * R) by ring.
    split; [apply mul_lt_mono | apply mul_le_mono]; lia.
Qed.

Lemma ceil_finite_pos m e : -1074 <= e -> 1 <= ceil_finite false m e.
Proof.
  intros He. pose proof (ceil_finite_spec m e He) as [_ Hle].
  pose proof (units_pos m e He) as Hpos. pose proof one_unit_pos as HU.
  destruct (Z_lt_le_dec 0 (ceil_finite false m e)) as [H | H]; [lia |].
  pose proof (Z.mul_nonpos_nonneg _ one_unit H ltac:(lia)). lia.
Qed.

(** The ceiling of a double is a double. *)
Lemma ceil_finite_representable m e :
  bounded prec emax m e = true ->
  representable (ceil_finite false m e * one_unit) /\
  ceil_finite false m e * one_unit < top_units.
Proof.
  intros Hb. destruct (bounded_range m e Hb) as (He & Hd & _).
  pose proof (ceil_finite_pos m e ltac:(lia)) as Hc.
  pose proof (ceil_finite_spec m e ltac:(lia)) as [Hlo Hhi].
  destruct (Zdigits2_bounds (Zpos m) ltac:(lia)) as [_ [_ Hm]].
  pose proof (pow2_le (Zdigits2 (Zpos m)) 53 ltac:(lia)) as Hm53.
  pose proof one_unit_pos as HU.
  destruct (Z_lt_le_dec e 0) as [Hneg | Hpos].
  - (* below 2^53: the ceiling has at most 53 bits *)
    assert (Hu : units m e < 2 ^ 52 * one_unit).
    { unfold units. rewrite one_unit_half.
      pose proof (pow2_le (e + 1074) 1073 ltac:(lia)) as HG.
      pose proof (pow2_pos (e + 1074) ltac:(lia)) as HGpos.
      change (2 ^ 1073) with half_unit in HG.
      set (G := 2 ^ (e + 1074)) in *. clearbody G.
      apply Z.lt_le_trans with (2 ^ 53 * G); [apply mul_lt_mono; lia |].
      replace (2 ^ 52 * (2 * half_unit)) with (2 ^ 53 * half_unit)
        by (change (2 ^ 53) with (2 ^ 52 * 2); ring).
      apply Z.mul_le_mono_nonneg_l; lia. }
    assert (Hc52 : ceil_finite false m e <= 2 ^ 52).
    { assert (Hlt : (ceil_finite false m e - 1) * one_unit < 2 ^ 52 * one_unit)
        by lia.
      apply mul_lt_cancel in Hlt; lia. }
    split.
    + apply (representable_mul_pow2 (ceil_finite false m e) 1074); try lia.
      apply Zdigits2_le_of_lt; lia.
    + rewrite top_units_one.
      apply Z.le_lt_trans with (2 ^ 52 * one_unit);
        [apply mul_le_mono; lia |].
      apply mul_lt_mono; [exact HU | apply pow2_lt; lia].
  - (* an integer already *)
    assert (Hceq : ceil_finite false m e * one_unit = units m e).
    { unfold ceil_finite, units. cbn [cond_Zopp].
      destruct e as [| k | k]; [| | lia].
      - change (2 ^ (0 + 1074)) with one_unit. change (2 ^ 0) with 1. ring.
      - rewrite (pow2_one_unit (Zpos k)) by lia. ring. }
    rewrite Hceq. split.
    + now apply representable_units.
    + now apply units_lt_max.
Qed.

(** ** The two bounds on [count * interval] *)

Lemma representable_int k :
  0 < k -> k <= 2 ^ 53 -> representable (k * one_unit).
Proof.
  intros Hk Hle. unfold one_unit.
  destruct (Z.eq_dec k (2 ^ 53)) as [-> | Hne].
  - rewrite <- Z.pow_add_r by lia. rewrite <- (Z.mul_1_l (2 ^ (53 + 1074))).
    apply representable_mul_pow2; cbn; lia.
  - apply representable_mul_pow2; try lia. apply Zdigits2_le_of_lt; lia.
Qed.

Lemma int_below_top k : k <= 2 ^ 53 -> k * one_unit < top_units.
Proof.
  intros Hk. rewrite top_units_one.
  apply Z.le_lt_trans with (2 ^ 53 * one_unit).
  - apply mul_le_mono; [pose proof one_unit_pos; lia | exact Hk].
  - apply mul_lt_mono; [exact one_unit_pos | apply pow2_lt; lia].
Qed.

Lemma int_units_ge k : 1 <= k -> one_unit <= k * one_unit.
Proof.
  intros Hk. pose proof one_unit_pos.
  pose proof (mul_le_mono 1 k one_unit ltac:(lia) Hk). lia.
Qed.

(** A normal double is at least [2^52] of its own grid steps. *)
Lemma normal_steps m e :
  bounded prec emax m e = true -> 2 ^ 53 <= units m e ->
  2 ^ 52 * 2 ^ (e + 1074) <= units m e /\ Zpos m < 2 ^ 53 /\
  2 ^ 52 <= Zpos m /\ 0 < 2 ^ (e + 1074).
Proof.
  intros Hb H53.
  destruct (units_normal m e Hb H53) as [Hdig Hm52].
  destruct (bounded_range m e Hb) as (He & _ & _).
  pose proof (pow2_pos (e + 1074) ltac:(lia)) as HG.
  destruct (Zdigits2_bounds (Zpos m) ltac:(lia)) as [_ [_ Hhi]].
  rewrite Hdig in Hhi.
  repeat split; try assumption.
  unfold units. apply mul_le_mono; lia.
Qed.

(** The facts shared by the two bounds: the length [d], the interval
    [mi * 2^ei], and the quotient [mq * 2^eq] that [fdiv] gave for them. *)
Lemma timing_facts d mi mq ei eq :
  1 <= d <= 2 ^ 51 ->
  bounded prec emax mi ei = true ->
  bounded prec emax mq eq = true ->
  0 < one_unit /\ 0 < units mi ei /\ 0 < units mq eq /\
  1 <= ceil_finite false mq eq /\ 1 <= ceil_finite false mi ei /\
  (ceil_finite false mq eq - 1) * one_unit < units mq eq
     <= ceil_finite false mq eq * one_unit /\
  (ceil_finite false mi ei - 1) * one_unit < units mi ei
     <= ceil_finite false mi ei * one_unit /\
  d * one_unit <= 2 ^ 51 * one_unit.
Proof.
  intros Hd Hbi Hbq.
  destruct (bounded_range mi ei Hbi) as (Hei & _ & _).
  destruct (bounded_range mq eq Hbq) as (Heq & _ & _).
  pose proof one_unit_pos as HU.
  split; [exact HU |].
  split; [apply units_pos; lia |].
  split; [apply units_pos; lia |].
  split; [apply ceil_finite_pos; lia |].
  split; [apply ceil_finite_pos; lia |].
  split; [apply ceil_finite_spec; lia |].
  split; [apply ceil_finite_spec; lia |].
  apply mul_le_mono; lia.
Qed.

(** [count * interval] is not below [d - 1/2]. *)
Lemma product_lower d mi mq ei eq :
  1 <= d <= 2 ^ 51 ->
  bounded prec emax mi ei = true ->
  bounded prec emax mq eq = true ->
  faithful (S754_finite false mq eq)
    (d * one_unit * one_unit) (units mi ei) ->
  (2 * d - 1) * half_unit <= ceil_finite false mq eq * units mi ei.
Proof.
  intros Hd Hbi Hbq Hq.
  destruct (timing_facts d mi mq ei eq Hd Hbi Hbq)
    as (HU & HI & HQ & Hc & Hci & HcQ & HciI & HdU).
  destruct (ceil_finite_representable mq eq Hbq) as [Hrep _].
  set (c := ceil_finite false mq eq) in *.
  set (I := units mi ei) in *. set (Q := units mq eq) in *.
  destruct (Z_lt_le_dec (c * I) ((2 * d - 1) * half_unit)) as [Hlt | Hle];
    [exfalso | exact Hle].
  assert (Hy : d * one_unit = 2 * (d * half_unit))
    by (rewrite one_unit_half; ring).
  pose proof one_unit_half as HU2.
  set (x := c * I) in *. set (y := d * one_unit) in *.
  assert (Hxy : 2 * x < 2 * y - one_unit) by lia.
  clear Hy Hlt HU2.
  (* the ceiling of the quotient is the quotient *)
  assert (HQC : Q = c * one_unit).
  { assert (Hle' : c * one_unit * I <= d * one_unit * one_unit).
    { replace (c * one_unit * I) with (x * one_unit) by (unfold x; ring).
      fold y. apply mul_le_mono; lia. }
    pose proof (faithful_lower mq eq _ _ (c * one_unit) Hq Hrep Hle') as HCQ.
    fold Q in HCQ. lia. }
  (* it is a normal double, and the next double is above the quotient *)
  assert (HQ53 : 2 ^ 53 <= Q).
  { rewrite HQC. pose proof (one_unit_ge 53 ltac:(lia)).
    pose proof (int_units_ge c Hc). lia. }
  destruct (normal_steps mq eq Hbq HQ53) as (HGQ & Hhi & Hm52 & HG).
  destruct (bounded_range mq eq Hbq) as (Heq & _ & _).
  fold Q in HGQ.
  assert (HQG : Q = Zpos mq * 2 ^ (eq + 1074)) by reflexivity.
  assert (Hnext : representable (Q + 2 ^ (eq + 1074))).
  { replace (Q + 2 ^ (eq + 1074)) with ((Zpos mq + 1) * 2 ^ (eq + 1074))
      by (rewrite HQG; ring).
    destruct (Z.eq_dec (Zpos mq + 1) (2 ^ 53)) as [Hp | Hp].
    - rewrite Hp. rewrite <- Z.pow_add_r by lia.
      rewrite <- (Z.mul_1_l (2 ^ (53 + (eq + 1074)))).
      apply representable_mul_pow2; [lia | cbn; lia | lia].
    - apply representable_mul_pow2; try lia. apply Zdigits2_le_of_lt; lia. }
  set (G := 2 ^ (eq + 1074)) in *.
  assert (Habove : d * one_unit * one_unit < (Q + G) * I).
  { destruct (Z_lt_le_dec (d * one_unit * one_unit) ((Q + G) * I))
      as [H | H]; [exact H |].
    pose proof (faithful_lower mq eq _ _ (Q + G) Hq Hnext H) as Hcontra.
    fold Q in Hcontra. lia. }
  assert (Hb : 2 ^ 52 * y * one_unit < (2 ^ 52 + 1) * x * one_unit).
  { assert (H1 : 2 ^ 52 * (d * one_unit * one_unit) < 2 ^ 52 * ((Q + G) * I))
      by (apply Z.mul_lt_mono_pos_l; [reflexivity | exact Habove]).
    assert (H2 : 2 ^ 52 * G * I <= Q * I) by (apply mul_le_mono; lia).
    replace (2 ^ 52 * y * one_unit) with (2 ^ 52 * (d * one_unit * one_unit))
      by (unfold y; ring).
    replace ((2 ^ 52 + 1) * x * one_unit) with (2 ^ 52 * (Q * I) + Q * I)
      by (unfold x; rewrite HQC; ring).
    clear - H1 H2.
    set (a := d * one_unit * one_unit) in *. set (b := Q * I) in *.
    replace (2 ^ 52 * ((Q + G) * I)) with (2 ^ 52 * b + 2 ^ 52 * G * I) in H1
      by (unfold b; ring).
    set (g := 2 ^ 52 * G * I) in *. clearbody a b g. lia. }
  apply mul_lt_cancel in Hb; [| exact HU].
  change (2 ^ 52) with 4503599627370496 in Hb.
  change (2 ^ 51) with 2251799813685248 in HdU. fold y in HdU.
  clear - Hb HdU Hxy HU. clearbody x y. lia.
Qed.

(** [count * interval] is not above some double that is at most
    [d + ceil(interval)]. *)
Lemma product_upper d mi mq ei eq :
  1 <= d <= 2 ^ 51 ->
  bounded prec emax mi ei = true ->
  bounded prec emax mq eq = true ->
  faithful (S754_finite false mq eq)
    (d * one_unit * one_unit) (units mi ei) ->
  exists v, representable v /\ v < top_units /\
            ceil_finite false mq eq * units mi ei <= v /\
            v <= (d + ceil_finite false mi ei) * one_unit.
Proof.
  intros Hd Hbi Hbq Hq.
  destruct (timing_facts d mi mq ei eq Hd Hbi Hbq)
    as (HU & HI & HQ & Hc & Hci & HcQ & HciI & HdU).
  assert (H53 : 2 ^ 53 = 4 * 2 ^ 51) by reflexivity.
  destruct (Z.eq_dec (ceil_finite false mq eq) 1) as [Hc1 | Hc1].
  { (* one sample: the product is the interval *)
    exists (units mi ei). split; [now apply representable_units |].
    split; [now apply units_lt_max |]. rewrite Hc1. split; [lia |].
    apply Z.le_trans with (ceil_finite false mi ei * one_unit); [lia |].
    apply mul_le_mono; lia. }
  set (c := ceil_finite false mq eq) in *.
  set (ci := ceil_finite false mi ei) in *.
  set (I := units mi ei) in *. set (Q := units mq eq) in *.
  destruct (Z_lt_le_dec Q (2 ^ 53 * one_unit)) as [Hsmall | Hbig].
  - (* the quotient is below 2^53: count - 1 is below the true quotient *)
    assert (Hc53 : c - 1 < 2 ^ 53).
    { apply (mul_lt_cancel _ _ one_unit HU). lia. }
    assert (Hrep : representable ((c - 1) * one_unit)).
    { apply representable_int; lia. }
    assert (Hbelow : (c - 1) * one_unit * I < d * one_unit * one_unit).
    { destruct (Z_lt_le_dec ((c - 1) * one_unit * I)
                  (d * one_unit * one_unit)) as [H | H]; [exact H |].
      pose proof (faithful_upper mq eq _ _ ((c - 1) * one_unit) Hq Hrep H)
        as Hcontra.
      fold Q in Hcontra. lia. }
    assert (Hx : (c - 1) * I < d * one_unit).
    { replace ((c - 1) * one_unit * I) with ((c - 1) * I * one_unit)
        in Hbelow by ring.
      apply mul_lt_cancel in Hbelow; [exact Hbelow | exact HU]. }
    assert (HId : I < d * one_unit).
    { pose proof (mul_le_mono 1 (c - 1) I ltac:(lia) ltac:(lia)). lia. }
    assert (Hcid : ci <= d).
    { assert (Hlt : (ci - 1) * one_unit < d * one_unit) by lia.
      apply mul_lt_cancel in Hlt; lia. }
    exists ((d + ci) * one_unit). split; [apply representable_int; lia |].
    split; [apply int_below_top; lia |]. split; [| lia].
    replace (c * I) with ((c - 1) * I + I) by ring.
    replace ((d + ci) * one_unit) with (d * one_unit + ci * one_unit) by ring.
    lia.
  - (* the quotient is an integer double: its relative error is small *)
    assert (HQ53 : 2 ^ 53 <= Q).
    { pose proof (Z.mul_le_mono_nonneg_l 1 one_unit (2 ^ 53) ltac:(lia)
                    ltac:(lia)). lia. }
    destruct (normal_steps mq eq Hbq HQ53) as (HGQ & Hhi & Hm52 & HG).
    destruct (bounded_range mq eq Hbq) as (Heq & _ & _).
    fold Q in HGQ.
    assert (HQG : Q = Zpos mq * 2 ^ (eq + 1074)) by reflexivity.
    assert (HGU : one_unit < 2 ^ (eq + 1074)).
    { destruct (Z_lt_le_dec one_unit (2 ^ (eq + 1074))) as [H | H];
        [exact H | exfalso].
      pose proof (Z.mul_le_mono_nonneg_l _ _ (Zpos mq) ltac:(lia) H) as H1.
      pose proof (mul_lt_mono _ _ one_unit HU Hhi) as H2. lia. }
    assert (Heqpos : 0 < eq).
    { assert (1074 < eq + 1074)
        by (apply pow2_lt_inv; [lia | exact HGU]). lia. }
    assert (HQC : Q = c * one_unit).
    { unfold Q, c, units, ceil_finite. cbn [cond_Zopp].
      destruct eq as [| k | k]; try lia.
      rewrite (pow2_one_unit (Zpos k)) by lia. ring. }
    assert (Hprev : representable (Q - 2 ^ (eq + 1074))).
    { replace (Q - 2 ^ (eq + 1074)) with ((Zpos mq - 1) * 2 ^ (eq + 1074))
        by (rewrite HQG; ring).
      change (2 ^ 52) with 4503599627370496 in Hm52.
      apply representable_mul_pow2; try lia.
      apply Zdigits2_le_of_lt; lia. }
    set (G := 2 ^ (eq + 1074)) in *.
    assert (Hbelow : (Q - G) * I < d * one_unit * one_unit).
    { destruct (Z_lt_le_dec ((Q - G) * I) (d * one_unit * one_unit))
        as [H | H]; [exact H |].
      pose proof (faithful_upper mq eq _ _ (Q - G) Hq Hprev H) as Hcontra.
      fold Q in Hcontra. lia. }
    set (x := c * I) in *. set (y := d * one_unit) in *.
    assert (Hb : (2 ^ 52 - 1) * x * one_unit < 2 ^ 52 * y * one_unit).
    { assert (H1 : 2 ^ 52 * ((Q - G) * I) < 2 ^ 52 * (d * one_unit * one_unit))
        by (apply Z.mul_lt_mono_pos_l; [reflexivity | exact Hbelow]).
      assert (H2 : 2 ^ 52 * G * I <= Q * I) by (apply mul_le_mono; lia).
      replace (2 ^ 52 * y * one_unit)
        with (2 ^ 52 * (d * one_unit * one_unit)) by (unfold y; ring).
      replace ((2 ^ 52 - 1) * x * one_unit) with (2 ^ 52 * (Q * I) - Q * I)
        by (unfold x; rewrite HQC; ring).
      clear - H1 H2.
      set (a := d * one_unit * one_unit) in *. set (b := Q * I) in *.
      replace (2 ^ 52 * ((Q - G) * I)) with (2 ^ 52 * b - 2 ^ 52 * G * I)
        in H1 by (unfold b; ring).
      set (g := 2 ^ 52 * G * I) in *. clearbody a b g. lia. }
    apply mul_lt_cancel in Hb; [| exact HU].
    change (2 ^ 52) with 4503599627370496 in Hb.
    change (2 ^ 51) with 2251799813685248 in HdU. fold y in HdU.
    assert (Hx : x <= (d + 1) * one_unit).
    { replace ((d + 1) * one_unit) with (y + one_unit) by (unfold y; ring).
      clear - Hb HdU HU. clearbody x y. lia. }
    exists ((d + 1) * one_unit). split; [apply representable_int; lia |].
    split; [apply int_below_top; lia |]. split; [exact Hx |].
    apply mul_le_mono; lia.
Qed.
(** ** The derived timing *)

Lemma top_below_square : top_units < one_unit * one_unit.
Proof.
  rewrite top_units_one. apply mul_lt_mono; [exact one_unit_pos |].
  unfold one_unit. apply pow2_lt. lia.
Qed.

Lemma square_le_scaled k : 1 <= k -> one_unit * one_unit <= k * one_unit * one_unit.
Proof.
  intros Hk. pose proof one_unit_pos.
  apply mul_le_mono; [lia | now apply int_units_ge].
Qed.

(** The quotient of a positive integer below [2^53] by a positive double
    is not zero, a NaN or negative. *)
Lemma quotient_cases len mi ei :
  1 <= len <= 2 ^ 51 -> bounded prec emax mi ei = true ->
  exists md ed,
    of_int len = S754_finite false md ed /\
    bounded prec emax md ed = true /\
    units md ed = len * one_unit /\
    (fdiv (S754_finite false md ed) (S754_finite false mi ei)
       = S754_infinity false \/
     exists mq eq,
       fdiv (S754_finite false md ed) (S754_finite false mi ei)
         = S754_finite false mq eq /\
       bounded prec emax mq eq = true /\
       faithful (S754_finite false mq eq)
         (len * one_unit * one_unit) (units mi ei)).
Proof.
  intros Hlen Hbi.
  assert (H53 : 2 ^ 53 = 4 * 2 ^ 51) by reflexivity.
  destruct (of_int_exact len) as (md & ed & Hof & Hbd & Hud & _).
  { lia. }
  { apply representable_int; lia. }
  { apply int_below_top; lia. }
  exists md, ed. split; [exact Hof |]. split; [exact Hbd |].
  split; [exact Hud |].
  pose proof (fdiv_faithful md ed mi ei Hbd Hbi) as Hf. rewrite Hud in Hf.
  pose proof (units_lt_max mi ei Hbi) as HImax.
  destruct (fdiv (S754_finite false md ed) (S754_finite false mi ei))
    as [[] | [] | | [] mq eq]; unfold faithful in Hf; try contradiction.
  - exfalso. pose proof top_below_square as H1.
    pose proof (square_le_scaled len ltac:(lia)) as H2.
    clear - Hf HImax H1 H2. lia.
  - now left.
  - right. exists mq, eq. split; [reflexivity |].
    split; [apply Hf | exact Hf].
Qed.

(** The timing, once the two roundings are known. *)
Lemma timing_eval len i md ed mq eq mc ec mp ep :
  of_int len = S754_finite false md ed ->
  is_zero i = false ->
  fdiv (S754_finite false md ed) i = S754_finite false mq eq ->
  of_int (ceil_finite false mq eq) = S754_finite false mc ec ->
  fmul (S754_finite false mc ec) i = S754_finite false mp ep ->
  timing len i = Ok (ceil_finite false mq eq, ceil_finite false mp ep).
Proof.
  intros Hof Hz Hq Hofc Hp.
  unfold timing, truediv_int_float, mul_int_float, float_of_int.
  rewrite Hof. cbn [rbind]. rewrite Hz, Hq. cbn [ceil rbind].
  rewrite Hofc. cbn [rbind]. rewrite Hp. reflexivity.
Qed.

(** The product [count * interval] rounds to a finite double between
    [len - 1/2] and [len + ceil(interval)]. *)
Lemma product_rounding len mi ei mq eq :
  1 <= len <= 2 ^ 51 ->
  bounded prec emax mi ei = true ->
  bounded prec emax mq eq = true ->
  faithful (S754_finite false mq eq)
    (len * one_unit * one_unit) (units mi ei) ->
  exists mc ec mp ep,
    of_int (ceil_finite false mq eq) = S754_finite false mc ec /\
    fmul (S754_finite false mc ec) (S754_finite false mi ei)
      = S754_finite false mp ep /\
    bounded prec emax mp ep = true /\
    (2 * len - 1) * half_unit <= units mp ep /\
    units mp ep <= (len + ceil_finite false mi ei) * one_unit.
Proof.
  intros Hlen Hbi Hbq Hfq.
  destruct (timing_facts len mi mq ei eq Hlen Hbi Hbq)
    as (HU & HI & HQ & Hc & Hci & HcQ & HciI & _).
  pose proof (product_lower len mi mq ei eq Hlen Hbi Hbq Hfq) as Hlow.
  destruct (product_upper len mi mq ei eq Hlen Hbi Hbq Hfq)
    as (v & Hv & Hvmax & Hcv & Hvle).
  destruct (ceil_finite_representable mq eq Hbq) as [Hcrep Hcmax].
  destruct (of_int_exact (ceil_finite false mq eq) ltac:(lia) Hcrep Hcmax)
    as (mc & ec & Hofc & Hbc & Huc & Hdc).
  pose proof (fmul_faithful mc ec mi ei Hbc Hbi Hdc) as Hfp.
  rewrite Huc in Hfp.
  assert (HN : ceil_finite false mq eq * one_unit * units mi ei =
               ceil_finite false mq eq * units mi ei * one_unit) by ring.
  rewrite HN in Hfp.
  destruct (faithful_finite_upper
              (fmul (S754_finite false mc ec) (S754_finite false mi ei))
              (ceil_finite false mq eq * units mi ei * one_unit)
              one_unit v Hfp HU)
    as (mp & ep & Hp & Hbp & Hpv).
  { apply int_units_ge.
    pose proof (Z.mul_pos_pos (ceil_finite false mq eq) (units mi ei)
                  ltac:(lia) HI). lia. }
  { exact Hv. }
  { exact Hvmax. }
  { apply mul_le_mono; lia. }
  rewrite Hp in Hfp.
  assert (Hgrep : representable ((2 * len - 1) * half_unit)).
  { assert (H53 : 2 ^ 53 = 4 * 2 ^ 51) by reflexivity.
    unfold half_unit. apply representable_mul_pow2; try lia.
    apply Zdigits2_le_of_lt; lia. }
  exists mc, ec, mp, ep.
  split; [exact Hofc |]. split; [exact Hp |]. split; [exact Hbp |]. split.
  - apply (faithful_lower mp ep _ _ _ Hfp Hgrep).
    apply mul_le_mono; lia.
  - lia.
Qed.

(** C1, as the code has it.  For a length between 1 and [2^51] and a
    positive finite interval whose quotient does not overflow, the timing is
    computed, the congruent duration is at least the length and it is below
    the length plus the interval plus one: at most the length plus the
    ceiling of the interval. *)
Theorem timing_bounds (len : Z) (mi : positive) (ei : Z) :
  1 <= len <= 2 ^ 51 ->
  bounded prec emax mi ei = true ->
  is_finite (fdiv (of_int len) (S754_finite false mi ei)) = true ->
  exists count L,
    timing len (S754_finite false mi ei) = Ok (count, L) /\
    len <= L <= len + ceil_finite false mi ei /\
    (L - len - 1) * 2 ^ 1074 < units mi ei.
Proof.
  intros Hlen Hbi Hfin. change (2 ^ 1074) with one_unit.
  pose proof one_unit_pos as HU. pose proof half_unit_pos as HH.
  destruct (quotient_cases len mi ei Hlen Hbi)
    as (md & ed & Hof & _ & _ & [Hinf | (mq & eq & Hq & Hbq & Hfq)]).
  { rewrite Hof, Hinf in Hfin. discriminate. }
  destruct (product_rounding len mi ei mq eq Hlen Hbi Hbq Hfq)
    as (mc & ec & mp & ep & Hofc & Hp & Hbp & Hlo & Hhi).
  destruct (bounded_range mp ep Hbp) as (Hep & _ & _).
  destruct (bounded_range mi ei Hbi) as (Hei & _ & _).
  pose proof (ceil_finite_spec mp ep ltac:(lia)) as [HLlo HLhi].
  pose proof (ceil_finite_spec mi ei ltac:(lia)) as [Hcilo Hcihi].
  exists (ceil_finite false mq eq), (ceil_finite false mp ep).
  split.
  { apply (timing_eval len (S754_finite false mi ei) md ed mq eq mc ec mp ep);
      [exact Hof | reflexivity | exact Hq | exact Hofc | exact Hp]. }
  set (L := ceil_finite false mp ep) in *.
  set (ci := ceil_finite false mi ei) in *.
  assert (HL : L <= len + ci).
  { assert (Hlt : (L - 1) * one_unit < (len + ci) * one_unit) by lia.
    apply mul_lt_cancel in Hlt; lia. }
  assert (HL0 : len <= L).
  { assert (Hle : (2 * len - 1) * half_unit <= (2 * L) * half_unit).
    { replace (2 * L * half_unit) with (L * one_unit)
        by (rewrite one_unit_half; ring).
      lia. }
    apply mul_le_cancel in Hle; lia. }
  split; [split; [exact HL0 | exact HL] |].
  apply Z.le_lt_trans with ((ci - 1) * one_unit); [| exact Hcilo].
  apply mul_le_mono; lia.
Qed.

Lemma half_top_facts :
  representable (2 ^ 2097) /\ 2 ^ 2097 < top_units /\
  2 ^ 51 * one_unit * one_unit = 2 ^ 2097 * 2 ^ 102.
Proof.
  split; [| split].
  - rewrite <- (Z.mul_1_l (2 ^ 2097)).
    apply representable_mul_pow2; cbn; lia.
  - unfold top_units. apply pow2_lt. lia.
  - unfold one_unit. rewrite <- !Z.pow_add_r by lia. f_equal.
Qed.

(** The quotient does not overflow when the interval is at least
    [2^-972]. *)
Lemma quotient_finite len mi ei :
  1 <= len <= 2 ^ 51 -> bounded prec emax mi ei = true ->
  2 ^ 102 <= units mi ei ->
  is_finite (fdiv (of_int len) (S754_finite false mi ei)) = true.
Proof.
  intros Hlen Hbi Hbig.
  destruct (quotient_cases len mi ei Hlen Hbi)
    as (md & ed & Hof & Hbd & Hud & [Hinf | (mq & eq & Hq & _)]).
  2:{ rewrite Hof, Hq. reflexivity. }
  exfalso.
  pose proof (fdiv_faithful md ed mi ei Hbd Hbi) as Hf.
  rewrite Hinf, Hud in Hf. unfold faithful in Hf.
  destruct half_top_facts as (Hrep & Hlt & Hsp).
  specialize (Hf (2 ^ 2097) Hrep Hlt).
  assert (H1 : len * one_unit * one_unit <= 2 ^ 51 * one_unit * one_unit).
  { pose proof one_unit_pos. apply mul_le_mono; [lia |].
    apply mul_le_mono; lia. }
  assert (H2 : 2 ^ 2097 * 2 ^ 102 <= 2 ^ 2097 * units mi ei).
  { apply Z.mul_le_mono_nonneg_l; [| exact Hbig].
    pose proof (pow2_pos 2097 ltac:(lia)). lia. }
  rewrite <- Hsp in H2.
  apply (Z.lt_irrefl (len * one_unit * one_unit)).
  eapply Z.le_lt_trans; [| exact Hf].
  eapply Z.le_trans; [exact H1 | exact H2].
Qed.

(** ** The span of the probe *)

(** The two roundings of the timing, when the quotient does not
    overflow. *)
Lemma timing_rounded len mi ei :
  1 <= len <= 2 ^ 51 ->
  bounded prec emax mi ei = true ->
  is_finite (fdiv (of_int len) (S754_finite false mi ei)) = true ->
  exists mq eq mp ep,
    timing len (S754_finite false mi ei) =
      Ok (ceil_finite false mq eq, ceil_finite false mp ep) /\
    bounded prec emax mq eq = true /\
    faithful (S754_finite false mq eq)
      (len * one_unit * one_unit) (units mi ei) /\
    bounded prec emax mp ep = true /\
    (2 * len - 1) * half_unit <= units mp ep.
Proof.
  intros Hlen Hbi Hfin.
  destruct (quotient_cases len mi ei Hlen Hbi)
    as (md & ed & Hof & _ & _ & [Hinf | (mq & eq & Hq & Hbq & Hfq)]).
  { rewrite Hof, Hinf in Hfin. discriminate. }
  destruct (product_rounding len mi ei mq eq Hlen Hbi Hbq Hfq)
    as (mc & ec & mp & ep & Hofc & Hp & Hbp & Hlo & _).
  exists mq, eq, mp, ep.
  split; [| exact (conj Hbq (conj Hfq (conj Hbp Hlo)))].
  apply (timing_eval len (S754_finite false mi ei) md ed mq eq mc ec mp ep);
    [exact Hof | reflexivity | exact Hq | exact Hofc | exact Hp].
Qed.

(** The congruent duration is not below a length whose double it is at
    least, up to one half. *)
Lemma ceil_covers len mp ep :
  bounded prec emax mp ep = true ->
  (2 * len - 1) * half_unit <= units mp ep ->
  len <= ceil_finite false mp ep.
Proof.
  intros Hbp Hlo. destruct (bounded_range mp ep Hbp) as (Hep & _ & _).
  pose proof (ceil_finite_spec mp ep ltac:(lia)) as [_ HLhi].
  pose proof half_unit_pos as HH.
  set (L := ceil_finite false mp ep) in *.
  assert (Hle : (2 * len - 1) * half_unit <= (2 * L) * half_unit).
  { replace (2 * L * half_unit) with (L * one_unit)
      by (rewrite one_unit_half; ring).
    lia. }
  apply mul_le_cancel in Hle; lia.
Qed.

(** X13.  The probe is asked for at least one sample, and [count] samples at
    [interval] spacing span the length to within half a second: the exact
    product [count * interval] is at least [len - 1/2] and at most [len]
    plus the ceiling of the interval. *)
Theorem probe_span_covers_length (len : Z) (mi : positive) (ei : Z) :
  1 <= len <= 2 ^ 51 ->
  bounded prec emax mi ei = true ->
  is_finite (fdiv (of_int len) (S754_finite false mi ei)) = true ->
  exists count L,
    timing len (S754_finite false mi ei) = Ok (count, L) /\
    1 <= count /\
    (2 * len - 1) * half_unit <= count * units mi ei /\
    count * units mi ei <= (len + ceil_finite false mi ei) * one_unit.
Proof.
  intros Hlen Hbi Hfin.
  destruct (timing_rounded len mi ei Hlen Hbi Hfin)
    as (mq & eq & mp & ep & Ht & Hbq & Hfq & _ & _).
  destruct (timing_facts len mi mq ei eq Hlen Hbi Hbq)
    as (_ & _ & _ & Hc & _).
  pose proof (product_lower len mi mq ei eq Hlen Hbi Hbq Hfq) as Hlow.
  destruct (product_upper len mi mq ei eq Hlen Hbi Hbq Hfq)
    as (v & _ & _ & Hcv & Hvle).
  exists (ceil_finite false mq eq), (ceil_finite false mp ep).
  split; [exact Ht |]. split; [exact Hc |]. split; [exact Hlow |].
  eapply Z.le_trans; [exact Hcv | exact Hvle].
Qed.

(** X14.  For a length between 1 and [2^51] and a finite interval of at least
    [2^-972] the timing is computed: none of the conversions raises, at
    least one sample is asked for and the congruent duration is not below
    the length. *)
Theorem timing_succeeds (len : Z) (mi : positive) (ei : Z) :
  1 <= len <= 2 ^ 51 ->
  bounded prec emax mi ei = true ->
  2 ^ 102 <= units mi ei ->
  exists count L,
    timing len (S754_finite false mi ei) = Ok (count, L) /\
    1 <= count /\ len <= L.
Proof.
  intros Hlen Hbi Hbig.
  pose proof (quotient_finite len mi ei Hlen Hbi Hbig) as Hfin.
  destruct (timing_rounded len mi ei Hlen Hbi Hfin)
    as (mq & eq & mp & ep & Ht & Hbq & _ & Hbp & Hlo).
  destruct (timing_facts len mi mq ei eq Hlen Hbi Hbq)
    as (_ & _ & _ & Hc & _).
  exists (ceil_finite false mq eq), (ceil_finite false mp ep).
  split; [exact Ht |]. split; [exact Hc |].
  now apply ceil_covers.
Qed.

(** X15.  When the timing is computed the interval is not zero, so the
    rate [1 / interval] of the banner of load mode does not raise. *)
Theorem banner_rate_is_defined (len : Z) (i : float) (count L : Z) :
  timing len i = Ok (count, L) ->
  is_zero i = false /\ truediv_int_float 1 i = Ok (fdiv (of_int 1) i).
Proof.
  intros H.
  assert (Hz : is_zero i = false).
  { unfold timing, truediv_int_float in H.
    destruct (float_of_int len); cbn [rbind] in H; [| discriminate].
    destruct (is_zero i); [discriminate | reflexivity]. }
  split; [exact Hz |].
  assert (H1 : float_of_int 1 = Ok (of_int 1)) by (vm_compute; reflexivity).
  unfold truediv_int_float. rewrite H1. cbn [rbind]. now rewrite Hz.
Qed.

(** ** White space around the output of a session *)

Lemma lstrip_all_space a : all_space a = true -> lstrip a = "".
Proof.
  induction a as [| c a IH]; cbn; [reflexivity |].
  intros H. apply andb_prop in H as [Hc Ha]. now rewrite Hc, IH.
Qed.

Lemma rstrip_all_space b : all_space b = true -> rstrip b = "".
Proof.
  induction b as [| c b IH]; cbn; [reflexivity |].
  intros H. apply andb_prop in H as [Hc Hb]. now rewrite IH, Hc.
Qed.

Lemma rstrip_app_space s b :
  all_space b = true -> rstrip (s ++ b) = rstrip s.
Proof.
  intros Hb. induction s as [| c s IH]; cbn.
  - now apply rstrip_all_space.
  - now rewrite IH.
Qed.

Lemma lstrip_app s b :
  lstrip (s ++ b) = if all_space s then lstrip b else (lstrip s ++ b)%string.
Proof.
  induction s as [| c s IH]; cbn; [reflexivity |].
  destruct (is_space c); cbn; [exact IH | reflexivity].
Qed.

Lemma strip_all_space s : all_space s = true -> strip s = "".
Proof. intros H. unfold strip. now rewrite (lstrip_all_space s H). Qed.

(** White space before and after a text does not change what [strip]
    gives. *)
Lemma strip_padded a s b :
  all_space a = true -> all_space b = true ->
  strip (a ++ s ++ b) = strip s.
Proof.
  intros Ha Hb. unfold strip.
  rewrite (lstrip_app a), Ha, (lstrip_app s).
  destruct (all_space s) eqn:Hs.
  - now rewrite (lstrip_all_space b Hb), (lstrip_all_space s Hs).
  - now apply rstrip_app_space.
Qed.

(** What [rstrip] gives does not end, and what [lstrip] gives does not
    begin, with white space. *)
Lemma rstrip_idempotent s : rstrip (rstrip s) = rstrip s.
Proof.
  induction s as [| c s IH]; cbn; [reflexivity |].
  destruct (rstrip s) as [| c' t] eqn:Hr.
  - destruct (is_space c) eqn:Hc; cbn; [reflexivity | now rewrite Hc].
  - cbn. cbn in IH. now rewrite IH.
Qed.

Lemma rstrip_head c s :
  is_space c = false -> exists t, rstrip (String c s) = String c t.
Proof.
  intros Hc. cbn. destruct (rstrip s) as [| c' t].
  - rewrite Hc. now exists "".
  - now exists (String c' t).
Qed.

Lemma lstrip_head s :
  lstrip s = "" \/ exists c t, lstrip s = String c t /\ is_space c = false.
Proof.
  induction s as [| c s IH]; cbn; [now left |].
  destruct (is_space c) eqn:Hc; [exact IH |].
  right. now exists c, s.
Qed.

Lemma strip_fixed s : strip (strip s) = strip s.
Proof.
  unfold strip. destruct (lstrip_head s) as [-> | (c & t & -> & Hc)];
    [reflexivity |].
  destruct (rstrip_head c t Hc) as (t' & Ht).
  rewrite <- (rstrip_idempotent (String c t)) at 2.
  f_equal. rewrite Ht. cbn. now rewrite Hc.
Qed.

(** ** The words of the command line *)

Lemma append_assoc (a b c : string) :
  ((a ++ b) ++ c)%string = (a ++ (b ++ c))%string.
Proof. induction a as [| x a IH]; cbn; [reflexivity | now rewrite IH]. Qed.

Lemma append_empty (a : string) : (a ++ "")%string = a.
Proof. induction a as [| x a IH]; cbn; [reflexivity | now rewrite IH]. Qed.

Lemma word_char_cases c :
  is_word_char c = true ->
  is_lex_space c = false /\ is_lex_quote c = false /\ is_lex_escape c = false.
Proof.
  unfold is_word_char. intros H. apply negb_true_iff in H.
  apply orb_false_iff in H as [H He]. apply orb_false_iff in H as [Hs Hq].
  now repeat split.
Qed.

(** Inside a word, the characters of a word are added to it. *)
Lemma shlex_tokens_word u rest token quoted acc :
  all_word u = true ->
  shlex_tokens (u ++ rest) (LexWord token quoted) acc =
  shlex_tokens rest (LexWord (token ++ u) quoted) acc.
Proof.
  revert token. induction u as [| c u IH]; intros token Hu.
  - cbn [append]. now rewrite append_empty.
  - cbn in Hu. apply andb_prop in Hu as [Hc Hu].
    destruct (word_char_cases c Hc) as (Hs & Hq & He).
    cbn [append shlex_tokens]. rewrite Hs, Hq, He, (IH _ Hu).
    unfold push. now rewrite append_assoc.
Qed.

(** Between words, a word starts a token. *)
Lemma shlex_tokens_start u rest acc :
  is_word u = true ->
  shlex_tokens (u ++ rest) LexSpace acc =
  shlex_tokens rest (LexWord u false) acc.
Proof.
  destruct u as [| c u]; [discriminate |]. cbn [is_word all_word].
  intros Hu. apply andb_prop in Hu as [Hc Hu].
  destruct (word_char_cases c Hc) as (Hs & Hq & He).
  cbn [append shlex_tokens]. rewrite Hs, Hq, He.
  now rewrite (shlex_tokens_word u rest _ _ _ Hu).
Qed.

(** The decimal digits of an integer make a word. *)
Lemma uint_all_word d : all_word (NilEmpty.string_of_uint d) = true.
Proof. induction d; cbn; try reflexivity; exact IHd. Qed.

Lemma str_int_word n : is_word (str_int n) = true.
Proof.
  unfold str_int, NilZero.string_of_int, NilZero.string_of_uint.
  destruct (Z.to_int n) as [d | d]; destruct d; cbn;
    try reflexivity; apply uint_all_word.
Qed.

Lemma is_word_all_word u : is_word u = true -> all_word u = true.
Proof. now destruct u. Qed.

(** Words that follow a word, each after one space. *)
Lemma shlex_tokens_words ws token quoted acc :
  Forall (fun u => is_word u = true) ws ->
  shlex_tokens (fold_right (fun u r => String " " (u ++ r)) EmptyString ws)
    (LexWord token quoted) acc =
  Some (rev acc ++ token :: ws).
Proof.
  intros Hws. revert token quoted acc.
  induction Hws as [| u ws Hu _ IH]; intros token quoted acc.
  - reflexivity.
  - cbn [fold_right shlex_tokens].
    change (is_lex_space " ") with true. cbn iota.
    rewrite (shlex_tokens_start u _ _ Hu), IH. cbn [rev].
    now rewrite <- app_assoc.
Qed.

(** The command line of a session whose host is a word splits into eleven
    words. *)
Lemma command_words pr h d l :
  is_word h = true -> is_word d = true ->
  shlex_split (command pr h d l) =
    Some [("-" ++ str_int pr)%string; "-H"; h; "-t"; d; "-l"; str_int l;
          "-v"; "0"; "-P"; "0"].
Proof.
  intros Hh Hd. unfold shlex_split, command.
  change ("-" ++ str_int pr ++ " -H " ++ h ++ " -t " ++ d ++ " -l " ++
          str_int l ++ " -v 0 -P 0")%string
    with (("-" ++ str_int pr) ++
          fold_right (fun u r => String " " (u ++ r)) EmptyString
            ["-H"; h; "-t"; d; "-l"; str_int l; "-v"; "0"; "-P"; "0"])%string.
  rewrite shlex_tokens_start.
  - rewrite shlex_tokens_words; [reflexivity |].
    repeat constructor; try assumption; apply str_int_word.
  - cbn [append is_word all_word].
    change (is_word_char "-") with true.
    apply is_word_all_word, str_int_word.
Qed.

(** ** The sorted samples *)

Lemma insert_sorted_perm x l : Permutation (insert_sorted x l) (x :: l).
Proof.
  induction l as [| y l IH]; cbn; [reflexivity |].
  destruct (fltb x y); [reflexivity |].
  rewrite IH. apply perm_swap.
Qed.

Lemma sorted_fold_perm l acc :
  Permutation (fold_left (fun acc x => insert_sorted x acc) l acc) (l ++ acc).
Proof.
  revert acc. induction l as [| x l IH]; intros acc; cbn; [reflexivity |].
  rewrite IH, insert_sorted_perm. symmetry. apply Permutation_middle.
Qed.

Lemma SFcompare_antisym x y :
  SFcompare y x = option_map CompOpp (SFcompare x y).
Proof.
  destruct x as [sx | sx | | sx mx ex], y as [sy | sy | | sy my ey]; cbn;
    try reflexivity; try (destruct sx; reflexivity);
    try (destruct sy; reflexivity);
    try (destruct sx, sy; reflexivity).
  destruct sx, sy; try reflexivity;
    rewrite (Z.compare_antisym ex ey);
    destruct (ex ?= ey); cbn; try reflexivity;
    pose proof (Pos.compare_cont_antisym mx my Eq) as H;
    cbn [CompOpp] in H; rewrite <- H;
    now destruct (Pos.compare_cont Eq mx my).
Qed.

Lemma fltb_fleb x y : fltb x y = true -> fleb x y = true.
Proof.
  unfold fltb, fleb, SFltb, SFleb.
  now destruct (SFcompare x y) as [[] |].
Qed.

Lemma not_fltb_fleb x y :
  x <> S754_nan -> y <> S754_nan -> fltb x y = false -> fleb y x = true.
Proof.
  intros Hx Hy. unfold fltb, fleb, SFltb, SFleb.
  rewrite (SFcompare_antisym x y).
  destruct (SFcompare x y) as [[] |] eqn:Hc; cbn; try congruence.
  destruct x, y; cbn in Hc; congruence.
Qed.

Lemma insert_sorted_hd x y l :
  fleb y x = true -> HdRel (fun a b => fleb a b = true) y l ->
  HdRel (fun a b => fleb a b = true) y (insert_sorted x l).
Proof.
  intros Hyx Hl. destruct l as [| z l]; cbn; [now constructor |].
  destruct (fltb x z); constructor; [exact Hyx |].
  now inversion Hl.
Qed.

Lemma insert_sorted_sorted x l :
  x <> S754_nan -> Forall (fun y => y <> S754_nan) l ->
  Sorted (fun a b => fleb a b = true) l ->
  Sorted (fun a b => fleb a b = true) (insert_sorted x l).
Proof.
  intros Hx Hl Hs. induction Hs as [| y l Hs IH Hhd]; cbn.
  - repeat constructor.
  - inversion Hl as [| y' l' Hy Hl']; subst.
    destruct (fltb x y) eqn:Hxy.
    + constructor; [now constructor |]. constructor. now apply fltb_fleb.
    + constructor; [now apply IH |].
      apply insert_sorted_hd; [| exact Hhd].
      now apply not_fltb_fleb.
Qed.

Lemma sorted_fold_sorted l acc :
  Forall (fun y => y <> S754_nan) l -> Forall (fun y => y <> S754_nan) acc ->
  Sorted (fun a b => fleb a b = true) acc ->
  Sorted (fun a b => fleb a b = true)
    (fold_left (fun acc x => insert_sorted x acc) l acc).
Proof.
  revert acc. induction l as [| x l IH]; intros acc Hl Hacc Hs; cbn;
    [exact Hs |].
  inversion Hl as [| x' l' Hx Hl']; subst.
  apply IH; [exact Hl' | | now apply insert_sorted_sorted].
  apply Forall_forall. intros z Hz.
  apply (Permutation_in _ (insert_sorted_perm x acc)) in Hz.
  destruct Hz as [<- | Hz]; [exact Hx |].
  now apply (proj1 (Forall_forall _ _) Hacc).
Qed.

(** X11.  The sorted samples are the samples, in another order: the
    percentiles are taken over every sample, each as often as it was
    measured. *)
Theorem sorted_permutation (l : list float) : Permutation (sorted l) l.
Proof.
  unfold sorted. rewrite sorted_fold_perm. now rewrite app_nil_r.
Qed.

(** X12.  Samples without a NaN are handed to the percentile in
    nondecreasing order. *)
Theorem sorted_nondecreasing (l : list float) :
  Forall (fun x => x <> S754_nan) l ->
  Sorted (fun a b => fleb a b = true) (sorted l).
Proof.
  intros Hl. unfold sorted. apply sorted_fold_sorted; [exact Hl | |];
    constructor.
Qed.

(** * Properties *)

(** ** Traces of sequenced computations *)

#[local] Arguments bind : simpl never.
#[local] Arguments print_result : simpl never.
#[local] Arguments shlex_split : simpl never.
#[local] Arguments command : simpl never.

Lemma fst_bind {A B : Type} (c : M A) (k : A -> M B) :
  fst (bind c k) =
  fst c ++ match snd c with Ok a => fst (k a) | Raise _ => [] end.
Proof.
  unfold bind. destruct c as [t [a | e]]; simpl.
  - destruct (k a); reflexivity.
  - now rewrite app_nil_r.
Qed.

Lemma snd_bind {A B : Type} (c : M A) (k : A -> M B) :
  snd (bind c k) =
  match snd c with Ok a => snd (k a) | Raise e => Raise e end.
Proof.
  unfold bind. destruct c as [t [a | e]]; simpl; [destruct (k a) |]; reflexivity.
Qed.

Ltac trace_simpl :=
  repeat (progress (rewrite ?fst_bind, ?snd_bind; cbn)).

Lemma bind_lift_ok {A B : Type} (a : A) (k : A -> M B) :
  bind (lift (Ok a)) k = k a.
Proof. unfold bind, lift. now destruct (k a). Qed.

Lemma spawns_app t1 t2 : spawns (t1 ++ t2) = spawns t1 ++ spawns t2.
Proof. apply flat_map_app. Qed.

Lemma probes_app t1 t2 : probes (t1 ++ t2) = probes t1 ++ probes t2.
Proof. apply flat_map_app. Qed.

Lemma printed_app t1 t2 : printed (t1 ++ t2) = printed t1 ++ printed t2.
Proof. apply flat_map_app. Qed.

Lemma throughput_lines_app t1 t2 :
  throughput_lines (t1 ++ t2) = throughput_lines t1 ++ throughput_lines t2.
Proof. unfold throughput_lines. now rewrite printed_app, filter_app. Qed.

Lemma report_lines_app t1 t2 :
  report_lines (t1 ++ t2) = report_lines t1 ++ report_lines t2.
Proof. unfold report_lines. now rewrite printed_app, filter_app. Qed.

Section ProgramFacts.

Variable py_float : string -> option float.
Variable percentile : list float -> Z -> result float.

Abbreviation print_result := (print_result percentile).
Abbreviation main := (main py_float percentile).
Abbreviation gather := (gather py_float).
Abbreviation get_netperf := (get_netperf py_float).

(** The direction line of [print_result] is there exactly when [speed] is
    true as a condition. *)
Lemma print_result_throughput args res speed :
  throughput_lines (fst (print_result args res speed)) =
  match speed with
  | Some v =>
      if speed_truthy speed
      then [LThroughput (if String.eqb (direction args) "up"
                         then "Upload" else "Download") v]
      else []
  | None => []
  end.
Proof.
  unfold print_result.
  destruct speed as [v |]; [destruct (speed_truthy (Some v)) |];
    destruct (percentile (sorted (rtts res)) 10);
    destruct (percentile (sorted (rtts res)) 50);
    destruct (percentile (sorted (rtts res)) 90); reflexivity.
Qed.

Lemma print_result_spawns args res speed :
  spawns (fst (print_result args res speed)) = [].
Proof.
  unfold print_result.
  destruct speed as [v |]; [destruct (speed_truthy (Some v)) |];
    destruct (percentile (sorted (rtts res)) 10);
    destruct (percentile (sorted (rtts res)) 50);
    destruct (percentile (sorted (rtts res)) 90); reflexivity.
Qed.

Lemma print_result_probes args res speed :
  probes (fst (print_result args res speed)) = [].
Proof.
  unfold print_result.
  destruct speed as [v |]; [destruct (speed_truthy (Some v)) |];
    destruct (percentile (sorted (rtts res)) 10);
    destruct (percentile (sorted (rtts res)) 50);
    destruct (percentile (sorted (rtts res)) 90); reflexivity.
Qed.

Lemma words_of_some cmd words :
  shlex_split cmd = Some words -> words_of cmd = NETPERF :: words.
Proof. intros H. unfold words_of. now rewrite H. Qed.

(** One call of [run_netperf]. *)
Lemma run_netperf_spec w k pr h d l :
  run_netperf w k pr h d l =
  match shlex_split (command pr h d l) with
  | None => ([], Raise ValueError)
  | Some words =>
      ([ESpawn {| np_proto := pr; np_host := h;
                  np_direction := d; np_length := l |} (NETPERF :: words)],
       if spawn_ok w k then Ok k else Raise OSError)
  end.
Proof.
  unfold run_netperf. destruct (shlex_split (command pr h d l));
    [destruct (spawn_ok w k) |]; reflexivity.
Qed.

(** The launches: as many [ESpawn] events as processes were created, all
    with the same arguments and the same words; none when the command
    line cannot be split. *)
Lemma launch_trace w n k pr h d l :
  exists j : nat,
    (j <= n)%nat /\
    fst (launch w n k pr h d l) =
      repeat (ESpawn {| np_proto := pr; np_host := h;
                        np_direction := d; np_length := l |}
                (words_of (command pr h d l))) j /\
    ((forall i, spawn_ok w i = true) ->
     shlex_split (command pr h d l) <> None ->
     j = n /\ snd (launch w n k pr h d l) = Ok (seq k n)).
Proof.
  revert k. induction n as [| n IH]; intros k.
  - exists 0%nat. split; [lia |]. split; [reflexivity |].
    intros _ _. split; reflexivity.
  - destruct (IH (S k)) as (j & Hj & Ht & Hall).
    cbn [launch]. rewrite run_netperf_spec.
    destruct (shlex_split (command pr h d l)) as [words |] eqn:Hw.
    + rewrite (words_of_some _ _ Hw) in *.
      destruct (spawn_ok w k) eqn:Hk.
      * exists (S j). split; [lia |]. split.
        -- trace_simpl. rewrite Ht.
           destruct (snd (launch w n (S k) pr h d l)); cbn;
             now rewrite app_nil_r.
        -- intros Hok Hsplit. destruct (Hall Hok) as [-> Hs]; [discriminate |].
           split; [reflexivity |]. trace_simpl. now rewrite Hs.
      * exists 1%nat. split; [lia |]. split; [reflexivity |].
        intros Hok. rewrite Hok in Hk. discriminate.
    + exists 0%nat. split; [lia |]. split; [reflexivity |].
      intros _ Hsplit. now destruct Hsplit.
Qed.


Lemma gather_spec w procs speeds :
  gather w procs = Ok speeds <->
  Forall2 (fun p x => get_netperf w p = Ok x) procs speeds.
Proof.
  revert speeds. induction procs as [| p ps IH]; intros speeds; cbn.
  - split.
    + intros [= <-]. constructor.
    + intros H. inversion H. reflexivity.
  - split.
    + destruct (get_netperf w p) as [x | e] eqn:Hp; cbn; [| discriminate].
      destruct (gather w ps) as [xs | e] eqn:Hps; cbn; [| discriminate].
      intros [= <-]. constructor; [assumption | now apply IH].
    + intros H. inversion H as [| p' x ps' xs Hx Hxs]; subst.
      apply IH in Hxs. rewrite Hx; cbn. now rewrite Hxs.
Qed.

(** A session whose output does not read as a float makes [gather] raise
    [ValueError]. *)
Lemma gather_fails w procs p :
  In p procs -> py_float (strip (proc_stdout w p)) = None ->
  gather w procs = Raise ValueError.
Proof.
  intros Hin Hp. induction procs as [| p' ps IH]; [destruct Hin |].
  cbn. unfold get_netperf at 1.
  destruct (py_float (strip (proc_stdout w p'))) as [x |] eqn:Hp'; cbn;
    [| reflexivity].
  destruct Hin as [-> | Hin]; [congruence |].
  now rewrite (IH Hin).
Qed.

(** [main] in idle mode, once the timing is computed. *)
Lemma main_idle w args count L :
  idle args = true ->
  timing (length args) (interval args) = Ok (count, L) ->
  main w args =
  (print (LIdleBanner (ping args) count (interval args) L) ;;
   emit (EPing (ping args) count (interval args)) ;;
   res <- await_ping w ;;
   print_result args res None)%trace.
Proof.
  intros Hidle Ht. unfold main. rewrite Ht, bind_lift_ok, Hidle. reflexivity.
Qed.

(** [main] in load mode, once the timing is computed. *)
Lemma main_load w args count L :
  idle args = false ->
  timing (length args) (interval args) = Ok (count, L) ->
  main w args =
  (print (LLoadBanner (num_ args) (if proto args =? 4 then "ipv4" else "ipv6")
            (direction args) (host args) (ping args)
            (fdiv (of_int 1) (interval args)) L) ;;
   procs <- launch w (Z.to_nat (num_ args)) 0 (proto args) (host args)
              (if String.eqb (direction args) "up"
               then "TCP_STREAM" else "TCP_MAERTS")
              (L + warmup args + 2) ;;
   (if 0 <? warmup args then
      print (LWarmup (warmup args)) ;; emit (ESleep (warmup args))
    else ret tt) ;;
   print LRunning ;;
   emit (EPing (ping args) count (interval args)) ;;
   emit (EGather (List.length procs)) ;;
   speeds <- lift (gather w procs) ;;
   res <- await_ping w ;;
   print_result args res (Some (py_sum speeds)))%trace.
Proof.
  intros Hidle Ht. unfold main. rewrite Ht, bind_lift_ok, Hidle. reflexivity.
Qed.

(** When the timing computation raises, nothing has been done yet. *)
Lemma main_timing_raises w args e :
  timing (length args) (interval args) = Raise e ->
  main w args = ([], Raise e).
Proof. intros Ht. unfold main. now rewrite Ht. Qed.

(** The events of a run in load mode, stage by stage. *)
Lemma main_load_trace w args count L :
  idle args = false ->
  timing (length args) (interval args) = Ok (count, L) ->
  let l := launch w (Z.to_nat (num_ args)) 0 (proto args) (host args)
             (if String.eqb (direction args) "up"
              then "TCP_STREAM" else "TCP_MAERTS")
             (L + warmup args + 2) in
  fst (main w args) =
  EPrint (LLoadBanner (num_ args) (if proto args =? 4 then "ipv4" else "ipv6")
            (direction args) (host args) (ping args)
            (fdiv (of_int 1) (interval args)) L)
  :: fst l ++
  match snd l with
  | Raise _ => []
  | Ok procs =>
      (if 0 <? warmup args
       then [EPrint (LWarmup (warmup args)); ESleep (warmup args)] else []) ++
      EPrint LRunning :: EPing (ping args) count (interval args)
      :: EGather (List.length procs) ::
      match gather w procs with
      | Raise _ => []
      | Ok speeds =>
          EAwaitPing ::
          match ping_outcome w with
          | Raise _ => []
          | Ok res => fst (print_result args res (Some (py_sum speeds)))
          end
      end
  end.
Proof.
  intros Hidle Ht l. rewrite (main_load w args count L Hidle Ht).
  fold l. unfold await_ping. trace_simpl.
  destruct (snd l) as [procs | e]; [| reflexivity].
  f_equal. f_equal.
  destruct (0 <? warmup args); trace_simpl;
    (destruct (gather w procs) as [speeds | e]; trace_simpl; [| reflexivity]);
    (destruct (ping_outcome w) as [res | e]; trace_simpl; reflexivity).
Qed.

(** The events of a run in idle mode. *)
Lemma main_idle_trace w args count L :
  idle args = true ->
  timing (length args) (interval args) = Ok (count, L) ->
  fst (main w args) =
  EPrint (LIdleBanner (ping args) count (interval args) L)
  :: EPing (ping args) count (interval args) :: EAwaitPing ::
  match ping_outcome w with
  | Raise _ => []
  | Ok res => fst (print_result args res None)
  end.
Proof.
  intros Hidle Ht. rewrite (main_idle w args count L Hidle Ht).
  unfold await_ping. trace_simpl.
  destruct (ping_outcome w) as [res | e]; trace_simpl; reflexivity.
Qed.

Lemma spawns_repeat c a j : spawns (repeat (ESpawn c a) j) = repeat c j.
Proof. unfold spawns. induction j as [| j IH]; simpl; congruence. Qed.

Lemma execs_repeat c a j : execs (repeat (ESpawn c a) j) = repeat a j.
Proof. unfold execs. induction j as [| j IH]; simpl; congruence. Qed.


Lemma probes_repeat_spawn c a j : probes (repeat (ESpawn c a) j) = [].
Proof. unfold probes. induction j as [| j IH]; simpl; auto. Qed.

Lemma printed_repeat_spawn c a j : printed (repeat (ESpawn c a) j) = [].
Proof. unfold printed. induction j as [| j IH]; simpl; auto. Qed.

(** Launches that all succeed: the command line was split, every process
    was created, and the processes are numbered in the order of the
    launches. *)
Lemma launch_ok w n k pr h d l procs :
  snd (launch w n k pr h d l) = Ok procs ->
  procs = seq k n /\
  fst (launch w n k pr h d l) =
    repeat (ESpawn {| np_proto := pr; np_host := h;
                      np_direction := d; np_length := l |}
              (words_of (command pr h d l))) n /\
  (forall i, (i < n)%nat -> spawn_ok w (k + i) = true) /\
  ((0 < n)%nat -> shlex_split (command pr h d l) <> None).
Proof.
  revert k procs. induction n as [| n IH]; intros k procs.
  - cbn. intros [= <-]. repeat split; intros; lia.
  - cbn [launch]. rewrite run_netperf_spec.
    destruct (shlex_split (command pr h d l)) as [words |] eqn:Hw;
      [| discriminate].
    rewrite (words_of_some _ _ Hw) in *.
    destruct (spawn_ok w k) eqn:Hk; [| discriminate].
    trace_simpl. specialize (IH (S k)).
    destruct (snd (launch w n (S k) pr h d l)) as [ps | e]; cbn;
      [| discriminate].
    intros [= <-]. destruct (IH ps eq_refl) as (-> & -> & Hok & _).
    split; [reflexivity |]. split; [now rewrite app_nil_r |].
    split; [| discriminate].
    intros [| i] Hi; [now rewrite Nat.add_0_r |].
    replace (k + S i)%nat with (S k + i)%nat by lia. apply Hok. lia.
Qed.

(** A command line that cannot be split ends the first launch with
    [ValueError], before any process is created. *)
Lemma launch_unsplit w n k pr h d l :
  shlex_split (command pr h d l) = None -> (0 < n)%nat ->
  launch w n k pr h d l = ([], Raise ValueError).
Proof.
  intros Hw Hn. destruct n as [| n]; [lia |].
  cbn [launch]. now rewrite run_netperf_spec, Hw.
Qed.

Lemma main_unsplit w args count L :
  idle args = false ->
  timing (length args) (interval args) = Ok (count, L) ->
  shlex_split (session_command args L) = None ->
  (0 < Z.to_nat (num_ args))%nat ->
  main w args =
    ([EPrint (LLoadBanner (num_ args)
                (if proto args =? 4 then "ipv4" else "ipv6")
                (direction args) (host args) (ping args)
                (fdiv (of_int 1) (interval args)) L)],
     Raise ValueError).
Proof.
  intros Hidle Ht Hw Hn.
  rewrite (main_load w args count L Hidle Ht).
  now rewrite (launch_unsplit w _ 0 _ _ _ _ Hw Hn).
Qed.

(** ** The launches of load mode *)

(** The launches of a run in load mode. *)
Lemma load_spawns w args count L :
  idle args = false ->
  timing (length args) (interval args) = Ok (count, L) ->
  exists j : nat,
    (j <= Z.to_nat (num_ args))%nat /\
    spawns (fst (main w args)) =
      repeat {| np_proto := proto args; np_host := host args;
                np_direction := if String.eqb (direction args) "up"
                                then "TCP_STREAM" else "TCP_MAERTS";
                np_length := L + warmup args + 2 |} j /\
    ((forall i, spawn_ok w i = true) ->
     shlex_split (session_command args L) <> None ->
     j = Z.to_nat (num_ args)).
Proof.
  intros Hidle Ht.
  rewrite (main_load_trace w args count L Hidle Ht). cbv zeta.
  destruct (launch_trace w (Z.to_nat (num_ args)) 0 (proto args) (host args)
              (if String.eqb (direction args) "up"
               then "TCP_STREAM" else "TCP_MAERTS")
              (L + warmup args + 2)) as (j & Hj & Hl & Hall).
  exists j. split; [exact Hj |]. split.
  - rewrite Hl. change (spawns (?e :: ?t)) with (spawns [e] ++ spawns t).
    rewrite spawns_app, spawns_repeat. cbn [spawns flat_map app].
    match goal with |- _ ++ ?x = _ => replace x with (@nil netperf_call) end;
      [apply app_nil_r |].
    destruct (snd (launch _ _ _ _ _ _ _)) as [procs | e]; [| reflexivity].
    rewrite spawns_app.
    destruct (0 <? warmup args); cbn;
      (destruct (gather w procs) as [speeds | e]; [| reflexivity]);
      (destruct (ping_outcome w) as [res | e]; cbn; [| reflexivity]);
      now rewrite print_result_spawns.
  - intros Hok Hsplit. now destruct (Hall Hok Hsplit).
Qed.

(** C5.  In load mode every launched session is asked to run for the
    congruent duration plus the warm-up plus two seconds: the launches in
    the trace are copies of one call with that length, one for each of the
    [num] sessions when the command line splits into words and every
    launch succeeds (and only the first ones, up to the failing launch,
    otherwise). *)
Theorem load_sessions_duration w args count L :
  idle args = false ->
  timing (length args) (interval args) = Ok (count, L) ->
  exists j : nat,
    (j <= Z.to_nat (num_ args))%nat /\
    spawns (fst (main w args)) =
      repeat {| np_proto := proto args; np_host := host args;
                np_direction := if String.eqb (direction args) "up"
                                then "TCP_STREAM" else "TCP_MAERTS";
                np_length := L + warmup args + 2 |} j /\
    ((forall i, spawn_ok w i = true) ->
     shlex_split (session_command args L) <> None ->
     j = Z.to_nat (num_ args)).
Proof. exact (load_spawns w args count L). Qed.


(** ** Idle mode *)

(** A run in idle mode. *)
Lemma idle_run w args count L :
  idle args = true ->
  timing (length args) (interval args) = Ok (count, L) ->
  probes (fst (main w args)) = [(ping args, count, interval args)] /\
  spawns (fst (main w args)) = [] /\
  throughput_lines (fst (main w args)) = [] /\
  (forall res p10 p50 p90,
     ping_outcome w = Ok res ->
     percentile (sorted (rtts res)) 10 = Ok p10 ->
     percentile (sorted (rtts res)) 50 = Ok p50 ->
     percentile (sorted (rtts res)) 90 = Ok p90 ->
     snd (main w args) = Ok tt /\
     report_lines (fst (main w args)) =
       [LLatency (packets_sent res) (fmul (packet_loss res) (of_int 100));
        LStat "Min:" (min_rtt res); LStat "10pct:" p10; LStat "Median:" p50;
        LStat "Avg:" (avg_rtt res); LStat "90pct:" p90;
        LStat "Max:" (max_rtt res); LStat "Jitter:" (jitter res)]).
Proof.
  intros Hidle Ht.
  split; [| split; [| split]];
    [| | | intros res p10 p50 p90 Hres H10 H50 H90; split];
    rewrite ?(main_idle_trace w args count L Hidle Ht).
  - cbn. destruct (ping_outcome w) as [res | e]; [| reflexivity].
    now rewrite print_result_probes.
  - cbn. destruct (ping_outcome w) as [res | e]; [| reflexivity].
    now rewrite print_result_spawns.
  - change (throughput_lines (?a :: ?b :: ?c :: ?t)) with (throughput_lines t).
    destruct (ping_outcome w) as [res | e]; [| reflexivity].
    now rewrite print_result_throughput.
  - rewrite (main_idle w args count L Hidle Ht). unfold await_ping.
    trace_simpl. rewrite Hres. cbn. unfold print_result. trace_simpl.
    rewrite H10. cbn. rewrite H50. cbn. now rewrite H90.
  - change (report_lines (?a :: ?b :: ?c :: ?t)) with (report_lines t).
    rewrite Hres. unfold print_result. trace_simpl.
    rewrite H10. cbn. rewrite H50. cbn. now rewrite H90.
Qed.

(** C6, as the code has it.  With [idle] set no session is launched and
    no throughput line is printed.  When the timing is computed the run
    starts one probe, for [count] samples at [interval] spacing against
    the ping host, and when the probe answers and the three percentiles
    are computed it ends normally with the eight latency lines as its
    report.  When the timing computation raises, as it does for a zero
    interval, the run ends with that exception before anything is printed:
    no probe is started. *)
Theorem idle_mode_probe_only w args :
  idle args = true ->
  spawns (fst (main w args)) = [] /\
  throughput_lines (fst (main w args)) = [] /\
  (forall count L,
     timing (length args) (interval args) = Ok (count, L) ->
     probes (fst (main w args)) = [(ping args, count, interval args)] /\
     (forall res p10 p50 p90,
        ping_outcome w = Ok res ->
        percentile (sorted (rtts res)) 10 = Ok p10 ->
        percentile (sorted (rtts res)) 50 = Ok p50 ->
        percentile (sorted (rtts res)) 90 = Ok p90 ->
        snd (main w args) = Ok tt /\
        report_lines (fst (main w args)) =
          [LLatency (packets_sent res) (fmul (packet_loss res) (of_int 100));
           LStat "Min:" (min_rtt res); LStat "10pct:" p10;
           LStat "Median:" p50; LStat "Avg:" (avg_rtt res);
           LStat "90pct:" p90; LStat "Max:" (max_rtt res);
           LStat "Jitter:" (jitter res)])) /\
  (forall e,
     timing (length args) (interval args) = Raise e ->
     main w args = ([], Raise e) /\ probes (fst (main w args)) = []).
Proof.
  intros Hidle.
  destruct (timing (length args) (interval args)) as [[count L] | e] eqn:Ht.
  - destruct (idle_run w args count L Hidle Ht) as (Hp & Hs & Hl & Hrep).
    split; [exact Hs |]. split; [exact Hl |]. split.
    + intros count' L' [= <- <-]. split; [exact Hp | exact Hrep].
    + intros e' [=].
  - rewrite (main_timing_raises w args e Ht).
    split; [reflexivity |]. split; [reflexivity |]. split.
    + intros count L [=].
    + intros e' [= <-]. split; reflexivity.
Qed.

(** ** Aggregate throughput *)

(** The report of a run in load mode whose launches, sessions and probe
    all succeed is printed with the sum of the session results. *)
Lemma main_load_report w args count L speeds res :
  idle args = false ->
  timing (length args) (interval args) = Ok (count, L) ->
  (forall i, spawn_ok w i = true) ->
  shlex_split (session_command args L) <> None ->
  gather w (seq 0 (Z.to_nat (num_ args))) = Ok speeds ->
  ping_outcome w = Ok res ->
  report_lines (fst (main w args)) =
    report_lines (fst (print_result args res (Some (py_sum speeds)))) /\
  snd (main w args) = snd (print_result args res (Some (py_sum speeds))).
Proof.
  intros Hidle Ht Hok Hsplit Hg Hres.
  destruct (launch_trace w (Z.to_nat (num_ args)) 0 (proto args) (host args)
              (if String.eqb (direction args) "up"
               then "TCP_STREAM" else "TCP_MAERTS")
              (L + warmup args + 2)) as (j & Hj & Hl & Hall).
  destruct (Hall Hok Hsplit) as [-> Hs]. split.
  - rewrite (main_load_trace w args count L Hidle Ht). cbv zeta.
    rewrite Hl, Hs, Hg, Hres.
    change (report_lines (?e :: ?t)) with (report_lines [e] ++ report_lines t).
    rewrite !report_lines_app. unfold report_lines at 2.
    rewrite printed_repeat_spawn.
    destruct (0 <? warmup args); reflexivity.
  - rewrite (main_load w args count L Hidle Ht). unfold await_ping.
    trace_simpl. rewrite Hs. cbn.
    destruct (0 <? warmup args); trace_simpl; rewrite Hg; cbn;
      rewrite Hres; trace_simpl; reflexivity.
Qed.

(** C7.  The speed handed to the report in load mode, when the command
    line splits into words and the launches succeed, is [sum] of the
    session results, and the sum of the three results 10.0, 12.5 and 9.8
    is the double 32.3. *)
Theorem aggregate_throughput_is_sum w args count L speeds res :
  idle args = false ->
  timing (length args) (interval args) = Ok (count, L) ->
  (forall i, spawn_ok w i = true) ->
  shlex_split (session_command args L) <> None ->
  Forall2 (fun k x => get_netperf w k = Ok x)
    (seq 0 (Z.to_nat (num_ args))) speeds ->
  ping_outcome w = Ok res ->
  (report_lines (fst (main w args)) =
     report_lines (fst (print_result args res (Some (py_sum speeds)))) /\
   (speed_truthy (Some (py_sum speeds)) = true ->
    throughput_lines (fst (main w args)) =
      [LThroughput (if String.eqb (direction args) "up"
                    then "Upload" else "Download") (py_sum speeds)])) /\
  py_sum [dec 10 1; dec 125 10; dec 98 10] = Flt (dec 323 10).
Proof.
  intros Hidle Ht Hok Hsplit Hg Hres. apply gather_spec in Hg.
  destruct (main_load_report w args count L speeds res Hidle Ht Hok Hsplit
              Hg Hres) as [Hrep _].
  split; [split |].
  - exact Hrep.
  - intros Htruthy.
    assert (Hthr : forall t, throughput_lines t =
                             filter is_throughput (report_lines t)).
    { intros t. unfold throughput_lines, report_lines.
      induction (printed t) as [| l ls IH]; [reflexivity |].
      destruct l; cbn; rewrite ?IH; reflexivity. }
    rewrite Hthr, Hrep, <- Hthr, print_result_throughput.
    now rewrite Htruthy.
  - vm_compute. reflexivity.
Qed.

(** ** The throughput line *)

Lemma throughput_lines_of_report t :
  throughput_lines t = filter is_throughput (report_lines t).
Proof.
  unfold throughput_lines, report_lines.
  induction (printed t) as [| l ls IH]; [reflexivity |].
  destruct l; cbn; rewrite ?IH; reflexivity.
Qed.

Lemma in_throughput_lines d v t :
  In (LThroughput d v) (printed t) <-> In (LThroughput d v) (throughput_lines t).
Proof.
  unfold throughput_lines. rewrite filter_In. cbn. tauto.
Qed.

(** The throughput lines of any run: none, or the one of [print_result]. *)
Lemma main_throughput_lines w args :
  throughput_lines (fst (main w args)) = [] \/
  exists res speeds,
    throughput_lines (fst (main w args)) =
    throughput_lines (fst (print_result args res (Some (py_sum speeds)))).
Proof.
  destruct (timing (length args) (interval args)) as [[count L] | e] eqn:Ht.
  2:{ left. now rewrite (main_timing_raises w args e Ht). }
  destruct (idle args) eqn:Hidle.
  { left. now destruct (idle_run w args count L Hidle Ht)
      as (_ & _ & H & _). }
  rewrite (main_load_trace w args count L Hidle Ht). cbv zeta.
  destruct (launch_trace w (Z.to_nat (num_ args)) 0 (proto args) (host args)
              (if String.eqb (direction args) "up"
               then "TCP_STREAM" else "TCP_MAERTS")
              (L + warmup args + 2)) as (j & _ & Hl & _).
  rewrite Hl.
  change (throughput_lines (?e :: ?t)) with (throughput_lines t).
  rewrite throughput_lines_app. unfold throughput_lines at 1 3.
  rewrite printed_repeat_spawn. cbn [filter app].
  destruct (snd (launch _ _ _ _ _ _ _)) as [procs | e]; [| now left].
  rewrite throughput_lines_app.
  replace (throughput_lines (if 0 <? warmup args
             then [EPrint (LWarmup (warmup args)); ESleep (warmup args)]
             else [])) with (@nil line)
    by (destruct (0 <? warmup args); reflexivity).
  cbn [app].
  change (throughput_lines (?a :: ?b :: ?c :: ?t)) with (throughput_lines t).
  destruct (gather w procs) as [speeds | e]; [| now left].
  change (throughput_lines (?a :: ?t)) with (throughput_lines t).
  destruct (ping_outcome w) as [res | e]; [| now left].
  right. now exists res, speeds.
Qed.

(** C9.  [print_result] prints the direction line exactly when [speed] is
    true as a condition.  A zero sum is treated as the absent speed of
    idle mode: the same lines are printed, and a run in load mode whose
    sum is false as a condition prints no direction line. *)
Theorem throughput_line_iff_truthy w args res speed :
  ((exists d v,
      In (LThroughput d v) (printed (fst (print_result args res speed)))) <->
   speed_truthy speed = true) /\
  (forall s, print_result args res (Some (Flt (S754_zero s))) =
             print_result args res None) /\
  (forall count L speeds,
     idle args = false ->
     timing (length args) (interval args) = Ok (count, L) ->
     (forall i, spawn_ok w i = true) ->
     gather w (seq 0 (Z.to_nat (num_ args))) = Ok speeds ->
     speed_truthy (Some (py_sum speeds)) = false ->
     throughput_lines (fst (main w args)) = []).
Proof.
  split; [| split].
  - split.
    + intros (d & v & Hin). apply in_throughput_lines in Hin.
      rewrite print_result_throughput in Hin.
      destruct speed as [x |]; [| destruct Hin].
      destruct (speed_truthy (Some x)); [reflexivity | destruct Hin].
    + intros Htruthy. destruct speed as [x |]; [| discriminate].
      exists (if String.eqb (direction args) "up" then "Upload" else "Download"), x.
      apply in_throughput_lines. rewrite print_result_throughput, Htruthy.
      now left.
  - reflexivity.
  - intros count L speeds Hidle Ht Hok Hg Hfalse.
    rewrite (main_load_trace w args count L Hidle Ht). cbv zeta.
    destruct (launch_trace w (Z.to_nat (num_ args)) 0 (proto args)
                (host args)
                (if String.eqb (direction args) "up"
                 then "TCP_STREAM" else "TCP_MAERTS")
                (L + warmup args + 2)) as (j & _ & Hl & _).
    rewrite Hl.
    change (throughput_lines (?e :: ?t)) with (throughput_lines t).
    rewrite throughput_lines_app. unfold throughput_lines at 1.
    rewrite printed_repeat_spawn. cbn [filter app].
    destruct (snd (launch _ _ _ _ _ _ _)) as [procs | e] eqn:Hs;
      [| reflexivity].
    destruct (launch_ok _ _ _ _ _ _ _ _ Hs) as (-> & _).
    rewrite Hg, throughput_lines_app.
    replace (throughput_lines (if 0 <? warmup args
               then [EPrint (LWarmup (warmup args)); ESleep (warmup args)]
               else [])) with (@nil line)
      by (destruct (0 <? warmup args); reflexivity).
    cbn [app].
    change (throughput_lines (?a :: ?b :: ?c :: ?d :: ?t))
      with (throughput_lines t).
    destruct (ping_outcome w) as [res' | e]; [| reflexivity].
    now rewrite print_result_throughput, Hfalse.
Qed.

(** ** The direction flag *)

Lemma bind_ext {A B : Type} (c : M A) (k k' : A -> M B) :
  (forall a, k a = k' a) -> bind c k = bind c k'.
Proof.
  intros H. unfold bind. destruct c as [t [a | e]]; [| reflexivity].
  now rewrite H.
Qed.

(** What a run answers, stage by stage; the direction is not read. *)
Lemma print_result_snd args res speed :
  snd (print_result args res speed) =
  (_ <- percentile (sorted (rtts res)) 10 ;;
   _ <- percentile (sorted (rtts res)) 50 ;;
   _ <- percentile (sorted (rtts res)) 90 ;;
   Ok tt)%result.
Proof.
  unfold print_result.
  destruct speed as [v |]; [destruct (speed_truthy (Some v)) |]; trace_simpl;
    (destruct (percentile (sorted (rtts res)) 10); cbn; [| reflexivity]);
    (destruct (percentile (sorted (rtts res)) 50); cbn; [| reflexivity]);
    destruct (percentile (sorted (rtts res)) 90); reflexivity.
Qed.

Lemma main_snd w args :
  snd (main w args) =
  match timing (length args) (interval args) with
  | Raise e => Raise e
  | Ok (_, L) =>
      if idle args then
        (res <- ping_outcome w ;; snd (print_result args res None))%result
      else
        (procs <- snd (launch w (Z.to_nat (num_ args)) 0 (proto args)
                         (host args)
                         (if String.eqb (direction args) "up"
                          then "TCP_STREAM" else "TCP_MAERTS")
                         (L + warmup args + 2)) ;;
         speeds <- gather w procs ;;
         res <- ping_outcome w ;;
         snd (print_result args res None))%result
  end.
Proof.
  destruct (timing (length args) (interval args)) as [[count L] | e] eqn:Ht.
  2:{ now rewrite (main_timing_raises w args e Ht). }
  destruct (idle args) eqn:Hidle.
  - rewrite (main_idle w args count L Hidle Ht). unfold await_ping.
    trace_simpl. destruct (ping_outcome w); reflexivity.
  - rewrite (main_load w args count L Hidle Ht). unfold await_ping.
    trace_simpl.
    destruct (snd (launch w (Z.to_nat (num_ args)) 0 (proto args) (host args)
                     (if String.eqb (direction args) "up"
                      then "TCP_STREAM" else "TCP_MAERTS")
                     (L + warmup args + 2)))
      as [procs | e]; cbn; [| reflexivity].
    destruct (0 <? warmup args); trace_simpl;
      (destruct (gather w procs) as [speeds | e]; cbn; [| reflexivity]);
      (destruct (ping_outcome w) as [res | e]; trace_simpl; [| reflexivity]);
      now rewrite !print_result_snd.
Qed.

(** C10.  A direction other than [up] selects the stream [TCP_MAERTS] and
    the label [Download]; no direction is refused.  In load mode, when the
    command line splits into words and the launches succeed, each of the
    [num] sessions is launched with [TCP_MAERTS], and when the sessions
    and the probe answer and the sum is true as a condition the throughput
    line is printed with the label [Download].  In every run, whatever
    fails, no session is launched with another stream and no throughput
    line has another label, and the run answers as it does for [down]. *)
Theorem unknown_direction_is_download w args :
  direction args <> "up" ->
  (forall count L,
     idle args = false ->
     timing (length args) (interval args) = Ok (count, L) ->
     shlex_split (command (proto args) (host args) "TCP_MAERTS"
                    (L + warmup args + 2)) <> None ->
     (forall i, spawn_ok w i = true) ->
     spawns (fst (main w args)) =
       repeat {| np_proto := proto args; np_host := host args;
                 np_direction := "TCP_MAERTS";
                 np_length := L + warmup args + 2 |}
         (Z.to_nat (num_ args)) /\
     (forall speeds res,
        gather w (seq 0 (Z.to_nat (num_ args))) = Ok speeds ->
        ping_outcome w = Ok res ->
        speed_truthy (Some (py_sum speeds)) = true ->
        throughput_lines (fst (main w args)) =
          [LThroughput "Download" (py_sum speeds)])) /\
  (forall c, In c (spawns (fst (main w args))) ->
             np_direction c = "TCP_MAERTS") /\
  (forall d v, In (LThroughput d v) (printed (fst (main w args))) ->
               d = "Download") /\
  snd (main w args) = snd (main w (with_direction args "down")).
Proof.
  intros Hdir. apply String.eqb_neq in Hdir. split; [| split; [| split]].
  - intros count L Hidle Ht Hsplit Hok.
    assert (Hsplit' : shlex_split (session_command args L) <> None).
    { unfold session_command. now rewrite Hdir. }
    split.
    + destruct (load_spawns w args count L Hidle Ht) as (j & _ & Hs & Hall).
      rewrite Hs, Hdir, (Hall Hok Hsplit'). reflexivity.
    + intros speeds res Hg Hres Htruthy.
      destruct (main_load_report w args count L speeds res Hidle Ht Hok
                  Hsplit' Hg Hres) as [Hrep _].
      rewrite throughput_lines_of_report, Hrep, <- throughput_lines_of_report.
      now rewrite print_result_throughput, Htruthy, Hdir.
  - intros c Hin.
    destruct (timing (length args) (interval args)) as [[count L] | e] eqn:Ht.
    2:{ rewrite (main_timing_raises w args e Ht) in Hin. destruct Hin. }
    destruct (idle args) eqn:Hidle.
    + destruct (idle_run w args count L Hidle Ht)
        as (_ & Hs & _). rewrite Hs in Hin. destruct Hin.
    + destruct (load_spawns w args count L Hidle Ht)
        as (j & _ & Hs & _).
      rewrite Hs, Hdir in Hin. apply repeat_spec in Hin. now subst c.
  - intros d v Hin. apply in_throughput_lines in Hin.
    destruct (main_throughput_lines w args) as [H | (res & speeds & H)];
      rewrite H in Hin; [destruct Hin |].
    rewrite print_result_throughput, Hdir in Hin.
    destruct (speed_truthy (Some (py_sum speeds))); [| destruct Hin].
    destruct Hin as [[= <- _] | []]. reflexivity.
  - rewrite !main_snd. cbn [with_direction length interval idle num_ proto
                             host warmup direction].
    rewrite Hdir. reflexivity.
Qed.

Lemma launch_returncode w rc n k pr h d l :
  launch (with_returncode w rc) n k pr h d l = launch w n k pr h d l.
Proof.
  revert k. induction n as [| n IH]; intros k; [reflexivity |].
  cbn [launch]. unfold run_netperf. cbn [with_returncode spawn_ok].
  apply bind_ext. intros p. now rewrite IH.
Qed.

Lemma gather_returncode w rc procs :
  gather (with_returncode w rc) procs = gather w procs.
Proof.
  induction procs as [| p ps IH]; [reflexivity |].
  cbn. now rewrite IH.
Qed.

Lemma main_returncode w rc args :
  main (with_returncode w rc) args = main w args.
Proof.
  unfold main. apply bind_ext. intros cl.
  destruct (idle args); [reflexivity |].
  apply bind_ext. intros _. rewrite launch_returncode.
  apply bind_ext. intros procs. apply bind_ext. intros _.
  apply bind_ext. intros _. apply bind_ext. intros _. apply bind_ext.
  intros _. now rewrite gather_returncode.
Qed.

(** C4, as the code has it.  In load mode, when the launches succeed and
    the output of one of the sessions does not read as a float, the run
    ends with [ValueError] and no line of the statistics report has been
    printed (a command line that does not split into words ends it in the
    same way, before any launch).  The exit status of the sessions is never read: the run is
    the same whatever the statuses are. *)
Theorem unparsable_session_is_fatal w args count L k :
  idle args = false ->
  timing (length args) (interval args) = Ok (count, L) ->
  (forall i, spawn_ok w i = true) ->
  (k < Z.to_nat (num_ args))%nat ->
  py_float (strip (proc_stdout w k)) = None ->
  snd (main w args) = Raise ValueError /\
  report_lines (fst (main w args)) = [] /\
  (forall rc, main (with_returncode w rc) args = main w args).
Proof.
  intros Hidle Ht Hok Hk Hbad.
  assert (Hg : gather w (seq 0 (Z.to_nat (num_ args))) = Raise ValueError).
  { apply gather_fails with (p := k); [| exact Hbad].
    apply in_seq. lia. }
  split; [| split]; [| | intros rc; apply main_returncode].
  - rewrite main_snd, Ht, Hidle.
    destruct (shlex_split (session_command args L)) eqn:Hw.
    + destruct (launch_trace w (Z.to_nat (num_ args)) 0 (proto args)
                  (host args)
                  (if String.eqb (direction args) "up"
                   then "TCP_STREAM" else "TCP_MAERTS")
                  (L + warmup args + 2)) as (j & _ & _ & Hall).
      destruct (Hall Hok) as [_ Hs].
      { unfold session_command in Hw. now rewrite Hw. }
      rewrite Hs. cbn. now rewrite Hg.
    + rewrite (launch_unsplit w _ 0 _ _ _ _ Hw); [reflexivity | lia].
  - destruct (shlex_split (session_command args L)) eqn:Hw.
    + rewrite (main_load_trace w args count L Hidle Ht). cbv zeta.
      destruct (launch_trace w (Z.to_nat (num_ args)) 0 (proto args)
                  (host args)
                  (if String.eqb (direction args) "up"
                   then "TCP_STREAM" else "TCP_MAERTS")
                  (L + warmup args + 2)) as (j & _ & Hl & Hall).
      destruct (Hall Hok) as [-> Hs].
      { unfold session_command in Hw. now rewrite Hw. }
      rewrite Hl, Hs, Hg.
      change (report_lines (?e :: ?t)) with (report_lines t).
      rewrite report_lines_app. unfold report_lines at 1.
      rewrite printed_repeat_spawn.
      destruct (0 <? warmup args); reflexivity.
    + rewrite (main_unsplit w args count L Hidle Ht Hw); [reflexivity | lia].
Qed.

(** ** Parameters that are not checked *)

(** C3, as the code has it.  Nothing validates the parameters.  A zero
    interval stops the run in the timing computation, with
    [ZeroDivisionError] (or [OverflowError] for a length beyond the floats),
    before anything is printed or launched.  A session count below one in
    load mode is not an error: no session is launched, the probe is started
    as usual, no throughput line is printed, and the run answers what the
    probe and the report answer. *)
Theorem unchecked_parameters w args :
  (is_zero (interval args) = true ->
   main w args = ([], Raise ZeroDivisionError) \/
   main w args = ([], Raise OverflowError)) /\
  (forall count L,
     idle args = false ->
     num_ args < 1 ->
     timing (length args) (interval args) = Ok (count, L) ->
     spawns (fst (main w args)) = [] /\
     probes (fst (main w args)) = [(ping args, count, interval args)] /\
     throughput_lines (fst (main w args)) = [] /\
     snd (main w args) =
       (res <- ping_outcome w ;; snd (print_result args res None))%result).
Proof.
  split.
  - intros Hz.
    assert (Ht : timing (length args) (interval args) = Raise ZeroDivisionError
                 \/ timing (length args) (interval args) = Raise OverflowError).
    { unfold timing, truediv_int_float.
      destruct (float_of_int (length args)) as [x | e] eqn:Hx; cbn.
      - rewrite Hz. now left.
      - right. unfold float_of_int in Hx.
        destruct (of_int (length args)); congruence. }
    destruct Ht as [Ht | Ht]; [left | right];
      now apply main_timing_raises.
  - intros count L Hidle Hnum Ht.
    assert (Hn : Z.to_nat (num_ args) = 0%nat) by lia.
    split; [| split; [| split]].
    + destruct (load_spawns w args count L Hidle Ht)
        as (j & Hj & Hs & _).
      rewrite Hs. replace j with 0%nat by lia. reflexivity.
    + rewrite (main_load_trace w args count L Hidle Ht). cbv zeta.
      rewrite Hn. cbn.
      destruct (0 <? warmup args); cbn;
        (destruct (ping_outcome w) as [res | e]; cbn; [| reflexivity]);
        now rewrite print_result_probes.
    + destruct (main_throughput_lines w args) as [H | (res & speeds & H)];
        [exact H |].
      rewrite (main_load_trace w args count L Hidle Ht). cbv zeta.
      rewrite Hn. cbn [launch ret fst snd app].
      change (throughput_lines (?e :: ?t)) with (throughput_lines t).
      rewrite throughput_lines_app.
      change (gather w []) with (@Ok (list float) []).
      destruct (0 <? warmup args);
        (destruct (ping_outcome w) as [res' | e]; [| reflexivity]);
        cbn [app];
        repeat change (throughput_lines (?e :: ?t)) with (throughput_lines t);
        now rewrite ?print_result_throughput.
    + rewrite main_snd, Ht, Hidle, Hn. reflexivity.
Qed.

(** ** An empty sample set *)

(** C8, as the code has it.  [print_result] does not look whether there
    are samples.  With none it prints the throughput line (when the speed
    is true as a condition), the latency header and the minimum, and then
    asks for the tenth percentile of the empty list; when that raises, the
    exception ends [print_result] after these lines. *)
Theorem empty_samples_partial_report args res speed :
  rtts res = [] ->
  exists rest,
    printed (fst (print_result args res speed)) =
      throughput_lines (fst (print_result args res speed)) ++
      LLatency (packets_sent res) (fmul (packet_loss res) (of_int 100))
      :: LStat "Min:" (min_rtt res) :: rest /\
    (forall e, percentile [] 10 = Raise e ->
               rest = [] /\ snd (print_result args res speed) = Raise e).
Proof.
  intros Hempty. rewrite print_result_throughput, print_result_snd.
  unfold print_result. rewrite Hempty. cbn [sorted fold_left].
  destruct (percentile [] 10) as [p10 | e10] eqn:H10.
  - eexists. split.
    + destruct speed as [v |]; [destruct (speed_truthy (Some v)) |];
        trace_simpl; rewrite ?H10; cbn; reflexivity.
    + intros e [=].
  - exists []. split.
    + destruct speed as [v |]; [destruct (speed_truthy (Some v)) |];
        trace_simpl; rewrite ?H10; reflexivity.
    + intros e [= <-]. split; reflexivity.
Qed.

(** ** Further facts on the events of a run *)

Lemma sleeps_app t1 t2 : sleeps (t1 ++ t2) = sleeps t1 ++ sleeps t2.
Proof. apply flat_map_app. Qed.

Lemma sleeps_repeat_spawn c a j : sleeps (repeat (ESpawn c a) j) = [].
Proof. unfold sleeps. induction j as [| j IH]; simpl; auto. Qed.

Lemma prints_quiet t : forallb is_print t = true -> forallb is_quiet t = true.
Proof.
  induction t as [| e t IH]; cbn; [reflexivity |].
  intros H. apply andb_prop in H as [He Ht]. rewrite (IH Ht).
  now destruct e.
Qed.

Lemma quiet_spec t :
  forallb is_quiet t = true -> spawns t = [] /\ sleeps t = [] /\ probes t = [].
Proof.
  induction t as [| e t IH]; cbn; [now repeat split |].
  intros H. apply andb_prop in H as [He Ht].
  destruct (IH Ht) as (Hs & Hz & Hp).
  unfold spawns, sleeps, probes in *. cbn. rewrite Hs, Hz, Hp.
  now destruct e.
Qed.

Lemma quiet_execs t : forallb is_quiet t = true -> execs t = [].
Proof.
  induction t as [| e t IH]; cbn; [reflexivity |].
  intros H. apply andb_prop in H as [He Ht].
  unfold execs in *. cbn. rewrite (IH Ht). now destruct e.
Qed.

Lemma execs_app t1 t2 : execs (t1 ++ t2) = execs t1 ++ execs t2.
Proof. apply flat_map_app. Qed.

Lemma prints_no_gather t n : forallb is_print t = true -> ~ In (EGather n) t.
Proof.
  induction t as [| e t IH]; cbn; [tauto |].
  intros H. apply andb_prop in H as [He Ht].
  intros [-> | Hin]; [discriminate | now apply IH].
Qed.

Lemma print_result_prints args res speed :
  forallb is_print (fst (print_result args res speed)) = true.
Proof.
  unfold print_result.
  destruct speed as [v |]; [destruct (speed_truthy (Some v)) |];
    destruct (percentile (sorted (rtts res)) 10);
    destruct (percentile (sorted (rtts res)) 50);
    destruct (percentile (sorted (rtts res)) 90); reflexivity.
Qed.

Lemma print_result_quiet args res speed :
  spawns (fst (print_result args res speed)) = [] /\
  sleeps (fst (print_result args res speed)) = [] /\
  probes (fst (print_result args res speed)) = [].
Proof. apply quiet_spec, prints_quiet, print_result_prints. Qed.

Lemma after_probe_app t1 t2 :
  probes t1 = [] -> after_probe (t1 ++ t2) = after_probe t2.
Proof.
  induction t1 as [| e t1 IH]; cbn; [reflexivity |].
  destruct e; cbn; try exact IH. discriminate.
Qed.

(** ** A launch that fails *)

Lemma launch_fails w n k j pr h d l words :
  shlex_split (command pr h d l) = Some words ->
  (j < n)%nat ->
  (forall i, (i < j)%nat -> spawn_ok w (k + i) = true) ->
  spawn_ok w (k + j) = false ->
  launch w n k pr h d l =
    (repeat (ESpawn {| np_proto := pr; np_host := h;
                       np_direction := d; np_length := l |}
               (NETPERF :: words)) (S j),
     Raise OSError).
Proof.
  intros Hw. revert k j.
  induction n as [| n IH]; intros k j Hj Hok Hbad; [lia |].
  cbn [launch]. rewrite run_netperf_spec, Hw. destruct j as [| j].
  - rewrite Nat.add_0_r in Hbad. rewrite Hbad. reflexivity.
  - assert (Hk : spawn_ok w k = true).
    { rewrite <- (Nat.add_0_r k). apply Hok. lia. }
    rewrite Hk, (IH (S k) j); [reflexivity | lia | |].
    + intros i Hi. replace (S k + i)%nat with (k + S i)%nat by lia.
      apply Hok. lia.
    + now replace (S k + j)%nat with (k + S j)%nat by lia.
Qed.

Lemma main_launch_fails w args count L j words :
  idle args = false ->
  timing (length args) (interval args) = Ok (count, L) ->
  shlex_split (session_command args L) = Some words ->
  (j < Z.to_nat (num_ args))%nat ->
  (forall i, (i < j)%nat -> spawn_ok w i = true) ->
  spawn_ok w j = false ->
  main w args =
    (EPrint (LLoadBanner (num_ args)
               (if proto args =? 4 then "ipv4" else "ipv6")
               (direction args) (host args) (ping args)
               (fdiv (of_int 1) (interval args)) L)
     :: repeat (ESpawn (session_call args L) (NETPERF :: words)) (S j),
     Raise OSError).
Proof.
  intros Hidle Ht Hw Hj Hok Hbad.
  rewrite (main_load w args count L Hidle Ht).
  rewrite (launch_fails w _ 0 j _ _ _ _ words);
    [reflexivity | exact Hw | exact Hj | exact Hok | exact Hbad].
Qed.

(** X1.  When the command line splits into words and the system refuses
    to start a session, the run ends with [OSError] at once: the sessions
    up to the refused one have been started, each with the program
    [netperf] and those words, the probe is not started, nothing sleeps,
    no result is collected and no line of the report is printed. *)
Theorem launch_failure_stops_run w args count L j words :
  idle args = false ->
  timing (length args) (interval args) = Ok (count, L) ->
  shlex_split (session_command args L) = Some words ->
  (j < Z.to_nat (num_ args))%nat ->
  (forall i, (i < j)%nat -> spawn_ok w i = true) ->
  spawn_ok w j = false ->
  snd (main w args) = Raise OSError /\
  execs (fst (main w args)) = repeat (NETPERF :: words) (S j) /\
  spawns (fst (main w args)) = repeat (session_call args L) (S j) /\
  probes (fst (main w args)) = [] /\
  sleeps (fst (main w args)) = [] /\
  report_lines (fst (main w args)) = [] /\
  (forall n, ~ In (EGather n) (fst (main w args))).
Proof.
  intros Hidle Ht Hw Hj Hok Hbad.
  rewrite (main_launch_fails w args count L j words Hidle Ht Hw Hj Hok Hbad).
  cbn [fst snd]. split; [reflexivity |].
  split.
  { change (execs (?e :: ?t)) with (execs t). apply execs_repeat. }
  split.
  { change (spawns (?e :: ?t)) with (spawns t). apply spawns_repeat. }
  split.
  { change (probes (?e :: ?t)) with (probes t). apply probes_repeat_spawn. }
  split.
  { change (sleeps (?e :: ?t)) with (sleeps t). apply sleeps_repeat_spawn. }
  split.
  { change (report_lines (?e :: ?t)) with (report_lines t).
    unfold report_lines. now rewrite printed_repeat_spawn. }
  intros n [H | H]; [discriminate |].
  apply repeat_spec in H. discriminate.
Qed.

(** X17.  A command line that does not split into words, as with an
    unbalanced quote in the host, ends a run in load mode with at least
    one session with [ValueError] after the banner: no process is
    created, the probe is not started and nothing else is printed. *)
Theorem unsplittable_command_stops_run w args count L :
  idle args = false ->
  timing (length args) (interval args) = Ok (count, L) ->
  shlex_split (session_command args L) = None ->
  0 < num_ args ->
  snd (main w args) = Raise ValueError /\
  execs (fst (main w args)) = [] /\
  spawns (fst (main w args)) = [] /\
  probes (fst (main w args)) = [] /\
  printed (fst (main w args)) =
    [LLoadBanner (num_ args) (if proto args =? 4 then "ipv4" else "ipv6")
       (direction args) (host args) (ping args)
       (fdiv (of_int 1) (interval args)) L].
Proof.
  intros Hidle Ht Hw Hn.
  rewrite (main_unsplit w args count L Hidle Ht Hw ltac:(lia)).
  repeat split.
Qed.

(** ** The warm-up *)

Lemma main_sleeps w args :
  sleeps (fst (main w args)) =
  match timing (length args) (interval args) with
  | Raise _ => []
  | Ok (_, L) =>
      if idle args then []
      else
        match snd (launch w (Z.to_nat (num_ args)) 0 (proto args)
                     (host args)
                     (if String.eqb (direction args) "up"
                      then "TCP_STREAM" else "TCP_MAERTS")
                     (L + warmup args + 2)) with
        | Raise _ => []
        | Ok _ => if 0 <? warmup args then [warmup args] else []
        end
  end.
Proof.
  destruct (timing (length args) (interval args)) as [[count L] | e] eqn:Ht.
  2:{ now rewrite (main_timing_raises w args e Ht). }
  destruct (idle args) eqn:Hidle.
  - rewrite (main_idle_trace w args count L Hidle Ht).
    change (sleeps (?a :: ?b :: ?c :: ?t)) with (sleeps t).
    destruct (ping_outcome w) as [res | e]; [| reflexivity].
    apply print_result_quiet.
  - rewrite (main_load_trace w args count L Hidle Ht). cbv zeta.
    destruct (launch_trace w (Z.to_nat (num_ args)) 0 (proto args) (host args)
                (if String.eqb (direction args) "up"
                 then "TCP_STREAM" else "TCP_MAERTS")
                (L + warmup args + 2)) as (j & _ & Hl & _).
    rewrite Hl.
    change (sleeps (?e :: ?t)) with (sleeps t).
    rewrite sleeps_app, sleeps_repeat_spawn. cbn [app].
    destruct (snd (launch _ _ _ _ _ _ _)) as [procs | e]; [| reflexivity].
    rewrite sleeps_app.
    assert (Htail : sleeps
              (EPrint LRunning :: EPing (ping args) count (interval args)
               :: EGather (List.length procs)
               :: match gather w procs with
                  | Ok speeds =>
                      EAwaitPing
                      :: match ping_outcome w with
                         | Ok res =>
                             fst (print_result args res (Some (py_sum speeds)))
                         | Raise _ => []
                         end
                  | Raise _ => []
                  end) = []).
    { change (sleeps (?a :: ?b :: ?c :: ?t)) with (sleeps t).
      destruct (gather w procs) as [speeds | e]; [| reflexivity].
      change (sleeps (?a :: ?t)) with (sleeps t).
      destruct (ping_outcome w) as [res | e]; [| reflexivity].
      apply print_result_quiet. }
    rewrite Htail, app_nil_r.
    destruct (0 <? warmup args); reflexivity.
Qed.

(** X2.  The run sleeps only for the warm-up, only in load mode and only
    when the warm-up is positive; with a positive warm-up, a command line
    that splits into words and launches that succeed it sleeps once, for
    the warm-up. *)
Theorem warmup_sleep_iff_positive w args :
  (forall s, In s (sleeps (fst (main w args))) ->
     s = warmup args /\ 0 < warmup args /\ idle args = false) /\
  (forall count L,
     idle args = false ->
     timing (length args) (interval args) = Ok (count, L) ->
     (forall i, spawn_ok w i = true) ->
     shlex_split (session_command args L) <> None ->
     0 < warmup args ->
     sleeps (fst (main w args)) = [warmup args]).
Proof.
  split.
  - intros s. rewrite main_sleeps.
    destruct (timing (length args) (interval args)) as [[count L] | e];
      [| intros []].
    destruct (idle args); [intros [] |].
    destruct (snd (launch _ _ _ _ _ _ _)); [| intros []].
    destruct (0 <? warmup args) eqn:Hw; [| intros []].
    intros [<- | []]. apply Z.ltb_lt in Hw. now repeat split.
  - intros count L Hidle Ht Hok Hsplit Hw. rewrite main_sleeps, Ht, Hidle.
    destruct (launch_trace w (Z.to_nat (num_ args)) 0 (proto args)
                (host args)
                (if String.eqb (direction args) "up"
                 then "TCP_STREAM" else "TCP_MAERTS")
                (L + warmup args + 2)) as (j & _ & _ & Hall).
    destruct (Hall Hok Hsplit) as [_ ->].
    apply Z.ltb_lt in Hw. now rewrite Hw.
Qed.

(** ** The order of the events *)

Lemma main_after_probe w args :
  forallb is_quiet (after_probe (fst (main w args))) = true /\
  (forall n, In (EGather n) (fst (main w args)) ->
             In (EGather n) (after_probe (fst (main w args)))).
Proof.
  destruct (timing (length args) (interval args)) as [[count L] | e] eqn:Ht.
  2:{ rewrite (main_timing_raises w args e Ht). split; [reflexivity |].
      intros n []. }
  destruct (idle args) eqn:Hidle.
  - rewrite (main_idle_trace w args count L Hidle Ht). cbn [after_probe].
    assert (Hp : forallb is_print
                   match ping_outcome w with
                   | Ok res => fst (print_result args res None)
                   | Raise _ => []
                   end = true).
    { destruct (ping_outcome w); [apply print_result_prints | reflexivity]. }
    split.
    + cbn [forallb is_quiet andb]. now apply prints_quiet.
    + intros n [H | [H | H]]; try discriminate. exact H.
  - rewrite (main_load_trace w args count L Hidle Ht). cbv zeta.
    destruct (launch_trace w (Z.to_nat (num_ args)) 0 (proto args) (host args)
                (if String.eqb (direction args) "up"
                 then "TCP_STREAM" else "TCP_MAERTS")
                (L + warmup args + 2)) as (j & _ & Hl & _).
    rewrite Hl. cbn [after_probe].
    rewrite after_probe_app by apply probes_repeat_spawn.
    destruct (snd (launch _ _ _ _ _ _ _)) as [procs | e].
    2:{ split; [reflexivity |].
        intros n [H | H]; [discriminate |].
        apply in_app_or in H as [H | []].
        apply repeat_spec in H. discriminate. }
    set (tail := match gather w procs with
                 | Ok speeds =>
                     EAwaitPing
                     :: match ping_outcome w with
                        | Ok res =>
                            fst (print_result args res (Some (py_sum speeds)))
                        | Raise _ => []
                        end
                 | Raise _ => []
                 end).
    assert (Hq : forallb is_quiet tail = true).
    { unfold tail. destruct (gather w procs); [| reflexivity].
      cbn [forallb is_quiet andb].
      destruct (ping_outcome w); [| reflexivity].
      apply prints_quiet, print_result_prints. }
    assert (Ha : after_probe
                   ((if 0 <? warmup args
                     then [EPrint (LWarmup (warmup args)); ESleep (warmup args)]
                     else []) ++
                    EPrint LRunning :: EPing (ping args) count (interval args)
                    :: EGather (List.length procs) :: tail) =
                 EGather (List.length procs) :: tail).
    { destruct (0 <? warmup args); reflexivity. }
    rewrite Ha. split; [exact Hq |].
    intros n [H | H]; [discriminate |].
    apply in_app_or in H as [H | H];
      [apply repeat_spec in H; discriminate |].
    apply in_app_or in H as [H | H].
    + destruct (0 <? warmup args); [| destruct H].
      destruct H as [H | [H | []]]; discriminate.
    + destruct H as [H | [H | H]]; try discriminate. exact H.
Qed.

(** X3.  Once the probe has been started no session is launched, nothing
    sleeps and no second probe is started: the sessions and the warm-up
    come before the probe.  The results of the sessions are collected
    after the start of the probe only. *)
Theorem probe_starts_after_launches w args :
  spawns (after_probe (fst (main w args))) = [] /\
  sleeps (after_probe (fst (main w args))) = [] /\
  probes (after_probe (fst (main w args))) = [] /\
  (forall n, In (EGather n) (fst (main w args)) ->
             In (EGather n) (after_probe (fst (main w args)))).
Proof.
  destruct (main_after_probe w args) as [Hq Hg].
  destruct (quiet_spec _ Hq) as (Hs & Hz & Hp).
  now repeat split.
Qed.

(** ** The exceptions of a run *)

Lemma rbind_raises {A B : Type} (r : result A) (k : A -> result B) e :
  rbind r k = Raise e ->
  r = Raise e \/ exists a, r = Ok a /\ k a = Raise e.
Proof.
  destruct r as [a | e0]; cbn; intros H; 
    [right; now exists a | left; now injection H as ->].
Qed.

Lemma float_of_int_raises n e :
  float_of_int n = Raise e -> is_own_exception e = true.
Proof.
  unfold float_of_int. destruct (of_int n); try discriminate.
  now intros [= <-].
Qed.

Lemma ceil_raises x e : ceil x = Raise e -> is_own_exception e = true.
Proof. destruct x; cbn; try discriminate; now intros [= <-]. Qed.

Lemma timing_raises len i e :
  timing len i = Raise e -> is_own_exception e = true.
Proof.
  unfold timing, truediv_int_float, mul_int_float. intros H.
  apply rbind_raises in H as [H | (q & _ & H)].
  { apply rbind_raises in H as [H | (x & _ & H)];
      [now apply (float_of_int_raises _ _ H) |].
    destruct (is_zero i); [| discriminate]. now injection H as <-. }
  apply rbind_raises in H as [H | (count & _ & H)];
    [now apply (ceil_raises _ _ H) |].
  apply rbind_raises in H as [H | (p & _ & H)].
  { apply rbind_raises in H as [H | (x & _ & H)];
      [now apply (float_of_int_raises _ _ H) | discriminate]. }
  apply rbind_raises in H as [H | (L & _ & H)];
    [now apply (ceil_raises _ _ H) | discriminate].
Qed.

Lemma launch_raises w n k pr h d l e :
  snd (launch w n k pr h d l) = Raise e ->
  (e = ValueError /\ shlex_split (command pr h d l) = None) \/
  (e = OSError /\ exists i, (i < n)%nat /\ spawn_ok w (k + i) = false).
Proof.
  revert k. induction n as [| n IH]; intros k; [discriminate |].
  cbn [launch]. rewrite run_netperf_spec.
  destruct (shlex_split (command pr h d l)) as [words |] eqn:Hw.
  2:{ intros [= <-]. now left. }
  destruct (spawn_ok w k) eqn:Hk.
  2:{ intros [= <-]. right. split; [reflexivity |].
      exists 0%nat. split; [lia | now rewrite Nat.add_0_r]. }
  trace_simpl. specialize (IH (S k)).
  destruct (snd (launch w n (S k) pr h d l)); cbn; [discriminate |].
  intros [= <-]. destruct (IH eq_refl) as [[He Hn] | (He & i & Hi & Hb)].
  - discriminate.
  - right. split; [exact He |]. exists (S i). split; [lia |].
    now replace (k + S i)%nat with (S k + i)%nat by lia.
Qed.

Lemma launch_raises_own w n k pr h d l e :
  snd (launch w n k pr h d l) = Raise e -> is_own_exception e = true.
Proof.
  intros H. now destruct (launch_raises _ _ _ _ _ _ _ _ H)
    as [[-> _] | [-> _]].
Qed.

Lemma gather_raises w procs e :
  gather w procs = Raise e ->
  e = ValueError /\
  exists p, In p procs /\ py_float (strip (proc_stdout w p)) = None.
Proof.
  induction procs as [| p ps IH]; cbn; [discriminate |].
  unfold get_netperf at 1.
  destruct (py_float (strip (proc_stdout w p))) eqn:Hp; cbn.
  2:{ intros [= <-]. split; [reflexivity |]. exists p. now split; [left |]. }
  destruct (gather w ps); cbn; [discriminate |].
  intros [= <-]. destruct (IH eq_refl) as (He & q & Hq & Hbad).
  split; [exact He |]. exists q. now split; [right |].
Qed.

(** The report of a run whose probe fails. *)
Lemma main_probe_fails_report w args e :
  ping_outcome w = Raise e -> report_lines (fst (main w args)) = [].
Proof.
  intros Hp.
  destruct (timing (length args) (interval args)) as [[count L] | e0] eqn:Ht.
  2:{ now rewrite (main_timing_raises w args e0 Ht). }
  destruct (idle args) eqn:Hidle.
  - rewrite (main_idle_trace w args count L Hidle Ht), Hp. reflexivity.
  - rewrite (main_load_trace w args count L Hidle Ht). cbv zeta.
    destruct (launch_trace w (Z.to_nat (num_ args)) 0 (proto args) (host args)
                (if String.eqb (direction args) "up"
                 then "TCP_STREAM" else "TCP_MAERTS")
                (L + warmup args + 2)) as (j & _ & Hl & _).
    rewrite Hl, Hp.
    change (report_lines (?e :: ?t)) with (report_lines t).
    rewrite report_lines_app. unfold report_lines at 1.
    rewrite printed_repeat_spawn.
    destruct (snd (launch _ _ _ _ _ _ _)) as [procs | e1]; [| reflexivity].
    destruct (0 <? warmup args); destruct (gather w procs); reflexivity.
Qed.

(** X4.  When the probe fails no line of the report is printed, in either
    mode, and the run ends with an exception: the one of the probe, unless
    the timing, a launch or a session has raised one before. *)
Theorem probe_failure_no_report w args e :
  ping_outcome w = Raise e ->
  report_lines (fst (main w args)) = [] /\
  exists e', snd (main w args) = Raise e' /\
             (e' = e \/ is_own_exception e' = true).
Proof.
  intros Hp. split; [now apply (main_probe_fails_report w args e) |].
  rewrite main_snd.
  destruct (timing (length args) (interval args)) as [[count L] | e0] eqn:Ht.
  2:{ exists e0. split; [reflexivity |]. right.
      now apply (timing_raises _ _ _ Ht). }
  destruct (idle args).
  - rewrite Hp. exists e. split; [reflexivity | now left].
  - destruct (snd (launch _ _ _ _ _ _ _)) as [procs | e1] eqn:Hl; cbn.
    2:{ exists e1. split; [reflexivity |]. right.
        now apply (launch_raises_own _ _ _ _ _ _ _ _ Hl). }
    destruct (gather w procs) as [speeds | e2] eqn:Hg; cbn.
    2:{ exists e2. split; [reflexivity |]. right.
        now destruct (gather_raises _ _ _ Hg) as [-> _]. }
    rewrite Hp. exists e. split; [reflexivity | now left].
Qed.



(** ** Idle mode and the parameters of the load *)

(** X6.  In idle mode a run reads the ping host, the length and the
    interval only: the protocol, the host, the direction, the warm-up and
    the session count do not change it. *)
Theorem idle_ignores_load_parameters w args args' :
  idle args = true -> idle args' = true ->
  ping args' = ping args ->
  length args' = length args ->
  interval args' = interval args ->
  main w args' = main w args.
Proof.
  intros Hi Hi' Hp Hl Hint. unfold main.
  rewrite Hi, Hi', Hp, Hl, Hint. reflexivity.
Qed.

(** ** The output of a session *)

(** X7.  White space before and after the output of a session does not
    change the number [get_netperf] reads, nor whether it raises. *)
Theorem session_output_padding_ignored w w' p a b :
  all_space a = true -> all_space b = true ->
  proc_stdout w' p = (a ++ proc_stdout w p ++ b)%string ->
  get_netperf w' p = get_netperf w p.
Proof.
  intros Ha Hb Hout. unfold get_netperf.
  now rewrite Hout, (strip_padded a _ b Ha Hb).
Qed.

(** A run in load mode whose launches succeed and where the collection
    of the results raises. *)
Lemma main_gather_raises w args count L e :
  idle args = false ->
  timing (length args) (interval args) = Ok (count, L) ->
  (forall i, spawn_ok w i = true) ->
  shlex_split (session_command args L) <> None ->
  gather w (seq 0 (Z.to_nat (num_ args))) = Raise e ->
  snd (main w args) = Raise e /\ report_lines (fst (main w args)) = [].
Proof.
  intros Hidle Ht Hok Hsplit Hg.
  destruct (launch_trace w (Z.to_nat (num_ args)) 0 (proto args) (host args)
              (if String.eqb (direction args) "up"
               then "TCP_STREAM" else "TCP_MAERTS")
              (L + warmup args + 2)) as (j & _ & Hl & Hall).
  destruct (Hall Hok Hsplit) as [-> Hs].
  split.
  - rewrite main_snd, Ht, Hidle, Hs. cbn. now rewrite Hg.
  - rewrite (main_load_trace w args count L Hidle Ht). cbv zeta.
    rewrite Hl, Hs, Hg.
    change (report_lines (?e :: ?t)) with (report_lines t).
    rewrite report_lines_app. unfold report_lines at 1.
    rewrite printed_repeat_spawn.
    destruct (0 <? warmup args); reflexivity.
Qed.

(** X8.  A session that writes nothing but white space on its standard
    output ends the run with [ValueError] before any line of the report,
    as [float] refuses the empty text. *)
Theorem blank_session_output_is_fatal w args count L k :
  py_float "" = None ->
  idle args = false ->
  timing (length args) (interval args) = Ok (count, L) ->
  (forall i, spawn_ok w i = true) ->
  (k < Z.to_nat (num_ args))%nat ->
  all_space (proc_stdout w k) = true ->
  snd (main w args) = Raise ValueError /\
  report_lines (fst (main w args)) = [].
Proof.
  intros Hempty Hidle Ht Hok Hk Hblank.
  destruct (shlex_split (session_command args L)) eqn:Hw.
  - apply (main_gather_raises w args count L ValueError Hidle Ht Hok).
    + now rewrite Hw.
    + apply gather_fails with (p := k); [apply in_seq; lia |].
      now rewrite (strip_all_space _ Hblank).
  - rewrite (main_unsplit w args count L Hidle Ht Hw ltac:(lia)).
    split; reflexivity.
Qed.

(** ** Intervals that are not finite *)

(** X9.  An interval that is a NaN or an infinity is accepted by the
    command line and ends the run with [ValueError] in the timing
    computation, before anything is printed: the quotient or the product
    [count * interval] is a NaN, which [ceil] refuses. *)
Theorem non_finite_interval_raises w args x :
  float_of_int (length args) = Ok x ->
  is_finite (interval args) = false ->
  main w args = ([], Raise ValueError).
Proof.
  intros Hx Hfin. apply main_timing_raises.
  unfold timing, truediv_int_float. rewrite Hx. cbn [rbind].
  assert (Hxi : forall s, x <> S754_infinity s).
  { intros s ->. unfold float_of_int in Hx.
    destruct (of_int (length args)); discriminate. }
  destruct (interval args) as [s | s | | s m e]; try discriminate.
  - destruct x as [sx | sx | | sx mx ex];
      [| now destruct (Hxi sx) | reflexivity |]; reflexivity.
  - destruct x; reflexivity.
Qed.

(** ** The protocol *)

(** X10.  The protocol number is not checked: any number other than 4 is
    announced as [ipv6] in the banner, and the number itself is what every
    session is launched with. *)
Theorem unknown_proto_is_labelled_ipv6 w args count L :
  idle args = false ->
  timing (length args) (interval args) = Ok (count, L) ->
  proto args <> 4 ->
  hd_error (printed (fst (main w args))) =
    Some (LLoadBanner (num_ args) "ipv6" (direction args) (host args)
            (ping args) (fdiv (of_int 1) (interval args)) L) /\
  Forall (fun c => np_proto c = proto args) (spawns (fst (main w args))).
Proof.
  intros Hidle Ht Hp. split.
  - rewrite (main_load_trace w args count L Hidle Ht). cbv zeta.
    apply Z.eqb_neq in Hp. now rewrite Hp.
  - destruct (load_spawns w args count L Hidle Ht) as (j & _ & -> & _).
    apply Forall_forall. intros c Hc. apply repeat_spec in Hc. now subst c.
Qed.

(** ** The collection of the results *)

(** X16.  A run in load mode ends normally only when a float has been
    read from the output of every one of the [num] sessions, each of them
    started; the report is then the one of the sum of all these
    floats. *)
Theorem gather_collects_every_session w args :
  idle args = false ->
  snd (main w args) = Ok tt ->
  exists speeds res,
    Forall2 (fun k x => get_netperf w k = Ok x)
      (seq 0 (Z.to_nat (num_ args))) speeds /\
    List.length (spawns (fst (main w args))) = Z.to_nat (num_ args) /\
    (forall i, (i < Z.to_nat (num_ args))%nat -> spawn_ok w i = true) /\
    ping_outcome w = Ok res /\
    report_lines (fst (main w args)) =
      report_lines (fst (print_result args res (Some (py_sum speeds)))).
Proof.
  intros Hidle Hend.
  destruct (timing (length args) (interval args)) as [[count L] | e] eqn:Ht.
  2:{ rewrite (main_timing_raises w args e Ht) in Hend. discriminate. }
  rewrite main_snd, Ht, Hidle in Hend.
  destruct (snd (launch _ _ _ _ _ _ _)) as [procs | e] eqn:Hs;
    [| discriminate].
  destruct (launch_ok _ _ _ _ _ _ _ _ Hs) as (-> & Hl & Hok & _).
  cbn [rbind] in Hend.
  destruct (gather w _) as [speeds | e] eqn:Hg; [| discriminate].
  cbn [rbind] in Hend.
  destruct (ping_outcome w) as [res | e] eqn:Hres; [| discriminate].
  exists speeds, res.
  split; [now apply gather_spec |].
  assert (Htrace : fst (main w args) =
            EPrint (LLoadBanner (num_ args)
                      (if proto args =? 4 then "ipv4" else "ipv6")
                      (direction args) (host args) (ping args)
                      (fdiv (of_int 1) (interval args)) L)
            :: repeat (ESpawn (session_call args L)
                         (words_of (session_command args L)))
                 (Z.to_nat (num_ args)) ++
               (if 0 <? warmup args
                then [EPrint (LWarmup (warmup args)); ESleep (warmup args)]
                else []) ++
               EPrint LRunning :: EPing (ping args) count (interval args)
               :: EGather (Z.to_nat (num_ args)) :: EAwaitPing
               :: fst (print_result args res (Some (py_sum speeds)))).
  { rewrite (main_load_trace w args count L Hidle Ht). cbv zeta.
    rewrite Hl, Hs, Hg, Hres, length_seq. reflexivity. }
  rewrite Htrace. split; [| split; [| split; [reflexivity |]]].
  - change (spawns (?e :: ?t)) with (spawns t).
    rewrite !spawns_app, spawns_repeat, length_app, repeat_length.
    change (spawns (?a :: ?b :: ?c :: ?d :: ?t)) with (spawns t).
    rewrite print_result_spawns, app_nil_r.
    destruct (0 <? warmup args); unfold spawns; simpl; lia.
  - intros i Hi. exact (Hok i Hi).
  - change (report_lines (?e :: ?t)) with (report_lines t).
    rewrite !report_lines_app. unfold report_lines at 1.
    rewrite printed_repeat_spawn. cbn [filter app].
    destruct (0 <? warmup args); reflexivity.
Qed.

(** ** The words the sessions are started with *)

(** X18.  In load mode with a host that is one word (not empty, without
    white space, quote or backslash) and launches that succeed, every one
    of the [num] sessions is started as the program [netperf] with the
    eleven words of the command line: the protocol flag, [-H] and the
    host, [-t] and the stream, [-l] and the congruent duration plus the
    warm-up plus two, [-v 0] and [-P 0]. *)
Theorem sessions_command_line w args count L :
  idle args = false ->
  timing (length args) (interval args) = Ok (count, L) ->
  is_word (host args) = true ->
  (forall i, spawn_ok w i = true) ->
  execs (fst (main w args)) =
    repeat ["netperf"; ("-" ++ str_int (proto args))%string; "-H"; host args;
            "-t";
            if String.eqb (direction args) "up"
            then "TCP_STREAM" else "TCP_MAERTS";
            "-l"; str_int (L + warmup args + 2); "-v"; "0"; "-P"; "0"]
      (Z.to_nat (num_ args)).
Proof.
  intros Hidle Ht Hh Hok.
  assert (Hd : is_word (if String.eqb (direction args) "up"
                        then "TCP_STREAM" else "TCP_MAERTS") = true)
    by (destruct (String.eqb (direction args) "up"); reflexivity).
  pose proof (command_words (proto args) (host args) _
                (L + warmup args + 2) Hh Hd) as Hw.
  rewrite (main_load_trace w args count L Hidle Ht). cbv zeta.
  destruct (launch_trace w (Z.to_nat (num_ args)) 0 (proto args) (host args)
              (if String.eqb (direction args) "up"
               then "TCP_STREAM" else "TCP_MAERTS")
              (L + warmup args + 2)) as (j & _ & Hl & Hall).
  destruct (Hall Hok) as [-> Hs]; [now rewrite Hw |].
  rewrite Hl, Hs, (words_of_some _ _ Hw).
  change (execs (?e :: ?t)) with (execs t).
  rewrite execs_app, execs_repeat.
  match goal with |- _ ++ ?x = _ => replace x with (@nil (list string)) end;
    [apply app_nil_r |].
  rewrite execs_app.
  generalize (gather w (seq 0 (Z.to_nat (num_ args)))). intros g.
  destruct (0 <? warmup args); cbn;
    (destruct g as [speeds | e]; [| reflexivity]);
    (destruct (ping_outcome w) as [res | e]; cbn; [| reflexivity]);
    symmetry; apply quiet_execs, prints_quiet, print_result_prints.
Qed.

End ProgramFacts.

(** ** The scenarios of the specification *)

Example dec_tenth : dec 1 10 = S754_finite false 7205759403792794 (-56).
Proof. vm_compute. reflexivity. Qed.

(** C2.  With an interval of 0.1 and a length of 30 the timing of [main]
    is 300 samples and a congruent duration of 30 seconds. *)
Theorem timing_default_scenario :
  interval default_args = dec 1 10 /\ length default_args = 30 /\
  timing (length default_args) (interval default_args) = Ok (300, 30).
Proof.
  split; [reflexivity | split; [reflexivity |]].
  vm_compute. reflexivity.
Qed.

Example timing_inflates : timing 10 (dec 3 10) = Ok (34, 11).
Proof. vm_compute. reflexivity. Qed.

Example sample_run :
  snd (main decimal_float linear_percentile sample_world
         (with_num default_args 3)) = Ok tt.
Proof. vm_compute. reflexivity. Qed.

Lemma load_sessions_duration_witness :
  exists j : nat,
    (j <= 5)%nat /\
    spawns (fst (main decimal_float linear_percentile sample_world
                   default_args)) =
      repeat {| np_proto := 4; np_host := "netperf-west.bufferbloat.net";
                np_direction := "TCP_STREAM"; np_length := 30 + 10 + 2 |} j /\
    ((forall i, spawn_ok sample_world i = true) ->
     shlex_split (session_command default_args 30) <> None -> j = 5%nat).
Proof.
  apply (load_sessions_duration decimal_float linear_percentile sample_world
           default_args 300 30).
  - reflexivity.
  - vm_compute. reflexivity.
Defined.

Lemma idle_mode_probe_only_witness :
  probes (fst (main decimal_float linear_percentile sample_world idle_args)) =
    [("1.1.1.1", 5, of_int 1)] /\
  spawns (fst (main decimal_float linear_percentile sample_world idle_args)) =
    [] /\
  throughput_lines
    (fst (main decimal_float linear_percentile sample_world idle_args)) = [].
Proof.
  assert (Ht : timing (length idle_args) (interval idle_args) = Ok (5, 5))
    by (vm_compute; reflexivity).
  pose proof (idle_mode_probe_only decimal_float linear_percentile
                sample_world idle_args eq_refl) as (Hs & Hl & Hok & _).
  exact (conj (proj1 (Hok 5 5 Ht)) (conj Hs Hl)).
Defined.

(** With [idle] set and an interval of zero no probe is run: the run ends
    with [ZeroDivisionError] in the timing computation, before anything is
    printed. *)
Lemma idle_zero_interval_starts_no_probe :
  idle (with_interval idle_args (of_int 0)) = true /\
  main decimal_float linear_percentile sample_world
    (with_interval idle_args (of_int 0)) = ([], Raise ZeroDivisionError) /\
  probes (fst (main decimal_float linear_percentile sample_world
                 (with_interval idle_args (of_int 0)))) = [].
Proof. repeat split; vm_compute; reflexivity. Qed.

Lemma aggregate_throughput_is_sum_witness :
  throughput_lines
    (fst (main decimal_float linear_percentile sample_world
            (with_num default_args 3))) =
  [LThroughput "Upload" (Flt (dec 323 10))].
Proof.
  assert (Ht : timing (length (with_num default_args 3))
                 (interval (with_num default_args 3)) = Ok (300, 30))
    by (vm_compute; reflexivity).
  assert (Hg : Forall2
                 (fun k x => get_netperf decimal_float sample_world k = Ok x)
                 (seq 0 (Z.to_nat (num_ (with_num default_args 3))))
                 [dec 10 1; dec 125 10; dec 98 10])
    by (repeat constructor; vm_compute; reflexivity).
  assert (Hw : shlex_split (session_command (with_num default_args 3) 30)
               <> None) by (vm_compute; discriminate).
  pose proof (aggregate_throughput_is_sum decimal_float linear_percentile
                sample_world (with_num default_args 3) 300 30
                [dec 10 1; dec 125 10; dec 98 10] sample_host
                eq_refl Ht (fun _ => eq_refl) Hw Hg eq_refl)
    as [[_ Hthr] Hsum].
  rewrite (Hthr ltac:(vm_compute; reflexivity)), Hsum. reflexivity.
Defined.

Lemma throughput_line_iff_truthy_witness :
  py_sum [of_int 0; of_int 0; of_int 0; of_int 0; of_int 0] = Flt (of_int 0) /\
  throughput_lines
    (fst (main decimal_float linear_percentile stalled_world default_args)) =
  [].
Proof.
  split; [vm_compute; reflexivity |].
  assert (Ht : timing (length default_args) (interval default_args)
               = Ok (300, 30)) by (vm_compute; reflexivity).
  pose proof (throughput_line_iff_truthy decimal_float linear_percentile
                stalled_world default_args sample_host None)
    as (_ & _ & Hmain).
  apply (Hmain 300 30 [of_int 0; of_int 0; of_int 0; of_int 0; of_int 0]).
  - reflexivity.
  - exact Ht.
  - intros i. reflexivity.
  - vm_compute. reflexivity.
  - vm_compute. reflexivity.
Defined.

Lemma unknown_direction_is_download_witness :
  spawns (fst (main decimal_float linear_percentile sample_world
                 (with_direction (with_num default_args 3) "sideways"))) =
    repeat {| np_proto := 4; np_host := "netperf-west.bufferbloat.net";
              np_direction := "TCP_MAERTS"; np_length := 30 + 10 + 2 |} 3 /\
  throughput_lines
    (fst (main decimal_float linear_percentile sample_world
            (with_direction (with_num default_args 3) "sideways"))) =
    [LThroughput "Download" (py_sum [dec 10 1; dec 125 10; dec 98 10])].
Proof.
  assert (Hd : direction (with_direction (with_num default_args 3) "sideways")
               <> "up") by (apply String.eqb_neq; reflexivity).
  assert (Ht : timing
                 (length (with_direction (with_num default_args 3) "sideways"))
                 (interval
                    (with_direction (with_num default_args 3) "sideways"))
               = Ok (300, 30)) by (vm_compute; reflexivity).
  assert (Hw : shlex_split
                 (command 4 "netperf-west.bufferbloat.net" "TCP_MAERTS"
                    (30 + 10 + 2)) <> None) by (vm_compute; discriminate).
  pose proof (proj1 (unknown_direction_is_download decimal_float
                       linear_percentile sample_world
                       (with_direction (with_num default_args 3) "sideways")
                       Hd)
                300 30 eq_refl Ht Hw (fun _ => eq_refl)) as [Hs Hthr].
  split; [exact Hs |].
  apply (Hthr [dec 10 1; dec 125 10; dec 98 10] sample_host).
  - vm_compute. reflexivity.
  - reflexivity.
  - vm_compute. reflexivity.
Defined.

Lemma unparsable_session_is_fatal_witness :
  snd (main decimal_float linear_percentile garbled_world
         (with_num default_args 3)) = Raise ValueError /\
  report_lines (fst (main decimal_float linear_percentile garbled_world
                       (with_num default_args 3))) = [].
Proof.
  assert (Ht : timing (length (with_num default_args 3))
                 (interval (with_num default_args 3)) = Ok (300, 30))
    by (vm_compute; reflexivity).
  assert (Hk : (1 < Z.to_nat (num_ (with_num default_args 3)))%nat)
    by (vm_compute; lia).
  assert (Hbad : decimal_float (strip (proc_stdout garbled_world 1)) = None)
    by (vm_compute; reflexivity).
  pose proof (unparsable_session_is_fatal decimal_float linear_percentile
                garbled_world (with_num default_args 3) 300 30 1%nat
                eq_refl Ht (fun _ => eq_refl) Hk Hbad) as (Hr & Hl & _).
  exact (conj Hr Hl).
Defined.

(** A session that exits with a status other than zero and writes a
    number is counted like any other: the run ends normally with its
    report. *)
Lemma nonzero_exit_status_is_not_fatal :
  (forall k, proc_returncode failing_status_world k = 1) /\
  snd (main decimal_float linear_percentile failing_status_world
         (with_num default_args 3)) = Ok tt /\
  report_lines (fst (main decimal_float linear_percentile failing_status_world
                       (with_num default_args 3))) =
    [LThroughput "Upload" (Flt (dec 323 10));
     LLatency 3 (of_int 0);
     LStat "Min:" (dec 101 10);
     LStat "10pct:" (S754_finite false 5933492509060628 (-49));
     LStat "Median:" (dec 123 10);
     LStat "Avg:" (dec 1247 100);
     LStat "90pct:" (S754_finite false 8140256326472172 (-49));
     LStat "Max:" (dec 150 10);
     LStat "Jitter:" (dec 355 100)].
Proof.
  split; [reflexivity |]. split; vm_compute; reflexivity.
Qed.

Lemma unchecked_parameters_witness :
  main decimal_float linear_percentile sample_world
    (with_interval default_args (S754_zero false)) =
    ([], Raise ZeroDivisionError) /\
  spawns (fst (main decimal_float linear_percentile sample_world
                 (with_num default_args 0))) = [] /\
  probes (fst (main decimal_float linear_percentile sample_world
                 (with_num default_args 0))) = [("1.1.1.1", 300, dec 1 10)].
Proof.
  split.
  - destruct (proj1 (unchecked_parameters decimal_float linear_percentile
                       sample_world
                       (with_interval default_args (S754_zero false)))
                eq_refl) as [H | H]; [exact H |].
    vm_compute in H. discriminate H.
  - assert (Ht : timing (length (with_num default_args 0))
                   (interval (with_num default_args 0)) = Ok (300, 30))
      by (vm_compute; reflexivity).
    assert (Hn : num_ (with_num default_args 0) < 1) by (vm_compute; reflexivity).
    pose proof (proj2 (unchecked_parameters decimal_float linear_percentile
                         sample_world (with_num default_args 0))
                  300 30 eq_refl Hn Ht) as (Hs & Hp & _).
    exact (conj Hs Hp).
Defined.

(** An interval of -0.1 is below zero and is not refused: the timing is
    -300 samples for 30 seconds, the five sessions are launched for 42
    seconds and the run ends normally.  A session count of zero is not
    refused either. *)
Lemma negative_interval_is_not_rejected :
  fltb (interval (with_interval default_args (SFopp (dec 1 10)))) (of_int 0)
    = true /\
  timing 30 (SFopp (dec 1 10)) = Ok (-300, 30) /\
  spawns (fst (main decimal_float linear_percentile sample_world
                 (with_interval default_args (SFopp (dec 1 10))))) =
    repeat {| np_proto := 4; np_host := "netperf-west.bufferbloat.net";
              np_direction := "TCP_STREAM"; np_length := 42 |} 5 /\
  snd (main decimal_float linear_percentile sample_world
         (with_interval default_args (SFopp (dec 1 10)))) = Ok tt /\
  snd (main decimal_float linear_percentile sample_world
         (with_num default_args 0)) = Ok tt.
Proof. repeat split; vm_compute; reflexivity. Qed.

Lemma empty_samples_partial_report_witness :
  exists rest,
    printed (fst (print_result linear_percentile default_args empty_host None))
    = throughput_lines
        (fst (print_result linear_percentile default_args empty_host None)) ++
      LLatency 3 (fmul (of_int 1) (of_int 100))
      :: LStat "Min:" (of_int 0) :: rest /\
    (forall e, linear_percentile [] 10 = Raise e ->
               rest = [] /\
               snd (print_result linear_percentile default_args empty_host
                      None) = Raise e).
Proof.
  exact (empty_samples_partial_report linear_percentile default_args
           empty_host None eq_refl).
Defined.

(** With no sample and a percentile that raises on an empty list, the
    latency header and the minimum are printed before the exception. *)
Lemma empty_samples_print_partial_report :
  print_result linear_percentile default_args empty_host None =
  ([EPrint (LLatency 3 (of_int 100)); EPrint (LStat "Min:" (of_int 0))],
   Raise IndexError).
Proof. vm_compute. reflexivity. Qed.

(** For a length of 10 and an interval of 0.3 the congruent duration is
    11: one second above the length, which is more than one interval. *)
Lemma congruent_duration_beyond_one_interval :
  timing 10 (dec 3 10) = Ok (34, 11) /\
  fleb (of_int (11 - 10)) (dec 3 10) = false /\
  fltb (dec 3 10) (of_int (11 - 10)) = true.
Proof. repeat split; vm_compute; reflexivity. Qed.

(** ** The timing on particular inputs *)

Example dec_three_tenths :
  dec 3 10 = S754_finite false 5404319552844595 (-54).
Proof. vm_compute. reflexivity. Qed.

Lemma timing_bounds_witness :
  exists count L,
    timing 10 (S754_finite false 5404319552844595 (-54)) = Ok (count, L) /\
    10 <= L <= 10 + ceil_finite false 5404319552844595 (-54) /\
    (L - 10 - 1) * 2 ^ 1074 < units 5404319552844595 (-54).
Proof.
  apply (timing_bounds 10 5404319552844595 (-54)).
  - split; [lia | vm_compute; discriminate].
  - vm_compute. reflexivity.
  - vm_compute. reflexivity.
Defined.

(** Outside the range of the bounds: the quotient by the least
    positive double overflows, and close to [2^53] the congruent duration
    can fall one second short of the length. *)
Example timing_overflow :
  timing 1 (S754_finite false 1 (-1074)) = Raise OverflowError.
Proof. vm_compute. reflexivity. Qed.

Example timing_short_near_2_53 :
  bounded prec emax 7943334716788618 (-52) = true /\
  timing 9007199254740170 (S754_finite false 7943334716788618 (-52)) =
    Ok (5106774503857171, 9007199254740169).
Proof. split; vm_compute; reflexivity. Qed.

(** ** The further properties on sample runs *)

Lemma launch_failure_stops_run_witness :
  snd (main decimal_float linear_percentile launch_failure_world
         default_args) = Raise OSError /\
  execs (fst (main decimal_float linear_percentile launch_failure_world
                default_args)) = repeat ("netperf" :: default_words) 3 /\
  probes (fst (main decimal_float linear_percentile launch_failure_world
                 default_args)) = [].
Proof.
  assert (Ht : timing (length default_args) (interval default_args)
               = Ok (300, 30)) by (vm_compute; reflexivity).
  assert (Hw : shlex_split (session_command default_args 30)
               = Some default_words) by (vm_compute; reflexivity).
  assert (Hj : (2 < Z.to_nat (num_ default_args))%nat) by (vm_compute; lia).
  assert (Hok : forall i, (i < 2)%nat ->
                          spawn_ok launch_failure_world i = true).
  { intros [| [| i]] Hi; [reflexivity | reflexivity | lia]. }
  pose proof (launch_failure_stops_run decimal_float linear_percentile
                launch_failure_world default_args 300 30 2 default_words
                eq_refl Ht Hw Hj Hok eq_refl) as (Hr & He & _ & Hp & _).
  exact (conj Hr (conj He Hp)).
Defined.

Lemma unsplittable_command_stops_run_witness :
  snd (main decimal_float linear_percentile sample_world
         (with_host default_args "a'b")) = Raise ValueError /\
  execs (fst (main decimal_float linear_percentile sample_world
                (with_host default_args "a'b"))) = [] /\
  probes (fst (main decimal_float linear_percentile sample_world
                 (with_host default_args "a'b"))) = [].
Proof.
  assert (Ht : timing (length (with_host default_args "a'b"))
                 (interval (with_host default_args "a'b")) = Ok (300, 30))
    by (vm_compute; reflexivity).
  assert (Hw : shlex_split (session_command (with_host default_args "a'b") 30)
               = None) by (vm_compute; reflexivity).
  assert (Hn : 0 < num_ (with_host default_args "a'b")) by reflexivity.
  pose proof (unsplittable_command_stops_run decimal_float linear_percentile
                sample_world (with_host default_args "a'b") 300 30
                eq_refl Ht Hw Hn) as (Hr & He & _ & Hp & _).
  exact (conj Hr (conj He Hp)).
Defined.

Lemma sessions_command_line_witness :
  execs (fst (main decimal_float linear_percentile sample_world
                default_args)) = repeat ("netperf" :: default_words) 5.
Proof.
  assert (Ht : timing (length default_args) (interval default_args)
               = Ok (300, 30)) by (vm_compute; reflexivity).
  assert (Hh : is_word (host default_args) = true)
    by (vm_compute; reflexivity).
  exact (sessions_command_line decimal_float linear_percentile sample_world
           default_args 300 30 eq_refl Ht Hh (fun _ => eq_refl)).
Defined.

Lemma warmup_sleep_iff_positive_witness :
  sleeps (fst (main decimal_float linear_percentile sample_world
                 default_args)) = [10].
Proof.
  assert (Ht : timing (length default_args) (interval default_args)
               = Ok (300, 30)) by (vm_compute; reflexivity).
  assert (Hw : 0 < warmup default_args) by reflexivity.
  assert (Hs : shlex_split (session_command default_args 30) <> None)
    by (vm_compute; discriminate).
  exact (proj2 (warmup_sleep_iff_positive decimal_float linear_percentile
                  sample_world default_args)
           300 30 eq_refl Ht (fun _ => eq_refl) Hs Hw).
Defined.

Lemma probe_failure_no_report_witness :
  report_lines (fst (main decimal_float linear_percentile unreachable_world
                       default_args)) = [].
Proof.
  exact (proj1 (probe_failure_no_report decimal_float linear_percentile
                  unreachable_world default_args ProbeError eq_refl)).
Defined.


Lemma idle_ignores_load_parameters_witness :
  main decimal_float linear_percentile sample_world
    (with_num (with_host idle_args "example.net") 0) =
  main decimal_float linear_percentile sample_world idle_args.
Proof.
  apply (idle_ignores_load_parameters decimal_float linear_percentile
           sample_world idle_args
           (with_num (with_host idle_args "example.net") 0));
    reflexivity.
Defined.

Lemma session_output_padding_ignored_witness :
  get_netperf decimal_float padded_world 0 =
  get_netperf decimal_float sample_world 0.
Proof.
  apply (session_output_padding_ignored decimal_float sample_world
           padded_world 0%nat "  " nl); reflexivity.
Defined.

Lemma blank_session_output_is_fatal_witness :
  snd (main decimal_float linear_percentile blank_world default_args)
    = Raise ValueError /\
  report_lines (fst (main decimal_float linear_percentile blank_world
                       default_args)) = [].
Proof.
  apply (blank_session_output_is_fatal decimal_float linear_percentile
           blank_world default_args 300 30 0%nat).
  - vm_compute. reflexivity.
  - reflexivity.
  - vm_compute. reflexivity.
  - intros i. reflexivity.
  - vm_compute. lia.
  - vm_compute. reflexivity.
Defined.

Lemma non_finite_interval_raises_witness :
  main decimal_float linear_percentile sample_world
    (with_interval default_args (S754_infinity false)) =
  ([], Raise ValueError).
Proof.
  apply (non_finite_interval_raises decimal_float linear_percentile
           sample_world (with_interval default_args (S754_infinity false))
           (of_int 30)).
  - vm_compute. reflexivity.
  - reflexivity.
Defined.

Lemma unknown_proto_is_labelled_ipv6_witness :
  hd_error (printed (fst (main decimal_float linear_percentile sample_world
                            (with_proto default_args 6)))) =
    Some (LLoadBanner 5 "ipv6" "up" "netperf-west.bufferbloat.net" "1.1.1.1"
            (fdiv (of_int 1) (dec 1 10)) 30) /\
  Forall (fun c => np_proto c = 6)
    (spawns (fst (main decimal_float linear_percentile sample_world
                    (with_proto default_args 6)))).
Proof.
  apply (unknown_proto_is_labelled_ipv6 decimal_float linear_percentile
           sample_world (with_proto default_args 6) 300 30).
  - reflexivity.
  - vm_compute. reflexivity.
  - cbn. lia.
Defined.

Lemma sorted_nondecreasing_witness :
  Sorted (fun a b => fleb a b = true) (sorted (rtts sample_host)).
Proof.
  apply (sorted_nondecreasing (rtts sample_host)).
  repeat constructor; vm_compute; discriminate.
Defined.

Lemma probe_span_covers_length_witness :
  exists count L,
    timing 30 (S754_finite false 7205759403792794 (-56)) = Ok (count, L) /\
    1 <= count /\
    (2 * 30 - 1) * half_unit <= count * units 7205759403792794 (-56) /\
    count * units 7205759403792794 (-56)
      <= (30 + ceil_finite false 7205759403792794 (-56)) * one_unit.
Proof.
  apply (probe_span_covers_length 30 7205759403792794 (-56)).
  - split; [lia | vm_compute; discriminate].
  - vm_compute. reflexivity.
  - vm_compute. reflexivity.
Defined.

Lemma timing_succeeds_witness :
  exists count L,
    timing 30 (S754_finite false 7205759403792794 (-56)) = Ok (count, L) /\
    1 <= count /\ 30 <= L.
Proof.
  apply (timing_succeeds 30 7205759403792794 (-56)).
  - split; [lia | vm_compute; discriminate].
  - vm_compute. reflexivity.
  - vm_compute. discriminate.
Defined.

Lemma banner_rate_is_defined_witness :
  is_zero (dec 1 10) = false /\
  truediv_int_float 1 (dec 1 10) = Ok (fdiv (of_int 1) (dec 1 10)).
Proof.
  apply (banner_rate_is_defined 30 (dec 1 10) 300 30).
  vm_compute. reflexivity.
Defined.

Lemma gather_collects_every_session_witness :
  exists speeds res,
    Forall2 (fun k x => get_netperf decimal_float sample_world k = Ok x)
      (seq 0 (Z.to_nat (num_ (with_num default_args 3)))) speeds /\
    List.length
      (spawns (fst (main decimal_float linear_percentile sample_world
                      (with_num default_args 3))))
      = Z.to_nat (num_ (with_num default_args 3)) /\
    (forall i, (i < Z.to_nat (num_ (with_num default_args 3)))%nat ->
               spawn_ok sample_world i = true) /\
    ping_outcome sample_world = Ok res /\
    report_lines (fst (main decimal_float linear_percentile sample_world
                         (with_num default_args 3))) =
      report_lines (fst (print_result linear_percentile
                           (with_num default_args 3) res
                           (Some (py_sum speeds)))).
Proof.
  apply (gather_collects_every_session decimal_float linear_percentile
           sample_world (with_num default_args 3)).
  - reflexivity.
  - vm_compute. reflexivity.
Defined.
